(** * Adaptive failure learning and insight ranking

    A shallow embedding of the adaptive testing engine
    ([ai_testing/adaptive/adaptive_testing_engine.py]) and of the parts of
    the analytics dashboard ([ai_testing/analytics/advanced_dashboard.py])
    that rank insights and detect flaky tests, with the properties the
    specification states about them.

    Conventions of the embedding.
    - A Python [str] is a [string]; a character stands for the code point
      of the same number, so the texts covered are those over code points
      0..255.  On that range [str.lower], [str.isspace] and the regular
      expression classes [\s] and [\w] are the tables written out below.
    - A Python [int] is a [Z]; a Python [float] is the rational it denotes
      ([Q]); the divisions and comparisons of the source are exact there.
    - [datetime.now()] reads a clock that the environment supplies; the
      engine counts its reads.
    - A [dict] that is iterated is an association list in insertion order. *)

From Stdlib Require Import Ascii NArith ZArith QArith Qminmax Lqa Lia Bool Sorted.
From stdpp Require Import base option list strings pretty gmap.

Local Open Scope N_scope.

(** ** Python strings *)

Module PyStr.

Definition code (c : ascii) : N := N_of_ascii c.

Definition between (lo hi : N) (c : ascii) : bool :=
  (lo <=? code c) && (code c <=? hi).

(** [str.lower()] on one character: A-Z and the Latin-1 capitals
    (192..222 but the multiplication sign 215) move up by 32. *)
Definition lower_char (c : ascii) : ascii :=
  if between 65 90 c || (between 192 222 c && negb (code c =? 215))
  then ascii_of_N (code c + 32)
  else c.

Fixpoint lower (s : string) : string :=
  match s with
  | EmptyString => EmptyString
  | String c t => String (lower_char c) (lower t)
  end.

(** [str.isspace()] on one character; the class [\s] is the same set. *)
Definition is_space (c : ascii) : bool :=
  between 9 13 c || between 28 32 c || (code c =? 133) || (code c =? 160).

(** The class [\w]: letters, digits, the underscore, and the Latin-1
    characters that [str.isalnum()] accepts. *)
Definition is_word (c : ascii) : bool :=
  between 48 57 c || between 65 90 c || (code c =? 95) || between 97 122 c
  || (code c =? 170) || between 178 179 c || (code c =? 181)
  || between 185 186 c || between 188 190 c
  || between 192 214 c || between 216 246 c || between 248 255 c.

(** [needle in hay] *)
Fixpoint contains (needle hay : string) : bool :=
  String.prefix needle hay ||
  match hay with
  | EmptyString => false
  | String _ t => contains needle t
  end.

(** The start indices of every occurrence of [needle] in [s], counted
    from [i]. *)
Fixpoint find_from (i : nat) (needle s : string) : list nat :=
  (if String.prefix needle s then [i] else []) ++
  match s with
  | EmptyString => []
  | String _ t => find_from (S i) needle t
  end.

Definition find_all (needle s : string) : list nat := find_from 0 needle s.

(** [s.replace(old, new)] scans from the left and steps over each
    occurrence it replaces; [skip] counts the characters of the replaced
    occurrence that are still to be stepped over. *)
Fixpoint replace_from (old new : string) (skip : nat) (s : string) : string :=
  match s with
  | EmptyString => EmptyString
  | String c t =>
      match skip with
      | S k => replace_from old new k t
      | O =>
          if String.prefix old s
          then new +:+ replace_from old new (String.length old - 1) t
          else String c (replace_from old new 0 t)
      end
  end.

(** With an empty [old], Python puts [new] before every character and at
    the end. *)
Fixpoint replace_empty (new s : string) : string :=
  match s with
  | EmptyString => new
  | String c t => new +:+ String c (replace_empty new t)
  end.

Definition replace (old new s : string) : string :=
  match old with
  | EmptyString => replace_empty new s
  | String _ _ => replace_from old new 0 s
  end.

Fixpoint lstrip (s : string) : string :=
  match s with
  | EmptyString => EmptyString
  | String c t => if is_space c then lstrip t else s
  end.

Definition reverse (s : string) : string :=
  String.string_of_list_ascii (rev (String.list_ascii_of_string s)).

Definition rstrip (s : string) : string := reverse (lstrip (reverse s)).

(** [s.strip()] *)
Definition strip (s : string) : string := rstrip (lstrip s).

Fixpoint drop (n : nat) (s : string) : string :=
  match n, s with
  | O, _ => s
  | S _, EmptyString => EmptyString
  | S k, String _ t => drop k t
  end.

Fixpoint take (n : nat) (s : string) : string :=
  match n, s with
  | O, _ => EmptyString
  | S _, EmptyString => EmptyString
  | S k, String c t => String c (take k t)
  end.

(** Every character of [s] is in the class [p]. *)
Fixpoint all_chars (p : ascii -> bool) (s : string) : bool :=
  match s with
  | EmptyString => true
  | String c t => p c && all_chars p t
  end.

(** [sep.join(parts)] *)
Fixpoint join (sep : string) (parts : list string) : string :=
  match parts with
  | [] => EmptyString
  | [p] => p
  | p :: rest => p +:+ sep +:+ join sep rest
  end.

End PyStr.

(** ** The fragment of [re] the engine uses

    Every pattern of the engine is a sequence of single-character tests,
    some of them repeated with [+], one of these being the capturing group.
    [search] is [re.search(pattern, text, re.IGNORECASE)] followed by
    [match.group(1)]: the leftmost start at which the sequence matches,
    each [+] greedy and giving back characters one at a time. *)

Module Re.

Inductive item : Type :=
| Chr (p : ascii -> bool)     (* one character of the class *)
| Rep (p : ascii -> bool)     (* class+ *)
| Grp (p : ascii -> bool).    (* (class+), the group *)

(** [class+] followed by the rest [k] of the pattern: the longest run
    first, then shorter ones. *)
Fixpoint rep (p : ascii -> bool) (k : string -> option string)
    (s : string) : option string :=
  match s with
  | EmptyString => None
  | String c t =>
      if p c then
        match rep p k t with
        | Some g => Some g
        | None => k t
        end
      else None
  end.

(** The same for the group; [acc] is the text captured so far. *)
Fixpoint grp (p : ascii -> bool) (k : string -> string -> option string)
    (acc : string) (s : string) : option string :=
  match s with
  | EmptyString => None
  | String c t =>
      if p c then
        let acc' := acc +:+ String c EmptyString in
        match grp p k acc' t with
        | Some g => Some g
        | None => k acc' t
        end
      else None
  end.

(** A match of the whole sequence at the start of [s]; the result is the
    text of the group ([g] until the group has been met). *)
Fixpoint match_here (items : list item) (g : string) (s : string)
    : option string :=
  match items with
  | [] => Some g
  | Chr p :: rest =>
      match s with
      | EmptyString => None
      | String c t => if p c then match_here rest g t else None
      end
  | Rep p :: rest => rep p (match_here rest g) s
  | Grp p :: rest => grp p (fun cap t => match_here rest cap t) EmptyString s
  end.

Fixpoint search (items : list item) (s : string) : option string :=
  match match_here items EmptyString s with
  | Some g => Some g
  | None =>
      match s with
      | EmptyString => None
      | String _ t => search items t
      end
  end.

(** Literal text of a pattern under [re.IGNORECASE]; the letters of the
    engine's patterns are lower-case ASCII. *)
Definition lit (text : string) : list item :=
  map (fun a => Chr (fun c => Ascii.eqb (PyStr.lower_char c) a))
      (String.list_ascii_of_string text).

(** A single or a double quote: the two-character class that opens and
    closes every quoted token of the patterns. *)
Definition is_quote (c : ascii) : bool :=
  (PyStr.code c =? 39) || (PyStr.code c =? 34).

(** Any character but the two quotes. *)
Definition not_quote (c : ascii) : bool := negb (is_quote c).

(** The class of the last pattern: hash, dot, the two square brackets,
    at sign, a word character, hyphen, colon. *)
Definition css_char (c : ascii) : bool :=
  (PyStr.code c =? 35) || (PyStr.code c =? 46) || (PyStr.code c =? 91)
  || (PyStr.code c =? 93) || (PyStr.code c =? 64) || PyStr.is_word c
  || (PyStr.code c =? 45) || (PyStr.code c =? 58).

End Re.

(** ** Dictionaries that are iterated, and sorting

    [defaultdict(list)] filled with [d[k].append(v)]: a new key goes to the
    end, an old key keeps its place; iteration follows this order. *)

Module PyDict.

Fixpoint group_append {A : Type} (k : string) (v : A)
    (groups : list (string * list A)) : list (string * list A) :=
  match groups with
  | [] => [(k, [v])]
  | (k', vs) :: rest =>
      if String.eqb k' k then (k', vs ++ [v]) :: rest
      else (k', vs) :: group_append k v rest
  end.

(** [Counter(items)]: the count of each item, in order of first
    occurrence. *)
Fixpoint counter_add (k : string) (counts : list (string * nat))
    : list (string * nat) :=
  match counts with
  | [] => [(k, 1%nat)]
  | (k', n) :: rest =>
      if String.eqb k' k then (k', S n) :: rest
      else (k', n) :: counter_add k rest
  end.

Definition Counter (items : list string) : list (string * nat) :=
  fold_left (fun counts k => counter_add k counts) items [].

(** [most_common(1)] is [max] over the items by count: the first of the
    items with the largest count. *)
Definition most_common_1 (counts : list (string * nat))
    : option (string * nat) :=
  match counts with
  | [] => None
  | first :: rest =>
      Some (fold_left
              (fun best item => if (snd best <? snd item)%nat then item else best)
              rest first)
  end.

(** [d.get(k, default)] on a literal table. *)
Fixpoint get {V : Type} (table : list (string * V)) (k : string)
    (default : V) : V :=
  match table with
  | [] => default
  | (k', v) :: rest => if String.eqb k' k then v else get rest k default
  end.

(** [l.sort(key=key, reverse=True)]: the sort is stable, so an element
    moves behind a later one only when its key is strictly smaller. *)
Section Sort.
Context {A K : Type} (lt : K -> K -> bool) (key : A -> K).

Fixpoint insert_reverse (x : A) (sorted : list A) : list A :=
  match sorted with
  | [] => [x]
  | y :: rest =>
      if lt (key x) (key y) then y :: insert_reverse x rest
      else x :: sorted
  end.

Definition sort_reverse (l : list A) : list A :=
  foldr insert_reverse [] l.

(** The order the sort establishes between neighbours: no element
    is followed by one with a strictly larger key. *)
Definition not_below (x y : A) : Prop := lt (key x) (key y) = false.
End Sort.

(** [l[-n:]] *)
Definition last_n {A : Type} (n : nat) (l : list A) : list A :=
  drop (length l - n) l.

End PyDict.

(** ** Floats as rationals *)

Definition Qlt_bool (x y : Q) : bool := negb (Qle_bool y x).

(** [min(a, b)] returns [b] when [b < a] and [a] otherwise. *)
Definition py_min (a b : Q) : Q := if Qlt_bool b a then b else a.

Definition Q_of_nat (n : nat) : Q := inject_Z (Z.of_nat n).

Definition nl : string := String "010"%char EmptyString.

(** ** Outcomes of code that can raise *)

Inductive exn : Type := ZeroDivisionError.

Inductive result (A : Type) : Type :=
| Ok (a : A)
| Raise (e : exn).
Arguments Ok {A} a.
Arguments Raise {A} e.

(** ** The adaptive testing engine *)

Module Engine.

Definition datetime := Z.

(** The [test_result] dictionary.  The engine reads it only through
    [.get] on these eight keys; [None] is an absent key. *)
Record TestResult : Type := {
  res_status : option string;
  res_error_message : option string;
  res_test_name : option string;
  res_browser : option string;
  res_viewport : option (list (string * Z));
  res_duration : option Z;
  res_url : option string;
  res_screenshot : option string
}.

Record Context : Type := {
  ctx_browser : string;
  ctx_viewport : list (string * Z);
  ctx_duration : Z;
  ctx_url : string;
  ctx_screenshot : string
}.

Record TestFailurePattern : Type := {
  test_name : string;
  failure_type : string;
  error_message : string;
  element_selector : option string;
  timestamp : datetime;
  frequency : Z;
  context : Context
}.

Record AdaptiveRule : Type := {
  rule_id : string;
  pattern : string;
  suggested_fix : string;
  confidence : Q;
  success_rate : Q;
  created_at : datetime;
  last_applied : option datetime
}.

(** What the engine takes from outside: the wall clock, the formatting
    of a time for a rule id, the answer of the analysis service to a
    request with the given sample patterns (the outer [None] is a raised
    exception, the inner one a reply without a [suggested_fix]), and the
    order in which a set of strings is iterated. *)
Record Env : Type := {
  clock : nat -> datetime;
  strftime : datetime -> string;
  analyze_test_failures : list TestFailurePattern -> option (option string);
  set_iteration : list string -> list string
}.

Record AdaptiveTestingEngine : Type := {
  failure_patterns : list TestFailurePattern;
  adaptive_rules : list AdaptiveRule;
  min_pattern_frequency : Z;
  confidence_threshold : Q;
  clock_reads : nat
}.

(** [__init__] with nothing stored on disk. *)
Definition init : AdaptiveTestingEngine := {|
  failure_patterns := [];
  adaptive_rules := [];
  min_pattern_frequency := 3;
  confidence_threshold := 0.7;
  clock_reads := 0
|}.

Definition with_patterns (ps : list TestFailurePattern)
    (e : AdaptiveTestingEngine) : AdaptiveTestingEngine := {|
  failure_patterns := ps;
  adaptive_rules := adaptive_rules e;
  min_pattern_frequency := min_pattern_frequency e;
  confidence_threshold := confidence_threshold e;
  clock_reads := clock_reads e
|}.

Definition with_rules (rs : list AdaptiveRule)
    (e : AdaptiveTestingEngine) : AdaptiveTestingEngine := {|
  failure_patterns := failure_patterns e;
  adaptive_rules := rs;
  min_pattern_frequency := min_pattern_frequency e;
  confidence_threshold := confidence_threshold e;
  clock_reads := clock_reads e
|}.

(** [datetime.now()] *)
Definition now (env : Env) (e : AdaptiveTestingEngine)
    : datetime * AdaptiveTestingEngine :=
  (clock env (clock_reads e),
   {| failure_patterns := failure_patterns e;
      adaptive_rules := adaptive_rules e;
      min_pattern_frequency := min_pattern_frequency e;
      confidence_threshold := confidence_threshold e;
      clock_reads := S (clock_reads e) |}).

(** [any(word in text for word in words)] *)
Definition any_in (words : list string) (text : string) : bool :=
  existsb (fun word => PyStr.contains word text) words.

Definition _classify_failure (error_message : string) : string :=
  let error_lower := PyStr.lower error_message in
  if any_in ["timeout"; "wait"; "element not found"] error_lower then
    "timing_issue"
  else if any_in ["selector"; "locator"; "element"] error_lower then
    "element_selector"
  else if any_in ["network"; "connection"; "request"] error_lower then
    "network_issue"
  else if any_in ["assertion"; "expected"; "actual"] error_lower then
    "assertion_failure"
  else if any_in ["permission"; "access"; "forbidden"] error_lower then
    "permission_issue"
  else if any_in ["data"; "invalid"; "null"] error_lower then
    "data_issue"
  else
    "unknown".

(** A word, white space, and a quoted run of characters that are not
    quotes: the shape of the first three patterns. *)
Definition quoted_after (word : string) : list Re.item :=
  Re.lit word ++
  [Re.Rep PyStr.is_space; Re.Chr Re.is_quote; Re.Grp Re.not_quote;
   Re.Chr Re.is_quote].

Definition css_selector_pattern : list Re.item :=
  [Re.Chr Re.is_quote; Re.Grp Re.css_char; Re.Chr Re.is_quote].

Definition patterns : list (list Re.item) :=
  [quoted_after "locator"; quoted_after "element"; quoted_after "selector";
   css_selector_pattern].

Fixpoint first_match (ps : list (list Re.item)) (text : string)
    : option string :=
  match ps with
  | [] => None
  | p :: rest =>
      match Re.search p text with
      | Some g => Some g
      | None => first_match rest text
      end
  end.

Definition _extract_element_selector (error_message : string)
    : option string :=
  first_match patterns error_message.

Definition _extract_failure_pattern (env : Env) (e : AdaptiveTestingEngine)
    (test_result : TestResult)
    : option TestFailurePattern * AdaptiveTestingEngine :=
  if bool_decide (res_status test_result = Some "failed") then
    let error_message := default "" (res_error_message test_result) in
    let test_name := default "" (res_test_name test_result) in
    let failure_type := _classify_failure error_message in
    let element_selector := _extract_element_selector error_message in
    let context := {|
      ctx_browser := default "unknown" (res_browser test_result);
      ctx_viewport := default [] (res_viewport test_result);
      ctx_duration := default 0%Z (res_duration test_result);
      ctx_url := default "" (res_url test_result);
      ctx_screenshot := default "" (res_screenshot test_result)
    |} in
    let (t, e1) := now env e in
    (Some {| test_name := test_name;
             failure_type := failure_type;
             error_message := error_message;
             element_selector := element_selector;
             timestamp := t;
             frequency := 1;
             context := context |}, e1)
  else (None, e).

(** The first stored pattern with the identity of [new_pattern], and its
    place in the store. *)
Definition _find_existing_pattern (e : AdaptiveTestingEngine)
    (new_pattern : TestFailurePattern) : option (nat * TestFailurePattern) :=
  list_find
    (fun existing =>
       test_name existing = test_name new_pattern /\
       failure_type existing = failure_type new_pattern /\
       element_selector existing = element_selector new_pattern)
    (failure_patterns e).

(** [existing_pattern.frequency += 1] and the new time stamp. *)
Definition seen_again (t : datetime) (p : TestFailurePattern)
    : TestFailurePattern := {|
  test_name := test_name p;
  failure_type := failure_type p;
  error_message := error_message p;
  element_selector := element_selector p;
  timestamp := t;
  frequency := frequency p + 1;
  context := context p
|}.

(** No step of the body can raise on a [TestResult], and
    [_save_adaptive_data] handles its own failures, so the [except]
    branch is never taken.  Writing the store to disk leaves the engine
    as it is and is not modelled. *)
Definition record_test_failure (env : Env) (e : AdaptiveTestingEngine)
    (test_result : TestResult) : AdaptiveTestingEngine :=
  match _extract_failure_pattern env e test_result with
  | (Some failure_pattern, e1) =>
      match _find_existing_pattern e1 failure_pattern with
      | Some (i, existing_pattern) =>
          let (t, e2) := now env e1 in
          with_patterns
            (<[i := seen_again t existing_pattern]> (failure_patterns e2)) e2
      | None =>
          with_patterns (failure_patterns e1 ++ [failure_pattern]) e1
      end
  | (None, e1) => e1
  end.

(** The selectors of the patterns that have one ([if p.element_selector]
    also drops an empty text). *)
Definition truthy_selectors (ps : list TestFailurePattern) : list string :=
  omap (fun p =>
          match element_selector p with
          | Some s => if String.eqb s "" then None else Some s
          | None => None
          end) ps.

Definition _create_timing_fix_suggestion (ps : list TestFailurePattern)
    : string :=
  let common_selectors := truthy_selectors ps in
  match PyDict.most_common_1 (PyDict.Counter common_selectors) with
  | Some (selector, _) =>
      "Add explicit wait for element '" +:+ selector +:+
      "' with increased timeout (30s+)"
  | None => "Add explicit waits and increase default timeout values"
  end.

Definition _create_selector_fix_suggestion (env : Env)
    (ps : list TestFailurePattern) : string :=
  let selectors := truthy_selectors ps in
  match selectors with
  | _ :: _ =>
      "Update selectors to use more robust locators (data-testid, role-based). Problem selectors: "
      +:+ PyStr.join ", " (set_iteration env (take 3 selectors))
  | [] => "Review element selectors and use more stable locator strategies"
  end.

Definition _create_assertion_fix_suggestion (env : Env)
    (ps : list TestFailurePattern) : string :=
  match analyze_test_failures env (take 5 ps) with
  | Some (Some text) => text
  | Some None => "Review assertion logic and expected values"
  | None => "Review assertion logic, expected values, and test data"
  end.

Definition total_frequency (ps : list TestFailurePattern) : Z :=
  foldr (fun p acc => (frequency p + acc)%Z) 0%Z ps.

(** [total_frequency / len(patterns)], which raises on an empty group. *)
Definition avg_frequency (ps : list TestFailurePattern) : result Q :=
  match ps with
  | [] => Raise ZeroDivisionError
  | _ :: _ => Ok (inject_Z (total_frequency ps) / Q_of_nat (length ps))%Q
  end.

Definition _create_rule_for_pattern_group (env : Env)
    (e : AdaptiveTestingEngine) (failure_type : string)
    (ps : list TestFailurePattern)
    : result AdaptiveRule * AdaptiveTestingEngine :=
  match avg_frequency ps with
  | Raise x => (Raise x, e)
  | Ok avg =>
      let confidence := py_min (avg / 10)%Q 1.0%Q in
      let (t1, e1) := now env e in
      let rule_id := failure_type +:+ "_" +:+ strftime env t1 in
      let suggested_fix :=
        if String.eqb failure_type "timing_issue" then
          _create_timing_fix_suggestion ps
        else if String.eqb failure_type "element_selector" then
          _create_selector_fix_suggestion env ps
        else if String.eqb failure_type "network_issue" then
          "Add network retry logic and longer timeouts for network requests"
        else if String.eqb failure_type "assertion_failure" then
          _create_assertion_fix_suggestion env ps
        else
          "Generic fix for " +:+ failure_type +:+
          ": Review test logic and add error handling" in
      let (t2, e2) := now env e1 in
      (Ok {| rule_id := rule_id;
             pattern := failure_type;
             suggested_fix := suggested_fix;
             confidence := confidence;
             success_rate := 0.0;
             created_at := t2;
             last_applied := None |}, e2)
  end.

(** The patterns frequent enough, grouped by failure type. *)
Definition pattern_groups (e : AdaptiveTestingEngine)
    : list (string * list TestFailurePattern) :=
  fold_left
    (fun groups p =>
       if (min_pattern_frequency e <=? frequency p)%Z
       then PyDict.group_append (failure_type p) p groups
       else groups)
    (failure_patterns e) [].

(** The loop over the groups.  A rule object is always true, so
    [if rule and ...] tests the confidence only. *)
Fixpoint create_rules (env : Env)
    (groups : list (string * list TestFailurePattern))
    (new_rules : list AdaptiveRule) (e : AdaptiveTestingEngine)
    : result (list AdaptiveRule) * AdaptiveTestingEngine :=
  match groups with
  | [] => (Ok new_rules, e)
  | (failure_type, ps) :: rest =>
      match _create_rule_for_pattern_group env e failure_type ps with
      | (Raise x, e1) => (Raise x, e1)
      | (Ok rule, e1) =>
          if Qle_bool (confidence_threshold e1) (confidence rule)
          then create_rules env rest (new_rules ++ [rule])
                 (with_rules (adaptive_rules e1 ++ [rule]) e1)
          else create_rules env rest new_rules e1
      end
  end.

Definition analyze_patterns_and_create_rules (env : Env)
    (e : AdaptiveTestingEngine)
    : result (list AdaptiveRule) * AdaptiveTestingEngine :=
  create_rules env (pattern_groups e) [] e.

Definition wait_statement : string :=
  "page.wait_for_selector(selector, timeout=30000)".

Definition retry_import : string :=
  "import time" +:+ nl +:+
  "from requests.adapters import HTTPAdapter" +:+ nl +:+
  "from urllib3.util.retry import Retry" +:+ nl.

Definition _apply_rule_to_content (content : string) (rule : AdaptiveRule)
    : string * bool :=
  if String.eqb (pattern rule) "timing_issue" then
    if negb (PyStr.contains "page.wait_for_selector" content)
       && PyStr.contains "click(" content
    then (PyStr.replace "page.click("
            (wait_statement +:+ nl +:+ "        page.click(") content,
          true)
    else (content, false)
  else if String.eqb (pattern rule) "element_selector" then
    if negb (PyStr.contains "data-testid" content)
       && PyStr.contains (String "034"%char "#") content
    then ("# ADAPTIVE SUGGESTION: Consider using data-testid selectors for better stability"
          +:+ nl +:+ content, true)
    else (content, false)
  else if String.eqb (pattern rule) "network_issue" then
    if PyStr.contains "requests." content
       && negb (PyStr.contains "retry" (PyStr.lower content))
    then
      if negb (PyStr.contains (PyStr.strip retry_import) content)
      then (retry_import +:+ nl +:+ content, true)
      else (content, false)
    else (content, false)
  else (content, false).

(** *** Notions of the specification *)

(** The ordered table of keyword sets and kinds of the specification. *)
Definition classification_table : list (list string * string) :=
  [ (["timeout"; "wait"; "element not found"], "timing_issue");
    (["selector"; "locator"; "element"], "element_selector");
    (["network"; "connection"; "request"], "network_issue");
    (["assertion"; "expected"; "actual"], "assertion_failure");
    (["permission"; "access"; "forbidden"], "permission_issue");
    (["data"; "invalid"; "null"], "data_issue") ].

(** The search of a table with the keyword test of the code;
    [first_match_kind] below says what the search is to find without
    that test. *)
Fixpoint first_row (table : list (list string * string)) (text : string)
    : string :=
  match table with
  | [] => "unknown"
  | (keywords, kind) :: rest =>
      if any_in keywords text then kind else first_row rest text
  end.

Definition failure_kinds : list string :=
  ["timing_issue"; "element_selector"; "network_issue"; "assertion_failure";
   "permission_issue"; "data_issue"; "unknown"].

(** [word] occurs in [message] in some letter case. *)
Definition occurs_ignoring_case (word message : string) : Prop :=
  exists pre mid post,
    message = pre +:+ mid +:+ post /\ PyStr.lower mid = word.

(** A row of the table matches a message when one of its keywords
    occurs in the message in some letter case. *)
Definition row_matches (row : list string * string) (message : string)
    : Prop :=
  exists word, In word (fst row) /\ occurs_ignoring_case word message.

(** The kind that an ordered table gives a message: the kind of the
    first row that matches, and [unknown] when no row matches. *)
Inductive first_match_kind (message : string)
    : list (list string * string) -> string -> Prop :=
| no_row_left : first_match_kind message [] "unknown"
| row_found row rest :
    row_matches row message ->
    first_match_kind message (row :: rest) (snd row)
| row_passed row rest kind :
    ~ row_matches row message ->
    first_match_kind message rest kind ->
    first_match_kind message (row :: rest) kind.

(** The average frequency of a group as the specification has it: the
    sum of the frequencies over the number of patterns. *)
Definition average_frequency (ps : list TestFailurePattern) : Q :=
  (inject_Z (foldr Z.add 0%Z (frequency <$> ps))
   / inject_Z (Z.of_nat (length ps)))%Q.

(** The construct whose presence makes a rule of the given kind leave
    the text alone. *)
Definition idempotence_marker (kind content : string) : bool :=
  if String.eqb kind "timing_issue" then
    PyStr.contains "page.wait_for_selector" content
  else if String.eqb kind "element_selector" then
    PyStr.contains "data-testid" content
  else if String.eqb kind "network_issue" then
    PyStr.contains "retry" (PyStr.lower content)
  else false.

(** What the timing rule puts in the place of a click on the page. *)
Definition click_with_wait : string :=
  wait_statement +:+ nl +:+ "        page.click(".

Definition wait_construct : string := "page.wait_for_selector".

(** The text that follows the first character of the insertion. *)
Definition inserted_tail : string := PyStr.drop 1 click_with_wait.

Definition advice : string :=
  "# ADAPTIVE SUGGESTION: Consider using data-testid selectors for better stability".

(** The identity of a stored pattern. *)
Definition identity (p : TestFailurePattern)
    : string * string * option string :=
  (test_name p, failure_type p, element_selector p).

Definition identities (e : AdaptiveTestingEngine)
    : list (string * string * option string) :=
  identity <$> failure_patterns e.

(** The identity under which a test result is recorded, if it is
    recorded at all. *)
Definition identity_of (test_result : TestResult)
    : option (string * string * option string) :=
  if bool_decide (res_status test_result = Some "failed") then
    let error_message := default "" (res_error_message test_result) in
    Some (default "" (res_test_name test_result),
          _classify_failure error_message,
          _extract_element_selector error_message)
  else None.

(** A sequence of calls of [record_test_failure]. *)
Definition record_all (env : Env) (e : AdaptiveTestingEngine)
    (test_results : list TestResult) : AdaptiveTestingEngine :=
  fold_left (record_test_failure env) test_results e.

End Engine.

(** ** The analytics dashboard: flaky tests and the ranking of insights *)

Module Dashboard.

(** The payload of an insight; the flaky-test analysis fills in the
    number of flaky tests and the names and scores of the first five. *)
Inductive DataPoints : Type :=
| FlakyData (flaky_count : nat) (top_flaky_tests : list (string * Q))
| OtherData (entries : list (string * string)).

Record AIInsight : Type := {
  category : string;
  title : string;
  description : string;
  severity : string;
  recommendations : list string;
  confidence : Q;
  data_points : DataPoints
}.

(** An entry of [test_details] and a run of the history, as far as the
    flaky-test analysis reads them; [None] is an absent key. *)
Record TestDetail : Type := {
  det_name : option string;
  det_status : option string
}.

Record TestRun : Type := {
  run_test_details : option (list TestDetail)
}.

Definition _severity_score (severity : string) : Z :=
  PyDict.get [("critical", 4%Z); ("high", 3%Z); ("medium", 2%Z); ("low", 1%Z)]
             severity 1%Z.

(** [<] on the key tuples: the first components decide unless they are
    equal. *)
Definition tuple_lt (a b : Z * Q) : bool :=
  if negb (fst a =? fst b)%Z then (fst a <? fst b)%Z
  else Qlt_bool (snd a) (snd b).

Definition sort_key (x : AIInsight) : Z * Q :=
  (_severity_score (severity x), - confidence x)%Q.

(** [insights.sort(key=lambda x: (self._severity_score(x.severity),
    -x.confidence), reverse=True)] *)
Definition sort_insights (insights : list AIInsight) : list AIInsight :=
  PyDict.sort_reverse tuple_lt sort_key insights.

(** The body of the loop over the tests of a run. *)
Definition record_outcome (outcomes : list (string * list string))
    (test : TestDetail) : list (string * list string) :=
  let test_name := default "unknown" (det_name test) in
  let test_status := default "unknown" (det_status test) in
  PyDict.group_append test_name test_status outcomes.

(** The outcomes of every test over the last twenty runs, by test name
    in order of first appearance. *)
Definition test_outcomes (test_history : list TestRun)
    : list (string * list string) :=
  fold_left
    (fun outcomes run =>
       fold_left record_outcome (default [] (run_test_details run)) outcomes)
    (PyDict.last_n 20 test_history) [].

Record FlakyTest : Type := {
  name : string;
  flakiness_score : Q;
  outcomes : list string
}.

(** [outcomes.count(status)] *)
Definition count (status : string) (outcomes : list string) : nat :=
  length (filter (fun s => s = status) outcomes).

(** The body of the loop that identifies flaky tests. *)
Definition flaky_entry (entry : string * list string) : option FlakyTest :=
  let (test_name, outcomes) := entry in
  if (5 <=? length outcomes)%nat then
    let pass_count := count "passed" outcomes in
    let fail_count := count "failed" outcomes in
    if (0 <? pass_count)%nat && (0 <? fail_count)%nat then
      let flakiness_score :=
        (Q_of_nat (Nat.min pass_count fail_count) /
         Q_of_nat (length outcomes))%Q in
      if Qle_bool 0.2 flakiness_score then
        Some {| name := test_name;
                flakiness_score := flakiness_score;
                outcomes := outcomes |}
      else None
    else None
  else None.

Definition flaky_tests (test_history : list TestRun) : list FlakyTest :=
  omap flaky_entry (test_outcomes test_history).

Definition _analyze_flaky_tests (test_history : list TestRun)
    : list AIInsight :=
  let flaky := flaky_tests test_history in
  match flaky with
  | [] => []
  | _ :: _ =>
      let sorted := PyDict.sort_reverse Qlt_bool flakiness_score flaky in
      let top_flaky := take 5 sorted in
      [ {| category := "reliability";
           title := "Flaky Tests Detected";
           description :=
             "Found " +:+ pretty (length sorted) +:+
             " flaky tests with inconsistent results";
           severity := if (10 <? length sorted)%nat then "high" else "medium";
           recommendations :=
             ["Stabilize flaky tests with better waits";
              "Review test data dependencies";
              "Fix timing-related issues";
              "Add retry mechanisms for unstable tests"];
           confidence := 0.9;
           data_points :=
             FlakyData (length sorted)
               (map (fun t => (name t, flakiness_score t)) top_flaky) |} ]
  end.

(** The other analyses of [generate_comprehensive_insights], taken as
    given functions of the history. *)
Record Analyses : Type := {
  _analyze_pass_rate_trends : list TestRun -> list AIInsight;
  _analyze_performance_trends : list TestRun -> list AIInsight;
  _analyze_test_coverage : list TestRun -> list AIInsight;
  _analyze_failure_patterns : list TestRun -> list AIInsight;
  _get_ai_generated_insights : list TestRun -> list AIInsight
}.

Definition generate_comprehensive_insights (an : Analyses)
    (test_history : list TestRun) : list AIInsight :=
  match test_history with
  | [] => []
  | _ :: _ =>
      sort_insights
        (_analyze_pass_rate_trends an test_history ++
         _analyze_performance_trends an test_history ++
         _analyze_flaky_tests test_history ++
         _analyze_test_coverage an test_history ++
         _analyze_failure_patterns an test_history ++
         _get_ai_generated_insights an test_history)
  end.

(** *** Notions of the specification *)

(** The order the ranking leaves between neighbours: a higher severity
    first, and within one severity the smaller confidence first. *)
Definition ranked_before (x y : AIInsight) : Prop :=
  (_severity_score (severity y) < _severity_score (severity x))%Z \/
  (_severity_score (severity x) = _severity_score (severity y) /\
   (confidence x <= confidence y)%Q).

Definition entry_name (test : TestDetail) : string :=
  default "unknown" (det_name test).

Definition entry_status (test : TestDetail) : string :=
  default "unknown" (det_status test).

(** The entries of the scanned window, run after run. *)
Definition scanned_entries (test_history : list TestRun) : list TestDetail :=
  mjoin ((fun run => default [] (run_test_details run))
           <$> PyDict.last_n 20 test_history).

(** The outcomes recorded for one test over the scanned window. *)
Definition recorded_outcomes (test_name : string)
    (test_history : list TestRun) : list string :=
  entry_status <$>
    filter (fun test => entry_name test = test_name)
           (scanned_entries test_history).

(** Flaky, as the specification words it. *)
Definition is_flaky (outcomes : list string) : Prop :=
  (5 <= length outcomes)%nat /\
  (0 < count "passed" outcomes)%nat /\
  (0 < count "failed" outcomes)%nat /\
  (0.2 <= Q_of_nat (Nat.min (count "passed" outcomes)
                            (count "failed" outcomes))
          / Q_of_nat (length outcomes))%Q.

End Dashboard.

(** ** Sample inputs *)

Module Samples.
Import Engine.

Definition sample_env : Env := {|
  clock := fun n => Z.of_nat n;
  strftime := fun _ => "20240115_101500";
  analyze_test_failures := fun _ => None;
  set_iteration := fun selectors => selectors
|}.

Definition failed (test_name error_message : string) : TestResult := {|
  res_status := Some "failed";
  res_error_message := Some error_message;
  res_test_name := Some test_name;
  res_browser := None;
  res_viewport := None;
  res_duration := None;
  res_url := None;
  res_screenshot := None
|}.

Definition search_timeout : TestResult :=
  failed "test_product_search"
         "Timeout waiting for selector '#search-results'".

Definition cart_timeout : TestResult :=
  failed "test_product_search" "Timeout waiting for selector '#cart'".

Definition no_context : Context := {|
  ctx_browser := "unknown";
  ctx_viewport := [];
  ctx_duration := 0%Z;
  ctx_url := "";
  ctx_screenshot := ""
|}.

(** A timing pattern seen twelve times and a selector pattern seen
    three times. *)
Definition frequent_pattern : TestFailurePattern := {|
  test_name := "test_product_search";
  failure_type := "timing_issue";
  error_message := "Timeout waiting for selector '#search-results'";
  element_selector := Some "#search-results";
  timestamp := 0%Z;
  frequency := 12;
  context := no_context
|}.

Definition rare_pattern : TestFailurePattern := {|
  test_name := "test_add_to_cart";
  failure_type := "element_selector";
  error_message := "No element matches selector '.add-to-cart-btn'";
  element_selector := Some ".add-to-cart-btn";
  timestamp := 0%Z;
  frequency := 3;
  context := no_context
|}.

Definition sample_store : AdaptiveTestingEngine :=
  with_patterns [frequent_pattern; rare_pattern] init.

Definition rule_of_kind (kind : string) : AdaptiveRule := {|
  rule_id := kind +:+ "_20240115_101500";
  pattern := kind;
  suggested_fix := "";
  confidence := 1.0;
  success_rate := 0.0;
  created_at := 0%Z;
  last_applied := None
|}.

Definition insight (severity : string) (confidence : Q)
    : Dashboard.AIInsight := {|
  Dashboard.category := "quality";
  Dashboard.title := "";
  Dashboard.description := "";
  Dashboard.severity := severity;
  Dashboard.recommendations := [];
  Dashboard.confidence := confidence;
  Dashboard.data_points := Dashboard.OtherData []
|}.

(** A history in which the test [test_name] has the given outcomes, one
    per run. *)
Definition runs_of (test_name : string) (statuses : list string)
    : list Dashboard.TestRun :=
  map (fun status =>
         {| Dashboard.run_test_details :=
              Some [ {| Dashboard.det_name := Some test_name;
                        Dashboard.det_status := Some status |} ] |})
      statuses.

End Samples.

(** ** Applying the rules to a test file *)

Module Applicator.
Import Engine.

(** The files, by path.  Reading a path that is not there raises; a
    write puts the text under the path. *)
Abbreviation Files := (gmap string string).

(** An entry of [improvements_applied]. *)
Record Improvement : Type := {
  imp_rule_id : string;
  imp_pattern : string;
  imp_fix : string
}.

(** The dictionary [apply_adaptive_improvements] returns. *)
Record Report : Type := {
  file_path : string;
  improvements_applied : list Improvement;
  backup_created : option string
}.

(** [rule.last_applied = datetime.now()] *)
Definition applied_at (t : datetime) (rule : AdaptiveRule) : AdaptiveRule := {|
  rule_id := rule_id rule;
  pattern := pattern rule;
  suggested_fix := suggested_fix rule;
  confidence := confidence rule;
  success_rate := success_rate rule;
  created_at := created_at rule;
  last_applied := Some t
|}.

Definition improvement_of (rule : AdaptiveRule) : Improvement := {|
  imp_rule_id := rule_id rule;
  imp_pattern := pattern rule;
  imp_fix := suggested_fix rule
|}.

(** A rule after the loop: as it was, or with a new [last_applied]. *)
Definition touched (rule rule' : AdaptiveRule) : Prop :=
  rule' = rule \/ exists t, rule' = applied_at t rule.

(** The loop over [self.adaptive_rules]: the rules as the loop leaves
    them, the text, the improvements in the order they were applied, and
    the number of clock reads. *)
Fixpoint apply_rules (env : Env) (confidence_threshold : Q)
    (rules : list AdaptiveRule) (test_content : string) (reads : nat)
    : list AdaptiveRule * string * list Improvement * nat :=
  match rules with
  | [] => ([], test_content, [], reads)
  | rule :: rest =>
      if Qle_bool confidence_threshold (confidence rule) then
        let (modified_content, applied) :=
          _apply_rule_to_content test_content rule in
        if applied then
          let '(rest', final, improvements, reads') :=
            apply_rules env confidence_threshold rest modified_content
                        (S reads) in
          (applied_at (clock env reads) rule :: rest', final,
           improvement_of rule :: improvements, reads')
        else
          let '(rest', final, improvements, reads') :=
            apply_rules env confidence_threshold rest test_content reads in
          (rule :: rest', final, improvements, reads')
      else
        let '(rest', final, improvements, reads') :=
          apply_rules env confidence_threshold rest test_content reads in
        (rule :: rest', final, improvements, reads')
  end.

(** [backup_of] is [Path(test_file_path).with_suffix('.py.backup')] as
    a text.  A failed read is caught and leaves everything as it is. *)
Definition apply_adaptive_improvements (env : Env)
    (backup_of : string -> string) (files : Files)
    (e : AdaptiveTestingEngine) (test_file_path : string)
    : Report * Files * AdaptiveTestingEngine :=
  match files !! test_file_path with
  | None =>
      ({| file_path := test_file_path;
          improvements_applied := [];
          backup_created := None |}, files, e)
  | Some original_content =>
      let '(rules, test_content, improvements, reads) :=
        apply_rules env (confidence_threshold e) (adaptive_rules e)
                    original_content (clock_reads e) in
      let e' := {|
        failure_patterns := failure_patterns e;
        adaptive_rules := rules;
        min_pattern_frequency := min_pattern_frequency e;
        confidence_threshold := confidence_threshold e;
        clock_reads := reads
      |} in
      match improvements with
      | [] =>
          ({| file_path := test_file_path;
              improvements_applied := [];
              backup_created := None |}, files, e')
      | _ :: _ =>
          let backup_path := backup_of test_file_path in
          ({| file_path := test_file_path;
              improvements_applied := improvements;
              backup_created := Some backup_path |},
           <[test_file_path := test_content]>
             (<[backup_path := original_content]> files),
           e')
      end
  end.

End Applicator.

(** ** What the engine reports about its learning *)

Module Adaptation.
Import Engine.

(** [Counter.most_common(5)]: the items by count, largest first, items of
    equal count in their order, and the first five of them. *)
Definition most_common_5 (counts : list (string * nat)) : list (string * nat) :=
  take 5 (PyDict.sort_reverse Nat.ltb snd counts).

(** [daily_failures[day] += frequency], the days in order of first
    appearance. *)
Fixpoint add_on_day (day : Z) (n : Z) (days : list (Z * Z)) : list (Z * Z) :=
  match days with
  | [] => [(day, n)]
  | (day', total) :: rest =>
      if (day' =? day)%Z then (day', (total + n)%Z) :: rest
      else (day', total) :: add_on_day day n rest
  end.

(** The comprehension that selects the recent patterns; the condition
    reads the clock once for every pattern. *)
Fixpoint recent_patterns_of (env : Env) (learning_window : Z)
    (ps : list TestFailurePattern) (reads : nat)
    : list TestFailurePattern * nat :=
  match ps with
  | [] => ([], reads)
  | p :: rest =>
      let (recent, reads') :=
        recent_patterns_of env learning_window rest (S reads) in
      if (clock env reads - learning_window <? timestamp p)%Z
      then (p :: recent, reads')
      else (recent, reads')
  end.

(** [statistics.mean] of a list that is not empty. *)
Definition mean (values : list Q) : Q :=
  (foldr Qplus 0 values / Q_of_nat (length values))%Q.

Record Insights : Type := {
  total_patterns_learned : nat;
  recent_patterns : nat;
  pattern_types : list (string * nat);
  active_rules : nat;
  effective_rules : nat;
  learning_window_days : Z;
  daily_failure_trend : list (Z * Z);
  top_failure_types : list (string * nat);
  avg_rule_confidence : Q
}.

(** [learning_window] is the length of the seven days in the unit of the
    clock, [date_of] the day of a time. *)
Definition get_adaptation_insights (env : Env) (learning_window : Z)
    (date_of : datetime -> Z) (e : AdaptiveTestingEngine)
    : Insights * AdaptiveTestingEngine :=
  let (recent, reads) :=
    recent_patterns_of env learning_window (failure_patterns e)
                       (clock_reads e) in
  let pattern_stats := PyDict.Counter (failure_type <$> recent) in
  let effective :=
    filter (fun r => Qlt_bool 0.5 (success_rate r) = true) (adaptive_rules e) in
  let daily_failures :=
    fold_left (fun days p => add_on_day (date_of (timestamp p)) (frequency p) days)
              recent [] in
  ({| total_patterns_learned := length (failure_patterns e);
      recent_patterns := length recent;
      pattern_types := pattern_stats;
      active_rules := length (adaptive_rules e);
      effective_rules := length effective;
      learning_window_days := 7;
      daily_failure_trend := daily_failures;
      top_failure_types := most_common_5 pattern_stats;
      avg_rule_confidence :=
        match adaptive_rules e with
        | [] => 0
        | _ :: _ => mean (confidence <$> adaptive_rules e)
        end |},
   {| failure_patterns := failure_patterns e;
      adaptive_rules := adaptive_rules e;
      min_pattern_frequency := min_pattern_frequency e;
      confidence_threshold := confidence_threshold e;
      clock_reads := reads |}).

End Adaptation.

(** ** Trends and coverage in the dashboard *)

Module Trends.

(** [sum(f(i) for i in range(n))] over the integers. *)
Definition sum_range (f : Z -> Z) (n : nat) : Z :=
  foldr Z.add 0%Z (f <$> (Z.of_nat <$> seq 0 n)).

(** [sum(i * values[i] for i in range(n))] *)
Definition weighted_sum (values : list Q) : Q :=
  foldr Qplus 0%Q (imap (fun i v => (inject_Z (Z.of_nat i) * v)%Q) values).

(** The slope of the least-squares line through the values; the divisor
    is an integer, and a zero divisor would raise. *)
Definition _calculate_trend (values : list Q) : result Q :=
  if (length values <? 2)%nat then Ok 0.0%Q
  else
    let n := Z.of_nat (length values) in
    let x_sum := sum_range (fun i => i) (length values) in
    let y_sum := foldr Qplus 0%Q values in
    let xy_sum := weighted_sum values in
    let x_sq_sum := sum_range (fun i => (i * i)%Z) (length values) in
    let divisor := (n * x_sq_sum - x_sum * x_sum)%Z in
    if (divisor =? 0)%Z then Raise ZeroDivisionError
    else Ok ((inject_Z n * xy_sum - inject_Z x_sum * y_sum)
             / inject_Z divisor)%Q.

End Trends.

Module Coverage.
Import Dashboard.

(** The chain of tests on the lower-cased name of a test. *)
Definition component_of (test_name : string) : string :=
  if PyStr.contains "login" test_name || PyStr.contains "auth" test_name then
    "authentication"
  else if PyStr.contains "product" test_name
          || PyStr.contains "catalog" test_name then
    "product_catalog"
  else if PyStr.contains "cart" test_name then
    "shopping_cart"
  else if PyStr.contains "checkout" test_name
          || PyStr.contains "payment" test_name then
    "checkout"
  else if PyStr.contains "order" test_name then
    "order_management"
  else
    "other".

(** The component under which a test is counted. *)
Definition component_of_test (test : TestDetail) : string :=
  component_of (PyStr.lower (default "" (det_name test))).

(** The body of the loop over the tests of a run. *)
Definition count_test (component_coverage : list (string * nat))
    (test : TestDetail) : list (string * nat) :=
  let test_name := PyStr.lower (default "" (det_name test)) in
  PyDict.counter_add (component_of test_name) component_coverage.

(** The number of tests per component over the last five runs, the
    components in order of first appearance. *)
Definition component_coverage (test_history : list TestRun)
    : list (string * nat) :=
  fold_left
    (fun coverage run =>
       fold_left count_test (default [] (run_test_details run)) coverage)
    (PyDict.last_n 5 test_history) [].

Definition total_tests (coverage : list (string * nat)) : nat :=
  foldr Nat.add 0%nat (snd <$> coverage).

(** The components under ten percent, [other] excepted. *)
Definition low_coverage_components (coverage : list (string * nat))
    : list string :=
  let total := total_tests coverage in
  omap (fun item : string * nat =>
          let (component, count) := item in
          let coverage_percentage :=
            ((Q_of_nat count / Q_of_nat total) * 100)%Q in
          if Qlt_bool coverage_percentage 10
             && negb (String.eqb component "other")
          then Some component else None)
       coverage.

(** The payload keeps the two keys of the source; the dictionary is
    written as a text of [component: count] entries and the list as a
    text of its items. *)
Definition _analyze_test_coverage (test_history : list TestRun)
    : list AIInsight :=
  let coverage := component_coverage test_history in
  if (0 <? total_tests coverage)%nat then
    let low := low_coverage_components coverage in
    match low with
    | [] => []
    | _ :: _ =>
        [ {| category := "coverage";
             title := "Low Test Coverage Areas";
             description :=
               "Components with low test coverage: " +:+ PyStr.join ", " low;
             severity := "medium";
             recommendations :=
               ["Increase test coverage for " +:+ PyStr.join ", " low;
                "Generate additional tests for uncovered areas";
                "Review component criticality and add appropriate tests"];
             confidence := 0.8;
             data_points :=
               OtherData
                 [("component_coverage",
                   PyStr.join ", "
                     ((fun item : string * nat =>
                         fst item +:+ ": " +:+ pretty (snd item))
                        <$> coverage));
                  ("low_coverage_components", PyStr.join ", " low)] |} ]
    end
  else [].

(** The tests of the scanned window, run after run. *)
Definition scanned_tests (test_history : list TestRun) : list TestDetail :=
  mjoin ((fun run => default [] (run_test_details run))
           <$> PyDict.last_n 5 test_history).

(** The number of scanned tests that belong to a component. *)
Definition tests_of (component : string) (test_history : list TestRun) : nat :=
  length (filter
            (fun test =>
               component_of (PyStr.lower (default "" (det_name test)))
               = component)
            (scanned_tests test_history)).

End Coverage.

Module DashboardData.
Import Dashboard.

(** The insights [generate_dashboard_data] shows: the stored insights
    sorted once more, and the first five of them. *)
Definition top_insights (ai_insights : list AIInsight) : list AIInsight :=
  take 5 (sort_insights ai_insights).

End DashboardData.

(** ** Further notions for the properties *)

Module Notions.
Import Engine.

(** The number of results of a sequence that are recorded. *)
Definition failures (test_results : list TestResult) : nat :=
  length (filter (fun r => res_status r = Some "failed") test_results).

(** The kind and confidence of the rule that a group yields, when the
    confidence reaches the threshold. *)
Definition passing_group (confidence_threshold : Q)
    (group : string * list TestFailurePattern) : option (string * Q) :=
  match avg_frequency (snd group) with
  | Ok avg =>
      let confidence := py_min (avg / 10)%Q 1.0%Q in
      if Qle_bool confidence_threshold confidence
      then Some (fst group, confidence) else None
  | Raise _ => None
  end.

Definition kind_and_confidence (rule : AdaptiveRule) : string * Q :=
  (pattern rule, confidence rule).

(** The patterns that the synthesis looks at. *)
Definition frequent (e : AdaptiveTestingEngine) : list TestFailurePattern :=
  filter (fun p => (min_pattern_frequency e <= frequency p)%Z)
         (failure_patterns e).

(** The text stands in the message between two quote characters. *)
Definition quoted_in (locator message : string) : Prop :=
  exists pre open_quote close_quote post,
    message = pre +:+ String open_quote (locator +:+ String close_quote post) /\
    Re.is_quote open_quote = true /\ Re.is_quote close_quote = true.

(** No end of [old] is a start of [old]: occurrences cannot overlap. *)
Definition border_free (old : string) : bool :=
  forallb (fun j => negb (String.prefix (PyStr.drop j old) old))
          (seq 1 (String.length old - 1)).

(** The sum of the counts of a counter. *)
Definition total_count (counts : list (string * nat)) : nat :=
  foldr Nat.add 0%nat (snd <$> counts).

(** An engine that holds one rule of kind timing issue, and a file with
    one click on the page. *)
Definition timing_engine : AdaptiveTestingEngine :=
  with_rules [Samples.rule_of_kind "timing_issue"] init.

Definition cart_files : gmap string string :=
  {[ "test_cart.py" := "    page.click('#buy')" ]}.

(** [with_suffix('.py.backup')] on a path that ends in [.py]. *)
Definition backup_name (path : string) : string := path +:+ ".backup".

(** What the operations keep true of an engine: one pattern per
    identity, every frequency at least 1, every rule with a confidence
    between 0.7 and 1 and a success rate of 0, and the settings of
    [__init__]. *)
Definition sound (e : AdaptiveTestingEngine) : Prop :=
  NoDup (identities e) /\
  Forall (fun p => (1 <= frequency p)%Z) (failure_patterns e) /\
  Forall (fun rule => (0.7 <= confidence rule)%Q /\ (confidence rule <= 1)%Q /\
                      success_rate rule = 0.0%Q) (adaptive_rules e) /\
  min_pattern_frequency e = 3%Z /\
  confidence_threshold e = 0.7%Q.

(** The engines that the operations produce from the empty one. *)
Inductive reachable (env : Env) : AdaptiveTestingEngine -> Prop :=
| reach_init : reachable env init
| reach_record e test_result :
    reachable env e ->
    reachable env (record_test_failure env e test_result)
| reach_analyze e :
    reachable env e ->
    reachable env (snd (analyze_patterns_and_create_rules env e))
| reach_apply e backup_of files test_file_path :
    reachable env e ->
    reachable env
      (snd (Applicator.apply_adaptive_improvements env backup_of files e
              test_file_path))
| reach_insights e learning_window date_of :
    reachable env e ->
    reachable env
      (snd (Adaptation.get_adaptation_insights env learning_window date_of e)).

End Notions.
(** * Properties *)

(** ** Strings *)

#[local] Arguments String.append !s1 s2 : simpl nomatch.

Section StringFacts.

Lemma append_nil_r (s : string) : s +:+ "" = s.
Proof. induction s as [|c s IH]; simpl; congruence. Qed.

Lemma append_assoc (a b c : string) : (a +:+ b) +:+ c = a +:+ b +:+ c.
Proof. induction a as [|x a IH]; simpl; congruence. Qed.

Lemma length_append (a b : string) :
  String.length (a +:+ b) = (String.length a + String.length b)%nat.
Proof. induction a as [|x a IH]; simpl; congruence. Qed.

Lemma prefix_iff (p s : string) :
  String.prefix p s = true <-> exists t, s = p +:+ t.
Proof.
  revert s. induction p as [|c p IH]; intros s.
  - destruct s; simpl; split; eauto.
  - destruct s as [|d s]; simpl.
    + split; [discriminate | intros [t Ht]; discriminate].
    + destruct (Ascii.ascii_dec c d) as [->|Hcd].
      * rewrite IH. split; intros [t Ht]; exists t; simpl in *; congruence.
      * split; [discriminate | intros [t Ht]; simpl in Ht; congruence].
Qed.

Lemma prefix_append (p t : string) : String.prefix p (p +:+ t) = true.
Proof. apply prefix_iff. eauto. Qed.

Lemma contains_iff (needle hay : string) :
  PyStr.contains needle hay = true <->
  exists pre post, hay = pre +:+ needle +:+ post.
Proof.
  induction hay as [|c hay IH]; cbn [PyStr.contains].
  - rewrite orb_false_r, prefix_iff. split.
    + intros [t Ht]. exists "", t. exact Ht.
    + intros (pre & post & H). destruct pre; [eauto | discriminate].
  - rewrite orb_true_iff, prefix_iff, IH. split.
    + intros [[t Ht] | (pre & post & H)].
      * exists "", t. exact Ht.
      * exists (String c pre), post. simpl. congruence.
    + intros (pre & post & H). destruct pre as [|d pre].
      * left. exists post. exact H.
      * right. exists pre, post. simpl in H. congruence.
Qed.

Lemma contains_append (needle pre post : string) :
  PyStr.contains needle (pre +:+ needle +:+ post) = true.
Proof. apply contains_iff. eauto. Qed.

Lemma contains_trans (a b c : string) :
  PyStr.contains a b = true -> PyStr.contains b c = true ->
  PyStr.contains a c = true.
Proof.
  rewrite !contains_iff. intros (p1 & q1 & ->) (p2 & q2 & ->).
  exists (p2 +:+ p1), (q1 +:+ q2). now rewrite !append_assoc.
Qed.

Lemma contains_app_r (needle pre s : string) :
  PyStr.contains needle s = true ->
  PyStr.contains needle (pre +:+ s) = true.
Proof.
  rewrite !contains_iff. intros (p & q & ->).
  exists (pre +:+ p), q. now rewrite !append_assoc.
Qed.

Lemma contains_app_l (needle s post : string) :
  PyStr.contains needle s = true ->
  PyStr.contains needle (s +:+ post) = true.
Proof.
  rewrite !contains_iff. intros (p & q & ->).
  exists p, (q +:+ post). now rewrite !append_assoc.
Qed.

Lemma lower_append (a b : string) :
  PyStr.lower (a +:+ b) = PyStr.lower a +:+ PyStr.lower b.
Proof. induction a as [|c a IH]; simpl; congruence. Qed.

End StringFacts.

(** ** The classifier *)

Section Classifier.
Import Engine.

Lemma lower_occurrence (word message : string) :
  occurs_ignoring_case word message ->
  PyStr.contains word (PyStr.lower message) = true.
Proof.
  intros (pre & mid & post & -> & <-).
  rewrite !lower_append. apply contains_append.
Qed.

Lemma lower_split (a b s : string) :
  PyStr.lower s = a +:+ b ->
  exists a' b', s = a' +:+ b' /\ PyStr.lower a' = a /\ PyStr.lower b' = b.
Proof.
  revert s. induction a as [|x a IH]; intros s H.
  - exists "", s. auto.
  - destruct s as [|y s]; [discriminate H|].
    cbn [PyStr.lower String.append] in H. injection H as Hx Hs.
    destruct (IH s Hs) as (a' & b' & -> & Ha & Hb).
    exists (String y a'), b'. cbn [PyStr.lower String.append].
    rewrite Ha, Hx. auto.
Qed.

Lemma occurrence_of_lower (word message : string) :
  PyStr.contains word (PyStr.lower message) = true ->
  occurs_ignoring_case word message.
Proof.
  rewrite contains_iff. intros (p & q & H).
  apply lower_split in H as (pre & rest & -> & _ & H).
  apply lower_split in H as (mid & post & -> & Hmid & _).
  exists pre, mid, post. auto.
Qed.

(** A row matches exactly when the test of its keywords on the
    lower-cased message succeeds. *)
Lemma row_matches_iff (row : list string * string) (message : string) :
  row_matches row message <-> any_in (fst row) (PyStr.lower message) = true.
Proof.
  unfold row_matches, any_in. rewrite existsb_exists. split.
  - intros (word & Hin & Hocc). exists word.
    split; [exact Hin | now apply lower_occurrence].
  - intros (word & Hin & Hc). exists word.
    split; [exact Hin | now apply occurrence_of_lower].
Qed.

Lemma first_row_is_first_match table (message : string) :
  first_match_kind message table (first_row table (PyStr.lower message)).
Proof.
  induction table as [|[keywords kind] rest IH]; cbn [first_row].
  - constructor.
  - destruct (any_in keywords (PyStr.lower message)) eqn:Hrow.
    + apply (row_found message (keywords, kind)).
      now apply row_matches_iff.
    + apply row_passed; [|exact IH].
      rewrite row_matches_iff. cbn [fst]. rewrite Hrow. discriminate.
Qed.

Lemma first_match_unique table (message kind : string) :
  first_match_kind message table kind ->
  kind = first_row table (PyStr.lower message).
Proof.
  induction 1 as [| [keywords kind] rest Hrow
                  | [keywords kind'] rest kind Hrow _ IH]; cbn [first_row].
  - reflexivity.
  - apply row_matches_iff in Hrow. cbn [fst] in Hrow. now rewrite Hrow.
  - rewrite row_matches_iff in Hrow. cbn [fst] in Hrow.
    destruct (any_in keywords (PyStr.lower message)); [now destruct Hrow|].
    exact IH.
Qed.

Lemma first_match_unknown table (message : string) :
  Forall (fun row => snd row <> "unknown") table ->
  first_match_kind message table "unknown" ->
  Forall (fun row => ~ row_matches row message) table.
Proof.
  intros Hkinds H. remember "unknown" as kind eqn:Hk.
  induction H as [| row rest Hrow | row rest kind Hrow H IH].
  - constructor.
  - apply Forall_cons_1 in Hkinds as [Hrowkind _]. congruence.
  - apply Forall_cons_1 in Hkinds as [_ Hkinds]. constructor; auto.
Qed.

Lemma first_match_none table (message : string) :
  Forall (fun row => ~ row_matches row message) table ->
  first_match_kind message table "unknown".
Proof.
  induction 1 as [|row rest Hrow _ IH]; [constructor|].
  now apply row_passed.
Qed.

(** C4.  The classifier gives every message the kind of the first row
    of the ordered table of which a keyword occurs in the message in
    some letter case, and [unknown] exactly when no row has such a
    keyword; the message has no other kind, the kind is one of the
    seven, and a message with timeout or element not found in it, in
    any letter case, is a timing issue. *)
Theorem classify_failure_table (message : string) :
  first_match_kind message classification_table (_classify_failure message) /\
  (forall kind,
      first_match_kind message classification_table kind ->
      kind = _classify_failure message) /\
  In (_classify_failure message) failure_kinds /\
  (_classify_failure message = "unknown" <->
   Forall (fun row => ~ row_matches row message) classification_table) /\
  (occurs_ignoring_case "timeout" message \/
   occurs_ignoring_case "element not found" message ->
   _classify_failure message = "timing_issue").
Proof.
  assert (_classify_failure message
          = first_row classification_table (PyStr.lower message)) as E
    by reflexivity.
  pose proof (first_row_is_first_match classification_table message) as Hfirst.
  rewrite <- E in Hfirst.
  split; [exact Hfirst|]. split; [|split; [|split]].
  - intros kind Hkind. rewrite E. now apply first_match_unique.
  - unfold _classify_failure.
    repeat match goal with
           | |- context [if ?b then _ else _] => destruct b
           end; simpl; tauto.
  - split.
    + intros Hunknown. rewrite Hunknown in Hfirst.
      revert Hfirst. apply first_match_unknown.
      unfold classification_table.
      repeat (constructor; [discriminate|]). constructor.
    + intros Hnone. symmetry. rewrite E.
      apply first_match_unique. now apply first_match_none.
  - intros H. symmetry. rewrite E. apply first_match_unique.
    apply (row_found message
             (["timeout"; "wait"; "element not found"], "timing_issue")).
    destruct H as [H | H]; [exists "timeout" | exists "element not found"];
      (split; [simpl; tauto | exact H]).
Qed.

Lemma classify_failure_table_witness :
  _classify_failure "Request for data failed: Connection reset"
  = "network_issue".
Proof.
  symmetry.
  apply (proj1 (proj2 (classify_failure_table
                         "Request for data failed: Connection reset"))).
  apply row_passed; [rewrite row_matches_iff; vm_compute; discriminate|].
  apply row_passed; [rewrite row_matches_iff; vm_compute; discriminate|].
  apply (row_found _ (["network"; "connection"; "request"], "network_issue")).
  exists "connection". split; [simpl; tauto|].
  exists "Request for data failed: ", "Connection", " reset".
  split; reflexivity.
Defined.

End Classifier.

(** ** The pattern store *)

Section PatternStore.
Import Engine.
Implicit Types (env : Env) (e : AdaptiveTestingEngine) (r : TestResult).

Lemma extract_recorded env e r k :
  identity_of r = Some k ->
  exists p,
    _extract_failure_pattern env e r = (Some p, snd (now env e)) /\
    identity p = k /\ frequency p = 1%Z.
Proof.
  unfold identity_of, _extract_failure_pattern.
  destruct (bool_decide _); [|discriminate].
  intros [= <-]. eexists. split; [reflexivity|]. split; reflexivity.
Qed.

Lemma extract_skipped env e r :
  identity_of r = None -> _extract_failure_pattern env e r = (None, e).
Proof.
  unfold identity_of, _extract_failure_pattern.
  destruct (bool_decide _); [discriminate | reflexivity].
Qed.

Lemma record_skipped env e r :
  identity_of r = None -> record_test_failure env e r = e.
Proof.
  intros H. unfold record_test_failure. now rewrite extract_skipped.
Qed.

(** A recorded result either bumps the first stored pattern of its
    identity, or, when there is none, is appended with frequency 1. *)
Lemma record_recorded env e r k :
  identity_of r = Some k ->
  (exists i existing t,
      failure_patterns e !! i = Some existing /\
      identity existing = k /\
      failure_patterns (record_test_failure env e r) =
        <[i := seen_again t existing]> (failure_patterns e)) \/
  ((k ∉ identities e) /\
   exists p,
     identity p = k /\ frequency p = 1%Z /\
     failure_patterns (record_test_failure env e r) =
       failure_patterns e ++ [p]).
Proof.
  intros Hk. destruct (extract_recorded env e r k Hk) as (p & Hp & Hid & Hf).
  unfold record_test_failure. rewrite Hp.
  destruct (_find_existing_pattern (snd (now env e)) p) as [[i existing]|] eqn:Hfind.
  - left. unfold _find_existing_pattern in Hfind.
    apply list_find_Some in Hfind as (Hi & (Hn & Hty & Hsel) & _).
    exists i, existing. eexists. split; [exact Hi|]. split.
    + rewrite <- Hid. unfold identity. congruence.
    + reflexivity.
  - right. unfold _find_existing_pattern in Hfind.
    apply list_find_None in Hfind. split.
    + unfold identities. intros Hin.
      apply list_elem_of_fmap in Hin as (q & Hq & Hin).
      rewrite Forall_forall in Hfind. apply (Hfind q Hin).
      subst k. unfold identity in Hq. now inversion Hq.
    + exists p. auto.
Qed.

Lemma identity_seen_again t p : identity (seen_again t p) = identity p.
Proof. reflexivity. Qed.

Lemma record_keeps_identities_distinct env e r :
  NoDup (identities e) -> NoDup (identities (record_test_failure env e r)).
Proof.
  intros Hnd. destruct (identity_of r) as [k|] eqn:Hk.
  - destruct (record_recorded env e r k Hk)
      as [(i & ex & t & Hi & Hid & Heq) | (Hnew & p & Hid & _ & Heq)];
      unfold identities in *; rewrite Heq.
    + rewrite list_fmap_insert, identity_seen_again.
      rewrite list_insert_id; [exact Hnd|].
      now rewrite list_lookup_fmap, Hi.
    + rewrite fmap_app. apply NoDup_app. split; [exact Hnd|]. split.
      * intros x Hx Hx'. apply list_elem_of_singleton in Hx'.
        subst x. simpl in Hx. congruence.
      * apply NoDup_singleton.
  - now rewrite record_skipped.
Qed.

Lemma record_all_keeps_identities_distinct env rs : forall e,
  NoDup (identities e) -> NoDup (identities (record_all env e rs)).
Proof.
  induction rs as [|r rs IH]; intros e Hnd; simpl; [exact Hnd|].
  apply IH, record_keeps_identities_distinct, Hnd.
Qed.

(** C2.  The store holds at most one pattern per identity after any
    sequence of recordings; two results of one identity leave a single
    pattern of frequency 2; two results that differ in the locator only
    leave two patterns of frequency 1. *)
Theorem store_one_pattern_per_identity :
  (forall env e rs,
      NoDup (identities e) -> NoDup (identities (record_all env e rs))) /\
  (forall env r1 r2 k,
      identity_of r1 = Some k -> identity_of r2 = Some k ->
      exists p,
        failure_patterns (record_all env init [r1; r2]) = [p] /\
        identity p = k /\ frequency p = 2%Z) /\
  (forall env r1 r2 name kind locator1 locator2,
      identity_of r1 = Some (name, kind, locator1) ->
      identity_of r2 = Some (name, kind, locator2) ->
      locator1 <> locator2 ->
      exists p1 p2,
        failure_patterns (record_all env init [r1; r2]) = [p1; p2] /\
        identity p1 = (name, kind, locator1) /\ frequency p1 = 1%Z /\
        identity p2 = (name, kind, locator2) /\ frequency p2 = 1%Z).
Proof.
  split; [|split].
  - intros env e rs. apply record_all_keeps_identities_distinct.
  - intros env r1 r2 k H1 H2. simpl.
    destruct (record_recorded env init r1 k H1)
      as [(i & ex & t & Hi & _) | (_ & p & Hid & Hf & Heq)];
      [destruct i; discriminate|].
    simpl in Heq.
    destruct (record_recorded env (record_test_failure env init r1) r2 k H2)
      as [(i & ex & t & Hi & Hid' & Heq') | (Hnew & _)].
    + rewrite Heq in Hi, Heq'.
      destruct i as [|i]; [|destruct i; discriminate].
      injection Hi as <-. exists (seen_again t p).
      split; [exact Heq'|]. split; [exact Hid|]. simpl. lia.
    + exfalso. apply Hnew. unfold identities. rewrite Heq. simpl.
      rewrite Hid. apply list_elem_of_singleton. reflexivity.
  - intros env r1 r2 name kind l1 l2 H1 H2 Hne. simpl.
    destruct (record_recorded env init r1 _ H1)
      as [(i & ex & t & Hi & _) | (_ & p1 & Hid1 & Hf1 & Heq1)];
      [destruct i; discriminate|].
    simpl in Heq1.
    destruct (record_recorded env (record_test_failure env init r1) r2 _ H2)
      as [(i & ex & t & Hi & Hid' & _) | (_ & p2 & Hid2 & Hf2 & Heq2)].
    + rewrite Heq1 in Hi.
      destruct i as [|i]; [|destruct i; discriminate].
      injection Hi as <-. congruence.
    + exists p1, p2. rewrite Heq2, Heq1. auto.
Qed.

Lemma store_one_pattern_per_identity_witness :
  NoDup (identities
           (record_all Samples.sample_env init
              [Samples.search_timeout; Samples.cart_timeout;
               Samples.search_timeout])) /\
  (exists p,
      failure_patterns
        (record_all Samples.sample_env init
           [Samples.search_timeout; Samples.search_timeout]) = [p] /\
      frequency p = 2%Z) /\
  (exists p1 p2,
      failure_patterns
        (record_all Samples.sample_env init
           [Samples.search_timeout; Samples.cart_timeout]) = [p1; p2] /\
      frequency p1 = 1%Z /\ frequency p2 = 1%Z).
Proof.
  destruct store_one_pattern_per_identity as (Hinv & Hsame & Hdiff).
  split; [|split].
  - apply Hinv. constructor.
  - destruct (Hsame Samples.sample_env Samples.search_timeout
                Samples.search_timeout
                ("test_product_search", "timing_issue",
                 Some "#search-results") eq_refl eq_refl)
      as (p & Hp & _ & Hf).
    exists p. split; [exact Hp | exact Hf].
  - destruct (Hdiff Samples.sample_env Samples.search_timeout
                Samples.cart_timeout "test_product_search" "timing_issue"
                (Some "#search-results") (Some "#cart") eq_refl eq_refl)
      as (p1 & p2 & Hp & _ & Hf1 & _ & Hf2); [discriminate|].
    exists p1, p2. split; [exact Hp|]. split; [exact Hf1 | exact Hf2].
Defined.

End PatternStore.

(** ** Rule synthesis *)

Section RuleSynthesis.
Import Engine.
Implicit Types (env : Env) (e : AdaptiveTestingEngine).
Local Open Scope Q_scope.

Lemma Qlt_bool_iff (x y : Q) : Qlt_bool x y = true <-> x < y.
Proof.
  unfold Qlt_bool. rewrite negb_true_iff. split.
  - intros H. apply Qnot_le_lt. intros Hle.
    apply Qle_bool_iff in Hle. congruence.
  - intros H. destruct (Qle_bool y x) eqn:E; [|reflexivity].
    apply Qle_bool_iff in E. exfalso. eapply Qlt_not_le; eauto.
Qed.

Lemma py_min_cases (a b : Q) :
  (b < a /\ py_min a b = b) \/ (a <= b /\ py_min a b = a).
Proof.
  unfold py_min. destruct (Qlt_bool b a) eqn:E.
  - left. split; [now apply Qlt_bool_iff | reflexivity].
  - right. split; [|reflexivity]. apply Qnot_lt_le. intros H.
    apply Qlt_bool_iff in H. congruence.
Qed.

Lemma tenth (a : Q) : a == 10 * (a / 10).
Proof. field. Qed.

(** The confidence of a rule as a function of the average frequency. *)
Lemma confidence_monotone (a b : Q) :
  a <= b -> py_min (a / 10) 1.0 <= py_min (b / 10) 1.0.
Proof.
  intros Hab. pose proof (tenth a) as Ea. pose proof (tenth b) as Eb.
  revert Ea Eb. generalize (a / 10), (b / 10). intros x y Ea Eb.
  destruct (py_min_cases x 1.0) as [[Ha ->] | [Ha ->]];
    destruct (py_min_cases y 1.0) as [[Hb ->] | [Hb ->]]; lra.
Qed.

Lemma confidence_saturates (a : Q) :
  10 <= a -> py_min (a / 10) 1.0 == 1.
Proof.
  intros Ha. pose proof (tenth a) as Ea.
  revert Ea. generalize (a / 10). intros x Ea.
  destruct (py_min_cases x 1.0) as [[H ->] | [H ->]]; lra.
Qed.

Lemma avg_frequency_nonempty (ps : list TestFailurePattern) :
  ps <> [] -> exists avg, avg_frequency ps = Ok avg.
Proof. destruct ps; [congruence | simpl; eauto]. Qed.

(** What [_create_rule_for_pattern_group] returns on a group with an
    average: a rule of the group's kind, and an engine that differs in
    the number of clock reads only. *)
Lemma create_rule_returns env e kind ps avg :
  avg_frequency ps = Ok avg ->
  exists rule e',
    _create_rule_for_pattern_group env e kind ps = (Ok rule, e') /\
    confidence rule = py_min (avg / 10) 1.0 /\
    pattern rule = kind /\
    adaptive_rules e' = adaptive_rules e /\
    failure_patterns e' = failure_patterns e /\
    confidence_threshold e' = confidence_threshold e.
Proof.
  intros Havg. unfold _create_rule_for_pattern_group. rewrite Havg.
  simpl. eexists _, _. split; [reflexivity|]. simpl. auto.
Qed.

Lemma total_frequency_sum (ps : list TestFailurePattern) :
  total_frequency ps = foldr Z.add 0%Z (frequency <$> ps).
Proof.
  unfold total_frequency. induction ps as [|p ps IH]; [reflexivity|].
  rewrite fmap_cons. cbn [foldr]. now rewrite IH.
Qed.

Lemma avg_frequency_average (ps : list TestFailurePattern) :
  ps <> [] -> avg_frequency ps = Ok (average_frequency ps).
Proof.
  destruct ps as [|p ps]; [congruence|]. intros _.
  unfold avg_frequency, average_frequency, Q_of_nat.
  now rewrite total_frequency_sum.
Qed.

Lemma py_min_is_min (a b : Q) : py_min a b == Qmin a b.
Proof.
  destruct (py_min_cases a b) as [[H ->] | [H ->]].
  - symmetry. apply Q.min_r. lra.
  - symmetry. apply Q.min_l. exact H.
Qed.

(** C5.  On a group that is not empty the rule is built, and its
    confidence is min(average frequency / 10, 1.0), the average being
    the sum of the frequencies over their number: a tenth of the average
    up to an average of 10, and 1 from there on; it does not decrease
    when the average frequency grows. *)
Theorem rule_confidence_saturating_scale env e kind ps (Hgroup : ps <> []) :
  exists rule e',
    _create_rule_for_pattern_group env e kind ps = (Ok rule, e') /\
    confidence rule == Qmin (average_frequency ps / 10) 1.0 /\
    (average_frequency ps <= 10 ->
     confidence rule == average_frequency ps / 10) /\
    (10 <= average_frequency ps -> confidence rule == 1) /\
    (forall env2 e2 kind2 ps2 rule2 e2',
        ps2 <> [] ->
        _create_rule_for_pattern_group env2 e2 kind2 ps2 = (Ok rule2, e2') ->
        average_frequency ps <= average_frequency ps2 ->
        confidence rule <= confidence rule2).
Proof.
  destruct (create_rule_returns env e kind ps _
              (avg_frequency_average ps Hgroup))
    as (rule & e' & Hrule & Hc & _).
  exists rule, e'. split; [exact Hrule|].
  rewrite Hc. split; [apply py_min_is_min|]. split; [|split].
  - intros Hle. rewrite py_min_is_min. apply Q.min_l.
    pose proof (tenth (average_frequency ps)) as Ea.
    revert Ea Hle. generalize (average_frequency ps / 10),
      (average_frequency ps). intros x a Ea Hle. lra.
  - apply confidence_saturates.
  - intros env2 e2 kind2 ps2 rule2 e2' Hgroup2 Hrule2 Hle.
    destruct (create_rule_returns env2 e2 kind2 ps2 _
                (avg_frequency_average ps2 Hgroup2))
      as (r2 & e3 & Hr2 & Hc2 & _).
    rewrite Hr2 in Hrule2. injection Hrule2 as <- <-.
    rewrite Hc2. now apply confidence_monotone.
Qed.

Lemma rule_confidence_saturating_scale_witness :
  exists rule e',
    _create_rule_for_pattern_group Samples.sample_env init "timing_issue"
      [Samples.frequent_pattern; Samples.rare_pattern] = (Ok rule, e') /\
    confidence rule == 0.75.
Proof.
  destruct (rule_confidence_saturating_scale Samples.sample_env init
              "timing_issue" [Samples.frequent_pattern; Samples.rare_pattern])
    as (rule & e' & Hrule & _ & Hlinear & _); [discriminate|].
  exists rule, e'. split; [exact Hrule|].
  rewrite Hlinear; [reflexivity | vm_compute; discriminate].
Defined.

End RuleSynthesis.

Section RuleThreshold.
Import Engine.
Implicit Types (env : Env) (e : AdaptiveTestingEngine).
Local Open Scope Q_scope.

Lemma group_append_keys {A} (k : string) (v : A) groups :
  (k ∈ (fst <$> groups) ->
   fst <$> PyDict.group_append k v groups = fst <$> groups) /\
  (k ∉ (fst <$> groups) ->
   fst <$> PyDict.group_append k v groups = (fst <$> groups) ++ [k]).
Proof.
  induction groups as [|[k' vs] groups [IHin IHout]];
    cbn [PyDict.group_append].
  - split; [intros H; inversion H | reflexivity].
  - destruct (String.eqb_spec k' k) as [->|Hne]; rewrite !fmap_cons; cbn [fst].
    + split; [reflexivity|]. intros H. exfalso. apply H. left.
    + split.
      * intros H. apply elem_of_cons in H as [->|H]; [congruence|].
        now rewrite IHin.
      * intros H. rewrite IHout; [reflexivity|].
        intros H'. apply H. now right.
Qed.

Lemma group_append_NoDup {A} (k : string) (v : A) groups :
  NoDup (fst <$> groups) -> NoDup (fst <$> PyDict.group_append k v groups).
Proof.
  intros Hnd. destruct (group_append_keys k v groups) as [Hin Hout].
  destruct (decide (k ∈ (fst <$> groups))) as [H|H].
  - now rewrite Hin.
  - rewrite Hout by assumption. apply NoDup_app. split; [exact Hnd|].
    split; [|apply NoDup_singleton].
    intros x Hx Hx'. apply list_elem_of_singleton in Hx'. congruence.
Qed.

Lemma group_append_nonempty {A} (k : string) (v : A) groups :
  Forall (fun g => snd g <> []) groups ->
  Forall (fun g => snd g <> []) (PyDict.group_append k v groups).
Proof.
  induction 1 as [|[k' vs] groups Hg Hrest IH]; simpl.
  - constructor; [discriminate | constructor].
  - destruct (String.eqb k' k); constructor; simpl; auto.
    destruct vs; discriminate.
Qed.

Lemma pattern_groups_wf e :
  NoDup (fst <$> pattern_groups e) /\
  Forall (fun g => snd g <> []) (pattern_groups e).
Proof.
  unfold pattern_groups.
  assert (forall ps groups,
             NoDup (fst <$> groups) /\ Forall (fun g => snd g <> []) groups ->
             let groups' :=
               fold_left
                 (fun groups p =>
                    if (min_pattern_frequency e <=? frequency p)%Z
                    then PyDict.group_append (failure_type p) p groups
                    else groups) ps groups in
             NoDup (fst <$> groups') /\ Forall (fun g => snd g <> []) groups')
    as H.
  { induction ps as [|p ps IH]; intros groups [Hnd Hne]; simpl; [auto|].
    apply IH. destruct (_ <=? _)%Z; [|auto]. split.
    - now apply group_append_NoDup.
    - now apply group_append_nonempty. }
  apply H. split; constructor.
Qed.

(** The loop over the groups: it returns, it appends to the rule list
    exactly what it returns, and every returned rule comes from a group
    and passes the threshold. *)
Lemma create_rules_returns env groups :
  Forall (fun g => snd g <> []) groups ->
  forall new_rules e,
  exists more e',
    create_rules env groups new_rules e = (Ok (new_rules ++ more), e') /\
    adaptive_rules e' = adaptive_rules e ++ more /\
    failure_patterns e' = failure_patterns e /\
    confidence_threshold e' = confidence_threshold e /\
    Forall (fun rule => confidence_threshold e <= confidence rule) more /\
    Forall (fun rule =>
              exists ps avg,
                (pattern rule, ps) ∈ groups /\
                avg_frequency ps = Ok avg /\
                confidence rule = py_min (avg / 10) 1.0) more.
Proof.
  induction 1 as [|[kind ps] groups Hne _ IH]; intros new_rules e.
  - exists [], e. simpl. rewrite !app_nil_r. repeat split; constructor.
  - simpl in Hne. destruct (avg_frequency_nonempty ps Hne) as [avg Havg].
    destruct (create_rule_returns env e kind ps avg Havg)
      as (rule & e1 & Hrule & Hconf & Hkind & Hrules & Hpats & Hthr).
    simpl. rewrite Hrule.
    destruct (Qle_bool (confidence_threshold e1) (confidence rule)) eqn:Hpass.
    + destruct (IH (new_rules ++ [rule])
                   (with_rules (adaptive_rules e1 ++ [rule]) e1))
        as (more & e' & Hrun & Hr' & Hp' & Ht' & Hall & Hfrom).
      exists (rule :: more), e'. simpl in *.
      rewrite Hrun, <- app_assoc. simpl. split; [reflexivity|].
      rewrite Hr', Hrules, <- app_assoc. simpl. split; [reflexivity|].
      split; [congruence|]. split; [congruence|].
      rewrite Hthr in *. split.
      * constructor; [now apply Qle_bool_iff | exact Hall].
      * constructor.
        -- exists ps, avg. rewrite Hkind. split; [left | auto].
        -- eapply Forall_impl; [exact Hfrom|].
           intros r (ps' & avg' & Hin & H1 & H2).
           exists ps', avg'. split; [now right | auto].
    + destruct (IH new_rules e1)
        as (more & e' & Hrun & Hr' & Hp' & Ht' & Hall & Hfrom).
      exists more, e'. rewrite Hrun. split; [reflexivity|].
      split; [congruence|]. split; [congruence|]. split; [congruence|].
      rewrite Hthr in *. split; [exact Hall|].
      eapply Forall_impl; [exact Hfrom|].
      intros r (ps' & avg' & Hin & H1 & H2).
      exists ps', avg'. split; [now right | auto].
Qed.

Lemma NoDup_fst_functional {A} (groups : list (string * list A)) k v1 v2 :
  NoDup (fst <$> groups) -> (k, v1) ∈ groups -> (k, v2) ∈ groups -> v1 = v2.
Proof.
  induction groups as [|[k' v'] groups IH]; simpl; intros Hnd H1 H2.
  - inversion H1.
  - apply NoDup_cons in Hnd as [Hk' Hnd].
    apply elem_of_cons in H1 as [H1|H1]; apply elem_of_cons in H2 as [H2|H2].
    + congruence.
    + injection H1 as -> ->. exfalso. apply Hk'.
      apply list_elem_of_fmap. exists (k', v2). auto.
    + injection H2 as -> ->. exfalso. apply Hk'.
      apply list_elem_of_fmap. exists (k', v1). auto.
    + now apply IH.
Qed.

(** C6.  [analyze_patterns_and_create_rules] returns, and appends to the
    rule list, only rules whose confidence reaches the threshold; a
    group whose confidence is below it leaves no rule of its kind. *)
Theorem synthesized_rules_reach_threshold env e :
  exists new_rules e',
    analyze_patterns_and_create_rules env e = (Ok new_rules, e') /\
    adaptive_rules e' = adaptive_rules e ++ new_rules /\
    Forall (fun rule => confidence_threshold e <= confidence rule)
           new_rules /\
    (forall kind ps avg,
        (kind, ps) ∈ pattern_groups e ->
        avg_frequency ps = Ok avg ->
        py_min (avg / 10) 1.0 < confidence_threshold e ->
        forall rule, rule ∈ new_rules -> pattern rule <> kind).
Proof.
  destruct (pattern_groups_wf e) as [Hnd Hne].
  destruct (create_rules_returns env (pattern_groups e) Hne [] e)
    as (more & e' & Hrun & Hrules & _ & _ & Hall & Hfrom).
  exists more, e'. split; [exact Hrun|]. split; [exact Hrules|].
  split; [exact Hall|].
  intros kind ps avg Hin Havg Hlow rule Hrule Hkind.
  rewrite Forall_forall in Hall, Hfrom.
  destruct (Hfrom rule Hrule) as (ps' & avg' & Hin' & Havg' & Hconf).
  rewrite Hkind in Hin'.
  assert (ps' = ps) as -> by (eapply NoDup_fst_functional; eauto).
  assert (avg' = avg) as -> by congruence.
  specialize (Hall rule Hrule). rewrite Hconf in Hall.
  eapply Qlt_not_le; eauto.
Qed.

Lemma synthesized_rules_reach_threshold_witness :
  exists new_rules e',
    analyze_patterns_and_create_rules Samples.sample_env Samples.sample_store
      = (Ok new_rules, e') /\
    forall rule, rule ∈ new_rules -> pattern rule <> "element_selector".
Proof.
  destruct (synthesized_rules_reach_threshold Samples.sample_env
              Samples.sample_store) as (new_rules & e' & Hrun & _ & _ & Hlow).
  exists new_rules, e'. split; [exact Hrun|].
  apply (Hlow "element_selector" [Samples.rare_pattern] (3 / 1)).
  - apply list_elem_of_further, list_elem_of_here.
  - reflexivity.
  - vm_compute. reflexivity.
Defined.

End RuleThreshold.

(** ** The end-to-end scenario *)

Section EndToEnd.
Import Engine.
Implicit Types (env : Env) (e : AdaptiveTestingEngine) (r : TestResult).

Lemma record_keeps_configuration env e r :
  adaptive_rules (record_test_failure env e r) = adaptive_rules e /\
  min_pattern_frequency (record_test_failure env e r)
    = min_pattern_frequency e /\
  confidence_threshold (record_test_failure env e r)
    = confidence_threshold e.
Proof.
  unfold record_test_failure, _extract_failure_pattern.
  destruct (bool_decide _); [|auto]. cbn [now fst snd].
  destruct (_find_existing_pattern _ _) as [[i p]|]; simpl; auto.
Qed.

(** Recording the same result again and again keeps a single pattern
    and counts the recordings. *)
Lemma record_repeated env r k (n : nat) : forall e p,
  identity_of r = Some k ->
  failure_patterns e = [p] -> identity p = k ->
  exists p',
    failure_patterns (record_all env e (replicate n r)) = [p'] /\
    identity p' = k /\ frequency p' = (frequency p + Z.of_nat n)%Z /\
    adaptive_rules (record_all env e (replicate n r)) = adaptive_rules e /\
    min_pattern_frequency (record_all env e (replicate n r))
      = min_pattern_frequency e /\
    confidence_threshold (record_all env e (replicate n r))
      = confidence_threshold e.
Proof.
  induction n as [|n IH]; intros e p Hk He Hp.
  - exists p. simpl. rewrite Z.add_0_r. repeat split; auto.
  - simpl.
    destruct (record_keeps_configuration env e r) as (Hr & Hm & Ht).
    destruct (record_recorded env e r k Hk)
      as [(i & ex & t & Hi & Hid & Heq) | (Hnew & _)].
    + rewrite He in Hi, Heq.
      destruct i as [|i]; [|destruct i; discriminate].
      injection Hi as <-. simpl in Heq.
      destruct (IH (record_test_failure env e r) (seen_again t p) Hk Heq Hp)
        as (p' & H1 & H2 & H3 & H4 & H5 & H6).
      exists p'. split; [exact H1|]. split; [exact H2|].
      split; [simpl in H3; lia|]. split; [congruence|].
      split; congruence.
    + exfalso. apply Hnew. unfold identities. rewrite He. simpl.
      rewrite Hp. apply list_elem_of_singleton. reflexivity.
Qed.

Lemma record_first env r k :
  identity_of r = Some k ->
  exists p,
    failure_patterns (record_test_failure env init r) = [p] /\
    identity p = k /\ frequency p = 1%Z.
Proof.
  intros Hk. destruct (record_recorded env init r k Hk)
    as [(i & ex & t & Hi & _) | (_ & p & Hid & Hf & Heq)];
    [destruct i; discriminate|].
  exists p. auto.
Qed.

(** The store and the settings after [S n] recordings of one result,
    starting from the empty engine. *)
Lemma record_from_init env r k (n : nat) :
  identity_of r = Some k ->
  exists p reads,
    record_all env init (replicate (S n) r) =
      {| failure_patterns := [p];
         adaptive_rules := [];
         min_pattern_frequency := 3;
         confidence_threshold := 0.7;
         clock_reads := reads |} /\
    identity p = k /\ frequency p = Z.of_nat (S n).
Proof.
  intros Hk. destruct (record_first env r k Hk) as (p & Hp & Hid & Hf).
  destruct (record_keeps_configuration env init r) as (Hr & Hm & Ht).
  destruct (record_repeated env r k n _ p Hk Hp Hid)
    as (p' & H1 & H2 & H3 & H4 & H5 & H6).
  change (record_all env init (replicate (S n) r))
    with (record_all env (record_test_failure env init r) (replicate n r)).
  destruct (record_all env (record_test_failure env init r) (replicate n r))
    as [ps rules minf thr reads].
  simpl in *. exists p', reads. subst ps.
  rewrite H4, H5, H6, Hr, Hm, Ht.
  split; [reflexivity|]. split; [exact H2 | lia].
Qed.

(** C1, as the code has it.  Three recordings of the search time-out
    leave one pattern of frequency 3, kind timing issue and locator
    #search-results, and the synthesis then returns no rule, the
    confidence 3/10 being below 0.7; after seven recordings it returns
    one rule, whose suggested fix names #search-results. *)
Theorem search_timeout_scenario env r
    (Hstatus : res_status r = Some "failed")
    (Hmessage : res_error_message r =
                  Some "Timeout waiting for selector '#search-results'") :
  (exists p,
      failure_patterns (record_all env init [r; r; r]) = [p] /\
      frequency p = 3%Z /\
      failure_type p = "timing_issue" /\
      element_selector p = Some "#search-results") /\
  (exists e',
      analyze_patterns_and_create_rules env (record_all env init [r; r; r])
        = (Ok [], e') /\
      adaptive_rules e' = []) /\
  (exists rule e',
      analyze_patterns_and_create_rules env
        (record_all env init (replicate 7 r)) = (Ok [rule], e') /\
      adaptive_rules e' = [rule] /\
      pattern rule = "timing_issue" /\
      suggested_fix rule =
        "Add explicit wait for element '#search-results' with increased timeout (30s+)" /\
      PyStr.contains "#search-results" (suggested_fix rule) = true).
Proof.
  assert (identity_of r =
            Some (default "" (res_test_name r), "timing_issue",
                  Some "#search-results")) as Hk.
  { unfold identity_of. rewrite Hstatus, Hmessage. reflexivity. }
  split; [|split].
  - destruct (record_from_init env r _ 2 Hk) as (p & reads & He & Hid & Hf).
    change (replicate 3 r) with [r; r; r] in He. rewrite He. simpl.
    exists p. unfold identity in Hid. injection Hid as _ H1 H2. auto.
  - destruct (record_from_init env r _ 2 Hk) as (p & reads & He & Hid & Hf).
    change (replicate 3 r) with [r; r; r] in He. rewrite He.
    destruct p as [n ft em sel ts fq cx]. unfold identity in Hid.
    simpl in Hid, Hf. injection Hid as _ -> ->. subst fq.
    eexists. split; vm_compute; reflexivity.
  - destruct (record_from_init env r _ 6 Hk) as (p & reads & He & Hid & Hf).
    rewrite He.
    destruct p as [n ft em sel ts fq cx]. unfold identity in Hid.
    simpl in Hid, Hf. injection Hid as _ -> ->. subst fq.
    eexists _, _. split; [vm_compute; reflexivity|].
    repeat split; vm_compute; reflexivity.
Qed.

Lemma search_timeout_scenario_witness :
  exists p,
    failure_patterns
      (record_all Samples.sample_env init
         [Samples.search_timeout; Samples.search_timeout;
          Samples.search_timeout]) = [p] /\
    frequency p = 3%Z.
Proof.
  destruct (search_timeout_scenario Samples.sample_env Samples.search_timeout
              eq_refl eq_refl) as ((p & Hp & Hf & _) & _).
  exists p. split; [exact Hp | exact Hf].
Defined.

(** The scenario as the specification states it does not hold: after
    three recordings the synthesis with the default thresholds returns no
    rule at all. *)
Lemma three_recordings_yield_no_rule :
  ~ exists rule e',
      analyze_patterns_and_create_rules Samples.sample_env
        (record_all Samples.sample_env init
           [Samples.search_timeout; Samples.search_timeout;
            Samples.search_timeout]) = (Ok [rule], e').
Proof.
  intros (rule & e' & H). vm_compute in H. discriminate.
Qed.

End EndToEnd.

(** ** The ranking of insights *)

Section Ranking.
Import Dashboard.
Local Open Scope Q_scope.

Section SortReverse.
Context {A K : Type} (lt : K -> K -> bool) (key : A -> K).
Hypothesis lt_asym : forall a b, lt a b = true -> lt b a = false.

Lemma insert_reverse_perm (x : A) (l : list A) :
  Permutation (x :: l) (PyDict.insert_reverse lt key x l).
Proof.
  induction l as [|y l IH]; simpl; [reflexivity|].
  destruct (lt (key x) (key y)); [|reflexivity].
  rewrite perm_swap. now apply perm_skip.
Qed.

Lemma sort_reverse_perm (l : list A) :
  Permutation l (PyDict.sort_reverse lt key l).
Proof.
  induction l as [|x l IH]; simpl; [reflexivity|].
  rewrite <- insert_reverse_perm. now apply perm_skip.
Qed.

Lemma insert_reverse_sorted (x : A) (l : list A) :
  Sorted (PyDict.not_below lt key) l ->
  Sorted (PyDict.not_below lt key) (PyDict.insert_reverse lt key x l).
Proof.
  induction 1 as [|y l Hs IH Hhd]; simpl.
  - repeat constructor.
  - destruct (lt (key x) (key y)) eqn:E.
    + constructor; [exact IH|].
      destruct Hhd as [|z l Hyz]; simpl.
      * constructor. now apply lt_asym.
      * destruct (lt (key x) (key z)); constructor;
          [exact Hyz | now apply lt_asym].
    + constructor; [now constructor | constructor; exact E].
Qed.

Lemma sort_reverse_sorted (l : list A) :
  Sorted (PyDict.not_below lt key) (PyDict.sort_reverse lt key l).
Proof.
  induction l as [|x l IH]; simpl; [constructor|].
  now apply insert_reverse_sorted.
Qed.
End SortReverse.

Lemma tuple_lt_asym (a b : Z * Q) : tuple_lt a b = true -> tuple_lt b a = false.
Proof.
  unfold tuple_lt. destruct a as [a1 a2], b as [b1 b2]. simpl.
  rewrite (Z.eqb_sym b1 a1).
  destruct (Z.eqb_spec a1 b1) as [->|Hne]; simpl.
  - intros H. apply Qlt_bool_iff in H.
    destruct (Qlt_bool b2 a2) eqn:E; [|reflexivity].
    apply Qlt_bool_iff in E. exfalso. eapply Qlt_irrefl, Qlt_trans; eauto.
  - intros H. apply Z.ltb_lt in H. apply Z.ltb_ge. lia.
Qed.

Lemma not_below_ranked (x y : AIInsight) :
  PyDict.not_below tuple_lt sort_key x y -> ranked_before x y.
Proof.
  unfold PyDict.not_below, ranked_before, tuple_lt, sort_key. simpl.
  destruct (Z.eqb_spec (_severity_score (severity x))
              (_severity_score (severity y))) as [Heq|Hne]; simpl.
  - intros H. right. split; [exact Heq|].
    apply Qnot_lt_le. intros Hlt.
    assert (Qlt_bool (- confidence x) (- confidence y) = true) as E.
    { apply Qlt_bool_iff. lra. }
    congruence.
  - intros H. apply Z.ltb_ge in H. left. lia.
Qed.

(** C3, on the code.  The sort orders by severity rank downwards, but
    within one severity it puts the smaller confidence first: the key
    negates the confidence and the sort is reversed as a whole.  Two
    medium insights of confidence 0.9 and 0.7 come out as 0.7, 0.9. *)
Theorem ranking_ties_by_ascending_confidence :
  sort_insights [Samples.insight "medium" 0.9; Samples.insight "medium" 0.7]
    = [Samples.insight "medium" 0.7; Samples.insight "medium" 0.9] /\
  forall insights,
    Permutation insights (sort_insights insights) /\
    Sorted ranked_before (sort_insights insights).
Proof.
  split; [reflexivity|]. intros insights. split.
  - apply sort_reverse_perm.
  - pose proof (sort_reverse_sorted tuple_lt sort_key tuple_lt_asym insights)
      as H.
    unfold sort_insights. induction H as [|x l Hs IH Hhd]; constructor.
    + exact IH.
    + destruct Hhd; constructor. now apply not_below_ranked.
Qed.

End Ranking.

(** ** Flaky tests *)

Section Flaky.
Import Dashboard.
Local Open Scope Q_scope.

Lemma get_group_append {A} (k k' : string) (v : A) groups :
  PyDict.get (PyDict.group_append k v groups) k' [] =
  if String.eqb k k' then PyDict.get groups k' [] ++ [v]
  else PyDict.get groups k' [].
Proof.
  induction groups as [|[k0 vs] groups IH]; simpl.
  - destruct (String.eqb k k'); reflexivity.
  - destruct (String.eqb_spec k0 k) as [->|Hne]; simpl.
    + destruct (String.eqb k k'); reflexivity.
    + destruct (String.eqb_spec k0 k') as [->|Hne'].
      * destruct (String.eqb_spec k k'); [congruence | reflexivity].
      * exact IH.
Qed.

Lemma elem_of_groups {A} (groups : list (string * list A)) k vs :
  NoDup (fst <$> groups) -> Forall (fun g => snd g <> []) groups ->
  ((k, vs) ∈ groups <-> PyDict.get groups k [] = vs /\ vs <> []).
Proof.
  induction groups as [|[k0 vs0] groups IH]; intros Hnd Hne.
  - simpl. split; [intros H; inversion H | intros [<- H]; congruence].
  - rewrite fmap_cons in Hnd. apply NoDup_cons in Hnd as [Hk0 Hnd].
    apply Forall_cons_1 in Hne as [Hvs0 Hne]. simpl in Hvs0.
    rewrite elem_of_cons. simpl.
    destruct (String.eqb_spec k0 k) as [->|Hk].
    + split.
      * intros [[= ->] | Hin]; [auto|].
        exfalso. apply Hk0. apply list_elem_of_fmap. exists (k, vs). auto.
      * intros [-> _]. now left.
    + rewrite <- (IH Hnd Hne). split; [|auto].
      intros [[= -> ->] | Hin]; [congruence | exact Hin].
Qed.

Lemma record_outcomes_get (tests : list TestDetail) : forall groups k,
  PyDict.get (fold_left record_outcome tests groups) k [] =
  PyDict.get groups k [] ++
  (entry_status <$> filter (fun test => entry_name test = k) tests).
Proof.
  induction tests as [|t tests IH]; intros groups k; simpl.
  - now rewrite app_nil_r.
  - rewrite IH. unfold record_outcome.
    fold (entry_name t). fold (entry_status t). rewrite get_group_append.
    rewrite filter_cons.
    destruct (String.eqb_spec (entry_name t) k) as [Heq|Hne];
      destruct (decide (entry_name t = k)); try congruence.
    now rewrite fmap_cons, <- app_assoc.
Qed.

Lemma record_outcomes_wf (tests : list TestDetail) : forall groups,
  NoDup (fst <$> groups) /\ Forall (fun g => snd g <> []) groups ->
  NoDup (fst <$> fold_left record_outcome tests groups) /\
  Forall (fun g => snd g <> []) (fold_left record_outcome tests groups).
Proof.
  induction tests as [|t tests IH]; intros groups [Hnd Hne]; simpl; [auto|].
  apply IH. unfold record_outcome. split.
  - now apply group_append_NoDup.
  - now apply group_append_nonempty.
Qed.

Lemma fold_left_join {A B} (f : A -> B -> A) (ls : list (list B)) : forall a,
  fold_left (fun acc l => fold_left f l acc) ls a = fold_left f (mjoin ls) a.
Proof.
  induction ls as [|l ls IH]; intros a; simpl; [reflexivity|].
  now rewrite fold_left_app, IH.
Qed.

Lemma test_outcomes_entries (test_history : list TestRun) :
  test_outcomes test_history =
  fold_left record_outcome (scanned_entries test_history) [].
Proof.
  unfold test_outcomes, scanned_entries.
  rewrite <- fold_left_join.
  generalize (@nil (string * list string)).
  induction (PyDict.last_n 20 test_history) as [|run runs IH];
    intros groups; simpl; [reflexivity|].
  apply IH.
Qed.

Lemma flaky_entry_iff (k : string) (vs : list string) :
  (exists t, flaky_entry (k, vs) = Some t /\ name t = k) <-> is_flaky vs.
Proof.
  unfold flaky_entry, is_flaky.
  destruct (Nat.leb_spec 5 (length vs)) as [H5|H5].
  2: { split; [intros (t & H & _); discriminate | intros (H & _); lia]. }
  destruct (Nat.ltb_spec 0 (count "passed" vs)) as [Hp|Hp]; simpl.
  2: { split; [intros (t & H & _); discriminate | intros (_ & H & _); lia]. }
  destruct (Nat.ltb_spec 0 (count "failed" vs)) as [Hf|Hf]; simpl.
  2: { split; [intros (t & H & _); discriminate
              | intros (_ & _ & H & _); lia]. }
  destruct (Qle_bool 0.2 _) eqn:Hq.
  - apply Qle_bool_iff in Hq. split; [auto|].
    intros _. eexists. split; reflexivity.
  - split; [intros (t & H & _); discriminate|].
    intros (_ & _ & _ & H). apply Qle_bool_iff in H. congruence.
Qed.

(** C9.  A test is reported flaky exactly when its outcomes over the
    scanned window number five or more, hold a pass and a fail, and
    min(passes, failures) / total is at least 0.2.  Three passes and two
    failures are flaky (2/5); so are four passes and one failure, at
    exactly 1/5. *)
Theorem flaky_detection :
  (forall test_history test_name,
      test_name ∈ (name <$> flaky_tests test_history) <->
      is_flaky (recorded_outcomes test_name test_history)) /\
  flaky_tests
    (Samples.runs_of "test_checkout"
       ["passed"; "passed"; "failed"; "passed"; "failed"]) =
    [ {| name := "test_checkout";
         flakiness_score := 2 # 5;
         outcomes := ["passed"; "passed"; "failed"; "passed"; "failed"] |} ] /\
  flaky_tests
    (Samples.runs_of "test_checkout"
       ["passed"; "passed"; "passed"; "passed"; "failed"]) =
    [ {| name := "test_checkout";
         flakiness_score := 1 # 5;
         outcomes := ["passed"; "passed"; "passed"; "passed"; "failed"] |} ].
Proof.
  split; [|split; reflexivity].
  intros test_history test_name.
  destruct (record_outcomes_wf (scanned_entries test_history) [])
    as [Hnd Hne]; [split; constructor|].
  pose proof (record_outcomes_get (scanned_entries test_history) [] test_name)
    as Hget.
  simpl in Hget. fold (recorded_outcomes test_name test_history) in Hget.
  rewrite <- test_outcomes_entries in Hnd, Hne, Hget.
  unfold flaky_tests. rewrite list_elem_of_fmap. split.
  - intros (t & -> & Ht). apply list_elem_of_omap in Ht as ([k vs] & Hin & Hentry).
    apply (elem_of_groups _ k vs Hnd Hne) in Hin as [Hvs _].
    assert (name t = k) as Hk.
    { unfold flaky_entry in Hentry.
      repeat match type of Hentry with
             | (if ?b then _ else _) = _ => destruct b; [|discriminate]
             end.
      now injection Hentry as <-. }
    rewrite Hk in Hget |- *. rewrite <- Hget, Hvs.
    apply (flaky_entry_iff k vs). eauto.
  - intros Hflaky.
    apply (flaky_entry_iff test_name) in Hflaky as (t & Ht & Hname).
    exists t. split; [now symmetry|].
    apply list_elem_of_omap. exists (test_name, recorded_outcomes test_name test_history).
    split; [|exact Ht].
    apply (elem_of_groups _ _ _ Hnd Hne). split; [exact Hget|].
    intros Hnil. rewrite Hnil in Ht. discriminate.
Qed.

End Flaky.

(** ** Locator extraction *)

Section Locator.
Import Engine.

Lemma quote_not_css (c : ascii) : Re.is_quote c = true -> Re.css_char c = false.
Proof.
  destruct c as [[] [] [] [] [] [] [] []]; vm_compute; congruence.
Qed.

(** The group takes a whole run of characters of its class when the
    character after the run is outside the class. *)
Lemma grp_run (p : ascii -> bool) k (stop : ascii) (rest : string) g :
  p stop = false ->
  forall token acc,
    token <> "" -> PyStr.all_chars p token = true ->
    k (acc +:+ token) (String stop rest) = Some g ->
    Re.grp p k acc (token +:+ String stop rest) = Some g.
Proof.
  intros Hstop. induction token as [|c token IH]; intros acc Hne Hall Hk;
    [congruence|].
  simpl in Hall. apply andb_true_iff in Hall as [Hc Hall].
  simpl. rewrite Hc. destruct token as [|d token].
  - simpl. rewrite Hstop. exact Hk.
  - rewrite (IH (acc +:+ String c "")); [reflexivity | discriminate | exact Hall|].
    rewrite append_assoc. exact Hk.
Qed.

Lemma search_append (items : list Re.item) (pre s : string) g :
  Re.match_here items "" s = Some g ->
  exists g', Re.search items (pre +:+ s) = Some g'.
Proof.
  intros Hm. induction pre as [|c pre IH]; simpl.
  - destruct s; simpl; rewrite Hm; eauto.
  - destruct (Re.match_here items "" (String c (pre +:+ s))); eauto.
Qed.

Lemma first_match_last (ps : list (list Re.item)) (p : list Re.item)
    (text g : string) :
  Re.search p text = Some g ->
  exists g', first_match (ps ++ [p]) text = Some g'.
Proof.
  intros Hp. induction ps as [|q ps IH]; simpl.
  - rewrite Hp. eauto.
  - destruct (Re.search q text); eauto.
Qed.

(** C10.  A message that holds a quoted token made of word characters
    and the characters # . [ ] @ - : only always yields a locator, also
    without any locator, element or selector phrase; the pattern built
    from such a failure has a locator in its identity. *)
Theorem quoted_token_yields_locator
    (message pre token post : string) (open_quote close_quote : ascii)
    (Hopen : Re.is_quote open_quote = true)
    (Hclose : Re.is_quote close_quote = true)
    (Htoken : token <> "")
    (Hchars : PyStr.all_chars Re.css_char token = true)
    (Hmessage :
       message = pre +:+ String open_quote (token +:+ String close_quote post)) :
  (exists locator, _extract_element_selector message = Some locator) /\
  (forall env e r,
      res_status r = Some "failed" ->
      res_error_message r = Some message ->
      exists p e' locator,
        _extract_failure_pattern env e r = (Some p, e') /\
        element_selector p = Some locator) /\
  _extract_element_selector "expected 'foo'" = Some "foo".
Proof.
  assert (exists locator, _extract_element_selector message = Some locator)
    as [locator Hloc].
  { assert (Re.match_here css_selector_pattern ""
              (String open_quote (token +:+ String close_quote post))
            = Some token) as Hm.
    { unfold css_selector_pattern. cbn [Re.match_here]. rewrite Hopen.
      apply grp_run; auto using quote_not_css.
      cbn [Re.match_here String.append]. now rewrite Hclose. }
    destruct (search_append _ pre _ _ Hm) as [g Hg].
    rewrite <- Hmessage in Hg.
    apply (first_match_last
             [quoted_after "locator"; quoted_after "element";
              quoted_after "selector"] _ _ _ Hg). }
  split; [eauto|]. split; [|reflexivity].
  intros env e r Hstatus Hmsg.
  unfold _extract_failure_pattern. rewrite Hstatus, Hmsg. simpl.
  rewrite Hloc. eexists _, _, locator. split; reflexivity.
Qed.

Lemma quoted_token_yields_locator_witness :
  exists locator, _extract_element_selector "expected 'foo'" = Some locator.
Proof.
  apply (quoted_token_yields_locator "expected 'foo'" "expected " "foo" ""
           "'"%char "'"%char eq_refl eq_refl).
  - discriminate.
  - reflexivity.
  - reflexivity.
Defined.

End Locator.

(** ** Applying a rule to a text *)

Section Replace.

Lemma drop_append (a b : string) : PyStr.drop (String.length a) (a +:+ b) = b.
Proof. induction a as [|c a IH]; simpl; [destruct b|]; auto. Qed.

Lemma replace_from_skip (old new : string) (s : string) : forall k,
  PyStr.replace_from old new k s = PyStr.replace_from old new 0 (PyStr.drop k s).
Proof.
  induction s as [|c s IH]; intros [|k]; try reflexivity.
  simpl. apply IH.
Qed.

Lemma replace_from_absent (old new s : string) :
  PyStr.contains old s = false -> PyStr.replace_from old new 0 s = s.
Proof.
  induction s as [|c s IH]; [reflexivity|].
  cbn [PyStr.contains PyStr.replace_from]. intros H.
  apply orb_false_iff in H as [Hp Hc]. rewrite Hp, IH; auto.
Qed.

Lemma replace_from_here (c : ascii) (old new post : string) :
  PyStr.replace_from (String c old) new 0 (String c old +:+ post) =
  new +:+ PyStr.replace_from (String c old) new 0 post.
Proof.
  change (String c old +:+ post) with (String c (old +:+ post)).
  cbn [PyStr.replace_from].
  change (String c (old +:+ post)) with (String c old +:+ post).
  rewrite prefix_append.
  assert ((String.length (String c old) - 1)%nat = String.length old) as ->
    by (simpl; lia).
  now rewrite replace_from_skip, drop_append.
Qed.

Lemma replace_from_present (c : ascii) (old new s : string) :
  PyStr.contains (String c old) s = true ->
  PyStr.contains new (PyStr.replace_from (String c old) new 0 s) = true.
Proof.
  induction s as [|d s IH]; [discriminate|].
  cbn [PyStr.contains PyStr.replace_from]. intros H.
  destruct (String.prefix (String c old) (String d s)) eqn:Hp.
  - apply (contains_append new "").
  - simpl in H. apply (contains_app_r new (String d "")). auto.
Qed.

End Replace.

Section RuleApplication.
Import Engine.

Lemma apply_timing (content : string) (rule : AdaptiveRule) :
  pattern rule = "timing_issue" ->
  _apply_rule_to_content content rule =
    if negb (PyStr.contains "page.wait_for_selector" content)
       && PyStr.contains "click(" content
    then (PyStr.replace "page.click(" click_with_wait content, true)
    else (content, false).
Proof. intros H. unfold _apply_rule_to_content. now rewrite H. Qed.

Lemma apply_selector (content : string) (rule : AdaptiveRule) :
  pattern rule = "element_selector" ->
  _apply_rule_to_content content rule =
    if negb (PyStr.contains "data-testid" content)
       && PyStr.contains (String "034"%char "#") content
    then (advice +:+ nl +:+ content, true)
    else (content, false).
Proof. intros H. unfold _apply_rule_to_content. now rewrite H. Qed.

Lemma apply_network (content : string) (rule : AdaptiveRule) :
  pattern rule = "network_issue" ->
  _apply_rule_to_content content rule =
    if PyStr.contains "requests." content
       && negb (PyStr.contains "retry" (PyStr.lower content))
    then
      if negb (PyStr.contains (PyStr.strip retry_import) content)
      then (retry_import +:+ nl +:+ content, true)
      else (content, false)
    else (content, false).
Proof. intros H. unfold _apply_rule_to_content. now rewrite H. Qed.

Lemma apply_other (content : string) (rule : AdaptiveRule) :
  pattern rule <> "timing_issue" -> pattern rule <> "element_selector" ->
  pattern rule <> "network_issue" ->
  _apply_rule_to_content content rule = (content, false).
Proof.
  intros H1 H2 H3. unfold _apply_rule_to_content.
  apply String.eqb_neq in H1, H2, H3. now rewrite H1, H2, H3.
Qed.

Lemma apply_twice (content : string) (rule : AdaptiveRule) :
  fst (_apply_rule_to_content (fst (_apply_rule_to_content content rule)) rule)
  = fst (_apply_rule_to_content content rule).
Proof.
  destruct (String.eqb_spec (pattern rule) "timing_issue") as [Ht|Ht].
  { rewrite !(apply_timing _ _ Ht).
    destruct (negb (PyStr.contains "page.wait_for_selector" content)
              && PyStr.contains "click(" content) eqn:Hg;
      [|cbn [fst]; now rewrite Hg].
    cbn [fst]. unfold PyStr.replace.
    destruct (PyStr.contains "page.click(" content) eqn:Hc.
    - apply (replace_from_present _ _ click_with_wait) in Hc.
      assert (PyStr.contains "page.wait_for_selector"
                (PyStr.replace_from "page.click(" click_with_wait 0 content)
              = true) as ->; [|reflexivity].
      eapply contains_trans; [|exact Hc]. reflexivity.
    - rewrite (replace_from_absent _ _ _ Hc), Hg.
      cbn [fst]. now rewrite (replace_from_absent _ _ _ Hc). }
  destruct (String.eqb_spec (pattern rule) "element_selector") as [Hs|Hs].
  { rewrite !(apply_selector _ _ Hs).
    destruct (negb (PyStr.contains "data-testid" content)
              && PyStr.contains (String "034"%char "#") content) eqn:Hg;
      [|cbn [fst]; now rewrite Hg].
    cbn [fst].
    assert (PyStr.contains "data-testid" (advice +:+ nl +:+ content) = true)
      as ->; [|reflexivity].
    apply contains_app_l. reflexivity. }
  destruct (String.eqb_spec (pattern rule) "network_issue") as [Hn|Hn].
  { rewrite !(apply_network _ _ Hn).
    destruct (PyStr.contains "requests." content
              && negb (PyStr.contains "retry" (PyStr.lower content))) eqn:Hg;
      [|cbn [fst]; now rewrite Hg].
    destruct (negb (PyStr.contains (PyStr.strip retry_import) content)) eqn:Hi;
      [|cbn [fst]; now rewrite Hg, Hi].
    cbn [fst].
    assert (PyStr.contains "retry"
              (PyStr.lower (retry_import +:+ nl +:+ content)) = true) as ->.
    { rewrite lower_append. apply contains_app_l. reflexivity. }
    now rewrite andb_false_r. }
  now rewrite !apply_other.
Qed.

(** C7.  A rule applied to a text that already holds the marker of its
    kind returns the text as it is and reports that nothing was applied;
    and the text a rule produces is left alone by a second application
    of the rule. *)
Theorem rule_application_idempotent (rule : AdaptiveRule) (content : string) :
  (idempotence_marker (pattern rule) content = true ->
   _apply_rule_to_content content rule = (content, false)) /\
  fst (_apply_rule_to_content (fst (_apply_rule_to_content content rule)) rule)
  = fst (_apply_rule_to_content content rule).
Proof.
  split; [|apply apply_twice].
  unfold idempotence_marker.
  destruct (String.eqb_spec (pattern rule) "timing_issue") as [Ht|Ht].
  { intros H. now rewrite (apply_timing _ _ Ht), H. }
  destruct (String.eqb_spec (pattern rule) "element_selector") as [Hs|Hs].
  { intros H. now rewrite (apply_selector _ _ Hs), H. }
  destruct (String.eqb_spec (pattern rule) "network_issue") as [Hn|Hn].
  { intros H. now rewrite (apply_network _ _ Hn), H, andb_false_r. }
  discriminate.
Qed.

Lemma rule_application_idempotent_witness :
  _apply_rule_to_content
    "page.wait_for_selector('#buy'); page.click('#buy')"
    (Samples.rule_of_kind "timing_issue")
  = ("page.wait_for_selector('#buy'); page.click('#buy')", false).
Proof.
  apply (rule_application_idempotent (Samples.rule_of_kind "timing_issue")).
  reflexivity.
Defined.

End RuleApplication.

(** ** The timing rule on a text with one click *)

Section Occurrences.

Lemma length_drop_le (m : nat) (s : string) :
  (String.length (PyStr.drop m s) <= String.length s)%nat.
Proof.
  revert s. induction m as [|m IH]; intros [|c s]; simpl; auto.
Qed.

Lemma append_drop (v u : string) : PyStr.drop (String.length v) (v +:+ u) = u.
Proof. apply drop_append. Qed.

Lemma prefix_shorter (a b z : string) :
  String.prefix a (b +:+ z) = true ->
  (String.length a <= String.length b)%nat ->
  String.prefix a b = true.
Proof.
  revert b. induction a as [|c a IH]; intros b Hp Hlen.
  - now destruct b.
  - destruct b as [|d b]; simpl in Hlen; [lia|].
    simpl in Hp |- *. destruct (Ascii.ascii_dec c d); [|discriminate].
    apply IH; [exact Hp | lia].
Qed.

(** A needle at the start of [u +:+ x] lies within [u], or begins with
    the whole of [u] and goes on into [x]. *)
Lemma prefix_split (needle u x : string) :
  String.prefix needle (u +:+ x) = true ->
  String.prefix needle u = true \/
  ((String.length u < String.length needle)%nat /\
   String.prefix u needle = true /\
   String.prefix (PyStr.drop (String.length u) needle) x = true).
Proof.
  revert needle. induction u as [|d u IH]; intros needle Hp.
  - destruct needle as [|c needle]; [left; reflexivity|].
    right. simpl. split; [lia|]. split; [reflexivity | exact Hp].
  - destruct needle as [|c needle]; [left; reflexivity|].
    simpl in Hp |- *. destruct (Ascii.ascii_dec c d) as [->|]; [|discriminate].
    destruct (IH needle Hp) as [H | (H1 & H2 & H3)]; [left; exact H|].
    right. destruct (Ascii.ascii_dec d d); [|congruence].
    split; [lia | auto].
Qed.

Lemma find_from_absent (needle s : string) (i : nat) :
  PyStr.contains needle s = false -> PyStr.find_from i needle s = [].
Proof.
  revert i. induction s as [|c s IH]; intros i;
    cbn [PyStr.contains PyStr.find_from]; intros H;
    apply orb_false_iff in H as [Hp Hc]; rewrite Hp; [reflexivity|].
  now rewrite IH.
Qed.

Lemma find_from_none (needle s : string) (i : nat) :
  PyStr.find_from i needle s = [] -> PyStr.contains needle s = false.
Proof.
  revert i. induction s as [|c s IH]; intros i;
    cbn [PyStr.contains PyStr.find_from];
    destruct (String.prefix needle _); try discriminate; simpl; auto.
  apply IH.
Qed.

(** No occurrence starts in [pre]: the search goes on behind it. *)
Lemma find_from_skip (needle x pre : string) : forall i,
  (forall v u, pre = v +:+ u -> u <> "" ->
               String.prefix needle (u +:+ x) = false) ->
  PyStr.find_from i needle (pre +:+ x) =
  PyStr.find_from (i + String.length pre) needle x.
Proof.
  induction pre as [|c pre IH]; intros i Hno.
  - simpl. now rewrite Nat.add_0_r.
  - change (String c pre +:+ x) with (String c (pre +:+ x)).
    cbn [PyStr.find_from].
    change (String c (pre +:+ x)) with (String c pre +:+ x).
    rewrite (Hno "" (String c pre) eq_refl) by discriminate.
    simpl. rewrite IH; [f_equal; lia|].
    intros v u -> Hu. apply (Hno (String c v) u); [reflexivity | exact Hu].
Qed.

(** The only occurrence is the one behind [pre]. *)
Lemma find_from_single (needle x pre : string) : forall i,
  PyStr.find_from i needle (pre +:+ x) = [(i + String.length pre)%nat] ->
  (forall v u, pre = v +:+ u -> u <> "" ->
               String.prefix needle (u +:+ x) = false) /\
  PyStr.find_from (i + String.length pre) needle x
    = [(i + String.length pre)%nat].
Proof.
  induction pre as [|c pre IH]; intros i H.
  - simpl in *. rewrite Nat.add_0_r in *. split; [|exact H].
    intros v u Hv Hu. destruct v; [simpl in Hv; congruence | discriminate].
  - change (String c pre +:+ x) with (String c (pre +:+ x)) in H.
    cbn [PyStr.find_from] in H.
    change (String c (pre +:+ x)) with (String c pre +:+ x) in H.
    destruct (String.prefix needle (String c pre +:+ x)) eqn:Hp.
    + simpl in H. injection H as H _. lia.
    + simpl in H.
      replace (i + S (String.length pre))%nat
        with (S i + String.length pre)%nat in H by lia.
      destruct (IH (S i) H) as [Hno Hx]. split.
      * intros v u Hv Hu. destruct v as [|d v].
        -- simpl in Hv. subst u. exact Hp.
        -- simpl in Hv. injection Hv as -> ->. now apply (Hno v u).
      * simpl. replace (i + S (String.length pre))%nat
          with (S i + String.length pre)%nat by lia. exact Hx.
Qed.

Lemma replace_from_before (old new x pre : string) :
  (forall v u, pre = v +:+ u -> u <> "" ->
               String.prefix old (u +:+ x) = false) ->
  PyStr.replace_from old new 0 (pre +:+ x) =
  pre +:+ PyStr.replace_from old new 0 x.
Proof.
  induction pre as [|c pre IH]; intros Hno; [reflexivity|].
  change (String c pre +:+ x) with (String c (pre +:+ x)).
  cbn [PyStr.replace_from].
  change (String c (pre +:+ x)) with (String c pre +:+ x).
  rewrite (Hno "" (String c pre) eq_refl) by discriminate.
  rewrite IH; [reflexivity|].
  intros v u -> Hu. apply (Hno (String c v) u); [reflexivity | exact Hu].
Qed.

Lemma contains_suffix (needle pre s : string) :
  PyStr.contains needle (pre +:+ s) = false -> PyStr.contains needle s = false.
Proof.
  intros H. destruct (PyStr.contains needle s) eqn:E; [|reflexivity].
  now rewrite (contains_app_r needle pre s E) in H.
Qed.

(** The non-empty suffixes of a text are what [drop] leaves of it. *)
Lemma suffix_is_drop (t v u : string) :
  t = v +:+ u -> u <> "" ->
  u = PyStr.drop (String.length v) t /\
  (String.length v < String.length t)%nat.
Proof.
  intros -> Hu. rewrite append_drop, length_append. split; [reflexivity|].
  destruct u; [congruence | simpl; lia].
Qed.

End Occurrences.

Section TimingRule.
Import Engine.

(** No end of the construct is also a start of the inserted text, so
    an occurrence cannot begin before the insertion and end in it. *)
Lemma construct_no_overlap (m : nat) :
  (1 <= m < String.length wait_construct)%nat ->
  String.prefix (PyStr.drop m wait_construct) click_with_wait = false.
Proof.
  intros Hm.
  assert (forallb
            (fun m => negb (String.prefix (PyStr.drop m wait_construct)
                                          click_with_wait))
            (seq 1 (String.length wait_construct - 1)) = true) as H
    by (vm_compute; reflexivity).
  rewrite forallb_forall in H. apply negb_true_iff, H.
  apply in_seq. lia.
Qed.

(** The construct does not begin anywhere in that tail. *)
Lemma tail_no_start (m : nat) :
  (m < String.length inserted_tail)%nat ->
  String.prefix wait_construct (PyStr.drop m inserted_tail) = false /\
  String.prefix (PyStr.drop m inserted_tail) wait_construct = false.
Proof.
  intros Hm.
  assert (forallb
            (fun m =>
               negb (String.prefix wait_construct (PyStr.drop m inserted_tail))
               && negb (String.prefix (PyStr.drop m inserted_tail)
                                      wait_construct))
            (seq 0 (String.length inserted_tail)) = true) as H
    by (vm_compute; reflexivity).
  rewrite forallb_forall in H.
  assert (In m (seq 0 (String.length inserted_tail))) as Hin
    by (apply in_seq; lia).
  apply H, andb_true_iff in Hin as [H1 H2].
  now apply negb_true_iff in H1, H2.
Qed.

Lemma find_from_cons (i : nat) (needle : string) (c : ascii) (s : string) :
  PyStr.find_from i needle (String c s) =
  (if String.prefix needle (String c s) then [i] else []) ++
  PyStr.find_from (S i) needle s.
Proof. reflexivity. Qed.

Lemma insertion_unfolded (post : string) :
  click_with_wait +:+ post = String "p"%char (inserted_tail +:+ post).
Proof. reflexivity. Qed.

Lemma insertion_starts_with_construct (post : string) :
  String.prefix wait_construct (click_with_wait +:+ post) = true.
Proof.
  change click_with_wait
    with (wait_construct +:+
          "(selector, timeout=30000)" +:+ nl +:+ "        page.click(").
  rewrite append_assoc. apply prefix_append.
Qed.

Lemma wait_only_at_insertion (pre post : string) :
  PyStr.contains wait_construct (pre +:+ "page.click(" +:+ post) = false ->
  PyStr.find_all wait_construct (pre +:+ click_with_wait +:+ post)
    = [String.length pre].
Proof.
  intros Hnowait. unfold PyStr.find_all.
  assert (PyStr.contains wait_construct post = false) as Hpost.
  { eapply contains_suffix, contains_suffix, Hnowait. }
  rewrite find_from_skip.
  - rewrite insertion_unfolded, find_from_cons, <- insertion_unfolded.
    rewrite insertion_starts_with_construct. cbn [app Nat.add]. f_equal.
    rewrite find_from_skip; [now apply find_from_absent|].
    intros v u Hv Hu.
    destruct (String.prefix wait_construct (u +:+ post)) eqn:Hp;
      [|reflexivity].
    destruct (suffix_is_drop _ _ _ Hv Hu) as [Hdrop Hm].
    destruct (tail_no_start _ Hm) as [H1 H2]. rewrite <- Hdrop in H1, H2.
    apply prefix_split in Hp as [Hp | (_ & Hp & _)]; congruence.
  - intros v u -> Hu.
    destruct (String.prefix wait_construct
                (u +:+ click_with_wait +:+ post)) eqn:Hp; [|reflexivity].
    apply prefix_split in Hp as [Hp | (Hlen & _ & Hp)].
    + apply prefix_iff in Hp as [t ->].
      rewrite (proj2 (contains_iff wait_construct _)) in Hnowait;
        [discriminate|].
      exists v, (t +:+ "page.click(" +:+ post). now rewrite !append_assoc.
    + apply prefix_shorter in Hp.
      * rewrite construct_no_overlap in Hp; [discriminate|].
        split; [|exact Hlen]. destruct u; [congruence | simpl; lia].
      * pose proof (length_drop_le (String.length u) wait_construct) as Hd.
        change (String.length wait_construct) with 22%nat in Hd.
        change (String.length click_with_wait) with 67%nat. lia.
Qed.

Lemma click_in_content (pre post : string) :
  PyStr.contains "click(" (pre +:+ "page.click(" +:+ post) = true.
Proof.
  apply contains_iff. exists (pre +:+ "page."), post.
  now rewrite append_assoc.
Qed.

(** C8, as the code has it.  On a text with exactly one [page.click(]
    and no [page.wait_for_selector], the timing rule reports that it was
    applied and returns the text with the wait statement, a line break
    and the indentation put directly in front of that [page.click(];
    the wait construct then occurs at that place and nowhere else. *)
Theorem timing_rule_injects_wait (rule : AdaptiveRule) (pre post : string)
    (Hkind : pattern rule = "timing_issue")
    (Honce : PyStr.find_all "page.click(" (pre +:+ "page.click(" +:+ post)
             = [String.length pre])
    (Hnowait : PyStr.contains "page.wait_for_selector"
                 (pre +:+ "page.click(" +:+ post) = false) :
  _apply_rule_to_content (pre +:+ "page.click(" +:+ post) rule =
    (pre +:+ wait_statement +:+ nl +:+ "        page.click(" +:+ post, true) /\
  PyStr.find_all "page.wait_for_selector"
    (pre +:+ wait_statement +:+ nl +:+ "        page.click(" +:+ post)
    = [String.length pre].
Proof.
  assert (pre +:+ wait_statement +:+ nl +:+ "        page.click(" +:+ post
          = pre +:+ click_with_wait +:+ post) as E.
  { unfold click_with_wait. now rewrite !append_assoc. }
  rewrite E. split; [|now apply wait_only_at_insertion].
  rewrite (apply_timing _ _ Hkind), Hnowait, click_in_content.
  cbn [negb andb PyStr.replace]. f_equal. unfold PyStr.find_all in Honce.
  apply (find_from_single "page.click(" _ pre 0) in Honce as [Hbefore Hhere].
  rewrite (replace_from_before _ _ _ _ Hbefore). f_equal.
  rewrite (replace_from_here "p" "age.click("). f_equal.
  apply replace_from_absent.
  assert (String.prefix "page.click(" ("page.click(" +:+ post) = true) as Hp
    by apply prefix_append.
  change ("page.click(" +:+ post)
    with (String "p"%char ("age.click(" +:+ post)) in Hhere, Hp.
  rewrite find_from_cons, Hp in Hhere. cbn [app] in Hhere.
  injection Hhere as Hhere. apply find_from_none in Hhere.
  exact Hhere.
Qed.

Lemma timing_rule_injects_wait_witness :
  _apply_rule_to_content "    page.click('#buy')"
    (Samples.rule_of_kind "timing_issue") =
    ("    " +:+ wait_statement +:+ nl +:+ "        page.click(" +:+ "'#buy')",
     true).
Proof.
  apply (timing_rule_injects_wait (Samples.rule_of_kind "timing_issue")
           "    " "'#buy')"); reflexivity.
Defined.

(** The transform as the specification states it does not hold when the
    one click is not a call on [page]: the rule is reported as applied,
    but no wait is put in. *)
Lemma click_elsewhere_gets_no_wait :
  PyStr.find_all "click(" "button.click()" = [7%nat] /\
  PyStr.contains "page.wait_for_selector" "button.click()" = false /\
  _apply_rule_to_content "button.click()" (Samples.rule_of_kind "timing_issue")
    = ("button.click()", true) /\
  PyStr.find_all "page.wait_for_selector"
    (fst (_apply_rule_to_content "button.click()"
            (Samples.rule_of_kind "timing_issue"))) = [].
Proof. repeat split; reflexivity. Qed.

End TimingRule.


(** ** More on the pattern store *)

Section StoreCounts.
Import Engine.
Implicit Types (env : Env) (e : AdaptiveTestingEngine) (r : TestResult).

Lemma total_frequency_app (l k : list TestFailurePattern) :
  total_frequency (l ++ k) = (total_frequency l + total_frequency k)%Z.
Proof.
  induction l as [|p l IH]; simpl; [reflexivity|].
  unfold total_frequency in *. simpl. rewrite IH. lia.
Qed.

Lemma total_frequency_seen_again (l : list TestFailurePattern) : forall i p t,
  l !! i = Some p ->
  total_frequency (<[i := seen_again t p]> l) = (total_frequency l + 1)%Z.
Proof.
  induction l as [|q l IH]; intros [|i] p t H; try discriminate.
  - injection H as ->. unfold total_frequency. simpl. lia.
  - simpl in H. specialize (IH i p t H).
    unfold total_frequency in *. simpl. rewrite IH. lia.
Qed.

Lemma identity_of_failed r :
  res_status r = Some "failed" -> exists k, identity_of r = Some k.
Proof.
  intros H. unfold identity_of. rewrite H. eauto.
Qed.

Lemma identity_of_other r :
  res_status r <> Some "failed" -> identity_of r = None.
Proof.
  intros H. unfold identity_of.
  destruct (bool_decide_reflect (res_status r = Some "failed")); congruence.
Qed.

Lemma record_counts_one env e r :
  total_frequency (failure_patterns (record_test_failure env e r)) =
  (total_frequency (failure_patterns e)
   + if decide (res_status r = Some "failed") then 1 else 0)%Z.
Proof.
  destruct (decide (res_status r = Some "failed")) as [Hf|Hf].
  - destruct (identity_of_failed r Hf) as [k Hk].
    destruct (record_recorded env e r k Hk)
      as [(i & ex & t & Hi & _ & Heq) | (_ & p & _ & Hfreq & Heq)];
      rewrite Heq.
    + now apply total_frequency_seen_again.
    + rewrite total_frequency_app. unfold total_frequency at 2. simpl. lia.
  - rewrite record_skipped by now apply identity_of_other. lia.
Qed.

(** X1.  Every recorded failure is counted exactly once: the frequencies
    of the store add up to what they were plus the number of results of
    status failed, whatever the other results are; from the empty engine
    the sum is the number of failed results. *)
Theorem recorded_failures_are_counted env :
  (forall rs e,
      total_frequency (failure_patterns (record_all env e rs)) =
      (total_frequency (failure_patterns e) + Z.of_nat (Notions.failures rs))%Z) /\
  (forall rs,
      total_frequency (failure_patterns (record_all env init rs)) =
      Z.of_nat (Notions.failures rs)).
Proof.
  assert (forall rs e,
             total_frequency (failure_patterns (record_all env e rs)) =
             (total_frequency (failure_patterns e)
              + Z.of_nat (Notions.failures rs))%Z) as H.
  { induction rs as [|r rs IH]; intros e.
    - unfold Notions.failures. simpl. lia.
    - change (record_all env e (r :: rs))
        with (record_all env (record_test_failure env e r) rs).
      rewrite IH, record_counts_one.
      unfold Notions.failures. rewrite filter_cons.
      destruct (decide (res_status r = Some "failed")); simpl; lia. }
  split; [exact H|]. intros rs. rewrite H. reflexivity.
Qed.

(** X2.  The store only grows: a recording leaves every stored pattern
    at its place with its name, kind, locator, error message and
    context, and with its frequency as it was or one higher; the store
    gets at most one pattern longer. *)
Theorem stored_patterns_persist env e r (i : nat) (p : TestFailurePattern)
    (Hstored : failure_patterns e !! i = Some p) :
  (exists p',
      failure_patterns (record_test_failure env e r) !! i = Some p' /\
      identity p' = identity p /\
      error_message p' = error_message p /\
      context p' = context p /\
      (frequency p <= frequency p' <= frequency p + 1)%Z) /\
  (length (failure_patterns e)
   <= length (failure_patterns (record_test_failure env e r))
   <= S (length (failure_patterns e)))%nat.
Proof.
  destruct (identity_of r) as [k|] eqn:Hk.
  - destruct (record_recorded env e r k Hk)
      as [(j & ex & t & Hj & _ & Heq) | (_ & q & _ & _ & Heq)];
      rewrite Heq.
    + split; [|rewrite length_insert; lia].
      destruct (decide (j = i)) as [->|Hne].
      * rewrite Hstored in Hj. injection Hj as <-.
        exists (seen_again t p). rewrite list_lookup_insert_eq.
        -- repeat split; simpl; lia.
        -- now apply lookup_lt_Some in Hstored.
      * exists p. rewrite list_lookup_insert_ne by exact Hne.
        repeat split; auto; lia.
    + split; [|rewrite length_app; simpl; lia].
      exists p. rewrite lookup_app_l by now apply lookup_lt_Some in Hstored.
      repeat split; auto; lia.
  - rewrite record_skipped by exact Hk. split; [|lia].
    exists p. repeat split; auto; lia.
Qed.

Lemma stored_patterns_persist_witness :
  exists p',
    failure_patterns
      (record_test_failure Samples.sample_env Samples.sample_store
         Samples.search_timeout) !! 0%nat = Some p' /\
    (12 <= frequency p' <= 13)%Z.
Proof.
  destruct (stored_patterns_persist Samples.sample_env Samples.sample_store
              Samples.search_timeout 0 Samples.frequent_pattern eq_refl)
    as [(p' & Hp & _ & _ & _ & Hf) _].
  exists p'. split; [exact Hp | exact Hf].
Defined.

End StoreCounts.


(** ** More on rule synthesis *)

Section SynthesisShape.
Import Engine.
Implicit Types (env : Env) (e : AdaptiveTestingEngine).
Local Open Scope Q_scope.

Lemma create_rule_shape env e kind ps avg :
  avg_frequency ps = Ok avg ->
  exists rule e',
    _create_rule_for_pattern_group env e kind ps = (Ok rule, e') /\
    Notions.kind_and_confidence rule = (kind, py_min (avg / 10) 1.0) /\
    success_rate rule = 0.0 /\
    adaptive_rules e' = adaptive_rules e /\
    failure_patterns e' = failure_patterns e /\
    confidence_threshold e' = confidence_threshold e /\
    min_pattern_frequency e' = min_pattern_frequency e.
Proof.
  intros Havg. unfold _create_rule_for_pattern_group. rewrite Havg.
  simpl. eexists _, _. split; [reflexivity|]. simpl. repeat split.
Qed.

Lemma create_rules_shape env groups :
  Forall (fun g => snd g <> []) groups ->
  forall new_rules e,
  exists more e',
    create_rules env groups new_rules e = (Ok (new_rules ++ more), e') /\
    adaptive_rules e' = adaptive_rules e ++ more /\
    failure_patterns e' = failure_patterns e /\
    confidence_threshold e' = confidence_threshold e /\
    min_pattern_frequency e' = min_pattern_frequency e /\
    Notions.kind_and_confidence <$> more =
      omap (Notions.passing_group (confidence_threshold e)) groups /\
    Forall (fun rule => success_rate rule = 0.0) more.
Proof.
  induction 1 as [|[kind ps] groups Hne _ IH]; intros new_rules e.
  - exists [], e. simpl. rewrite !app_nil_r. repeat split. constructor.
  - simpl in Hne. destruct (avg_frequency_nonempty ps Hne) as [avg Havg].
    destruct (create_rule_shape env e kind ps avg Havg)
      as (rule & e1 & Hrule & Hkc & Hsr & Hrules & Hpats & Hthr & Hmin).
    cbn [create_rules omap list_omap]. rewrite Hrule.
    unfold Notions.passing_group at 1. cbn [fst snd]. rewrite Havg.
    assert (confidence rule = py_min (avg / 10) 1.0) as Hconf
      by (unfold Notions.kind_and_confidence in Hkc; congruence).
    rewrite Hthr, Hconf.
    destruct (Qle_bool (confidence_threshold e) (py_min (avg / 10) 1.0)).
    + destruct (IH (new_rules ++ [rule])
                   (with_rules (adaptive_rules e1 ++ [rule]) e1))
        as (more & e' & Hrun & Hr' & Hp' & Ht' & Hm' & Hkinds & Hsrs).
      cbn [adaptive_rules failure_patterns confidence_threshold
           min_pattern_frequency with_rules] in Hr', Hp', Ht', Hm', Hkinds.
      exists (rule :: more), e'.
      rewrite Hrun, <- app_assoc. split; [reflexivity|].
      rewrite Hr', Hrules, <- app_assoc. split; [reflexivity|].
      split; [congruence|]. split; [congruence|]. split; [congruence|].
      split; [|constructor; assumption].
      rewrite fmap_cons, Hkinds, Hthr, Hkc. reflexivity.
    + destruct (IH new_rules e1)
        as (more & e' & Hrun & Hr' & Hp' & Ht' & Hm' & Hkinds & Hsrs).
      exists more, e'. rewrite Hrun. split; [reflexivity|].
      split; [congruence|]. split; [congruence|]. split; [congruence|].
      split; [congruence|]. split; [|assumption].
      rewrite Hthr in Hkinds. exact Hkinds.
Qed.

Lemma analyze_shape env e :
  exists new_rules e',
    analyze_patterns_and_create_rules env e = (Ok new_rules, e') /\
    adaptive_rules e' = adaptive_rules e ++ new_rules /\
    failure_patterns e' = failure_patterns e /\
    confidence_threshold e' = confidence_threshold e /\
    min_pattern_frequency e' = min_pattern_frequency e /\
    Notions.kind_and_confidence <$> new_rules =
      omap (Notions.passing_group (confidence_threshold e)) (pattern_groups e) /\
    Forall (fun rule => success_rate rule = 0.0) new_rules.
Proof.
  destruct (pattern_groups_wf e) as [_ Hne].
  destruct (create_rules_shape env (pattern_groups e) Hne [] e)
    as (more & e' & H). exists more, e'. exact H.
Qed.


Lemma pattern_groups_same e1 e2 :
  failure_patterns e1 = failure_patterns e2 ->
  min_pattern_frequency e1 = min_pattern_frequency e2 ->
  pattern_groups e1 = pattern_groups e2.
Proof. unfold pattern_groups. intros -> ->. reflexivity. Qed.


(** X4.  The synthesis does not look at the rules it made before: run
    twice in a row it returns rules of the same kinds and confidences
    again, and the rule list ends with both batches. *)
Theorem synthesis_repeats_itself env e :
  exists first e1 second e2,
    analyze_patterns_and_create_rules env e = (Ok first, e1) /\
    analyze_patterns_and_create_rules env e1 = (Ok second, e2) /\
    Notions.kind_and_confidence <$> second
      = Notions.kind_and_confidence <$> first /\
    adaptive_rules e2 = adaptive_rules e ++ first ++ second.
Proof.
  destruct (analyze_shape env e)
    as (first & e1 & Hrun1 & Hr1 & Hp1 & Ht1 & Hm1 & Hk1 & _).
  destruct (analyze_shape env e1)
    as (second & e2 & Hrun2 & Hr2 & _ & _ & _ & Hk2 & _).
  exists first, e1, second, e2. split; [exact Hrun1|]. split; [exact Hrun2|].
  split.
  - rewrite Hk1, Hk2, Ht1. f_equal. now apply pattern_groups_same.
  - rewrite Hr2, Hr1. now rewrite app_assoc.
Qed.

End SynthesisShape.


Section SynthesisThreshold.
Import Engine.
Implicit Types (env : Env) (e : AdaptiveTestingEngine).
Local Open Scope Q_scope.

Lemma Q_of_nat_pos (n : nat) : (0 < n)%nat -> 0 < Q_of_nat n.
Proof.
  intros H. unfold Q_of_nat, Qlt. simpl. lia.
Qed.





Lemma fold_left_filter {A B} (keep : B -> bool) (f : A -> B -> A)
    (l : list B) : forall a,
  fold_left (fun acc x => if keep x then f acc x else acc) l a =
  fold_left f (filter (fun x => keep x = true) l) a.
Proof.
  induction l as [|x l IH]; intros a; simpl; [reflexivity|].
  rewrite filter_cons. destruct (keep x) eqn:E; simpl.
  - destruct (decide (true = true)); [|congruence]. simpl. apply IH.
  - destruct (decide (false = true)); [discriminate|]. apply IH.
Qed.

Lemma pattern_groups_frequent e :
  pattern_groups e = pattern_groups (with_patterns (Notions.frequent e) e).
Proof.
  unfold pattern_groups, Notions.frequent.
  cbn [failure_patterns min_pattern_frequency with_patterns].
  rewrite !(fold_left_filter
              (fun p => (min_pattern_frequency e <=? frequency p)%Z)
              (fun groups p => PyDict.group_append (failure_type p) p groups)).
  f_equal. rewrite list_filter_filter. apply list_filter_iff.
  intros p. rewrite Z.leb_le. tauto.
Qed.

Lemma create_rule_patterns env e kind group ps :
  _create_rule_for_pattern_group env (with_patterns ps e) kind group =
  (fst (_create_rule_for_pattern_group env e kind group),
   with_patterns ps (snd (_create_rule_for_pattern_group env e kind group))).
Proof.
  unfold _create_rule_for_pattern_group.
  destruct (avg_frequency group); reflexivity.
Qed.

Lemma create_rules_patterns env groups ps : forall new_rules e,
  create_rules env groups new_rules (with_patterns ps e) =
  (fst (create_rules env groups new_rules e),
   with_patterns ps (snd (create_rules env groups new_rules e))).
Proof.
  induction groups as [|[kind group] groups IH]; intros new_rules e;
    [reflexivity|].
  cbn [create_rules]. rewrite create_rule_patterns.
  destruct (_create_rule_for_pattern_group env e kind group) as [[rule|x] e1];
    cbn [fst snd]; [|reflexivity].
  change (confidence_threshold (with_patterns ps e1))
    with (confidence_threshold e1).
  destruct (Qle_bool (confidence_threshold e1) (confidence rule)).
  - change (with_rules (adaptive_rules (with_patterns ps e1) ++ [rule])
                       (with_patterns ps e1))
      with (with_patterns ps (with_rules (adaptive_rules e1 ++ [rule]) e1)).
    apply IH.
  - apply IH.
Qed.

(** X6.  Patterns seen fewer times than the minimum frequency have no
    influence on the synthesis: it returns the same rules when they are
    taken out of the store. *)
Theorem rare_patterns_are_ignored env e :
  fst (analyze_patterns_and_create_rules env e) =
  fst (analyze_patterns_and_create_rules env
         (with_patterns (Notions.frequent e) e)).
Proof.
  unfold analyze_patterns_and_create_rules.
  rewrite <- pattern_groups_frequent, create_rules_patterns. reflexivity.
Qed.

End SynthesisThreshold.


(** ** Applying the rules to a file *)

Section ApplyToFile.
Import Engine Applicator.
Implicit Types (env : Env) (e : AdaptiveTestingEngine) (files : gmap string string).
Local Open Scope Q_scope.

Lemma apply_rules_spec env thr rules : forall content reads,
  exists rules' final improvements reads',
    apply_rules env thr rules content reads
      = (rules', final, improvements, reads') /\
    Forall2 touched rules rules' /\
    (improvements = [] -> rules' = rules /\ final = content /\ reads' = reads) /\
    Forall (fun i => exists rule,
                rule ∈ rules /\ thr <= confidence rule /\
                i = improvement_of rule) improvements /\
    Forall2 (fun rule rule' => ~ thr <= confidence rule -> rule' = rule)
            rules rules'.
Proof.
  induction rules as [|rule rules IH]; intros content reads.
  - eexists _, _, _, _. split; [reflexivity|]. repeat split; constructor.
  - cbn [apply_rules].
    destruct (Qle_bool thr (confidence rule)) eqn:Hq.
    + apply Qle_bool_iff in Hq.
      destruct (_apply_rule_to_content content rule) as [modified applied].
      destruct applied.
      * destruct (IH modified (S reads))
          as (rules' & final & imps & reads' & Hrun & Ht & _ & Hi & Hb).
        rewrite Hrun. eexists _, _, _, _. split; [reflexivity|].
        split; [constructor; [right; eauto | exact Ht]|].
        split; [discriminate|]. split.
        -- constructor; [exists rule; split; [left | auto]|].
           eapply Forall_impl; [exact Hi|].
           intros i (r & Hr & H). exists r. split; [now right | exact H].
        -- constructor; [tauto | exact Hb].
      * destruct (IH content reads)
          as (rules' & final & imps & reads' & Hrun & Ht & Hnone & Hi & Hb).
        rewrite Hrun. eexists _, _, _, _. split; [reflexivity|].
        split; [constructor; [now left | exact Ht]|]. split.
        -- intros H. destruct (Hnone H) as (-> & -> & ->). auto.
        -- split; [|constructor; auto].
           eapply Forall_impl; [exact Hi|].
           intros i (r & Hr & H). exists r. split; [now right | exact H].
    + destruct (IH content reads)
        as (rules' & final & imps & reads' & Hrun & Ht & Hnone & Hi & Hb).
      rewrite Hrun. eexists _, _, _, _. split; [reflexivity|].
      split; [constructor; [now left | exact Ht]|]. split.
      * intros H. destruct (Hnone H) as (-> & -> & ->). auto.
      * split; [|constructor; auto].
        eapply Forall_impl; [exact Hi|].
        intros i (r & Hr & H). exists r. split; [now right | exact H].
Qed.

(** X7.  When the file cannot be read, and also when it is read and no
    rule applies, [apply_adaptive_improvements] writes nothing: the
    files and the whole engine are as before, no improvement and no
    backup is reported. *)
Theorem no_improvement_no_write env backup_of files e path report files' e'
    (Hrun : apply_adaptive_improvements env backup_of files e path
            = (report, files', e'))
    (Hnone : files !! path = None \/ improvements_applied report = []) :
  files' = files /\ e' = e /\
  improvements_applied report = [] /\ backup_created report = None.
Proof.
  unfold apply_adaptive_improvements in Hrun.
  destruct (files !! path) as [original|].
  - destruct Hnone as [Hnone|Hnone]; [discriminate|].
    destruct (apply_rules_spec env (confidence_threshold e) (adaptive_rules e)
                original (clock_reads e))
      as (rules' & final & imps & reads' & Hloop & _ & Hsame & _).
    rewrite Hloop in Hrun. destruct imps as [|i imps].
    + injection Hrun as <- <- <-. destruct (Hsame eq_refl) as (-> & _ & ->).
      destruct e; repeat split.
    + injection Hrun as <- _ _. discriminate.
  - injection Hrun as <- <- <-. repeat split.
Qed.

Lemma no_improvement_no_write_witness :
  snd (fst (apply_adaptive_improvements Samples.sample_env
              (fun p => p +:+ ".backup") ∅ Samples.sample_store "test_cart.py"))
  = ∅.
Proof.
  refine (proj1 (no_improvement_no_write Samples.sample_env
                   (fun p => p +:+ ".backup") ∅ Samples.sample_store
                   "test_cart.py" _ _ _ eq_refl (or_introl eq_refl))).
Defined.

(** X8.  When a rule applies, the text of the file as it was read is put
    under the backup path and the changed text under the path of the
    file; no other file is touched, and the backup path is reported. *)
Theorem improvement_keeps_backup env backup_of files e path original
    report files' e'
    (Hread : files !! path = Some original)
    (Hrun : apply_adaptive_improvements env backup_of files e path
            = (report, files', e'))
    (Hsome : improvements_applied report <> []) :
  backup_created report = Some (backup_of path) /\
  (exists changed, files' !! path = Some changed) /\
  (backup_of path <> path -> files' !! backup_of path = Some original) /\
  (forall other, other <> path -> other <> backup_of path ->
                 files' !! other = files !! other).
Proof.
  unfold apply_adaptive_improvements in Hrun. rewrite Hread in Hrun.
  destruct (apply_rules env (confidence_threshold e) (adaptive_rules e)
              original (clock_reads e)) as [[[rules' final] imps] reads'].
  destruct imps as [|i imps].
  - injection Hrun as <- _ _. now contradiction Hsome.
  - injection Hrun as <- <- _. cbn [backup_created]. split; [reflexivity|].
    split; [exists final; apply lookup_insert_eq|]. split.
    + intros Hne. rewrite lookup_insert_ne by congruence.
      apply lookup_insert_eq.
    + intros other H1 H2. now rewrite !lookup_insert_ne by congruence.
Qed.

Lemma improvement_keeps_backup_witness :
  exists report files' e',
    apply_adaptive_improvements Samples.sample_env Notions.backup_name
      Notions.cart_files Notions.timing_engine "test_cart.py"
      = (report, files', e') /\
    files' !! "test_cart.py.backup" = Some "    page.click('#buy')".
Proof.
  eexists _, _, _. split; [vm_compute; reflexivity|].
  refine (proj1 (proj2 (proj2
            (improvement_keeps_backup Samples.sample_env Notions.backup_name
               Notions.cart_files Notions.timing_engine "test_cart.py"
               "    page.click('#buy')" _ _ _ _ _ _))) _).
  - vm_compute. reflexivity.
  - vm_compute. reflexivity.
  - vm_compute. discriminate.
  - vm_compute. discriminate.
Defined.

(** X9.  Only rules whose confidence reaches the threshold are applied:
    every reported improvement is that of such a rule of the list, and a
    rule below the threshold is left as it is, its [last_applied]
    included. *)
Theorem only_confident_rules_apply env backup_of files e path report files' e'
    (Hrun : apply_adaptive_improvements env backup_of files e path
            = (report, files', e')) :
  Forall (fun i => exists rule,
              rule ∈ adaptive_rules e /\
              confidence_threshold e <= confidence rule /\
              i = improvement_of rule)
         (improvements_applied report) /\
  Forall2 (fun rule rule' =>
             touched rule rule' /\
             (~ confidence_threshold e <= confidence rule -> rule' = rule))
          (adaptive_rules e) (adaptive_rules e').
Proof.
  unfold apply_adaptive_improvements in Hrun.
  assert (Forall2 (fun rule rule' : AdaptiveRule =>
                     touched rule rule' /\
                     (~ confidence_threshold e <= confidence rule ->
                      rule' = rule))
                  (adaptive_rules e) (adaptive_rules e)) as Hrefl.
  { apply Forall2_same_length_lookup. split; [reflexivity|].
    intros i x y Hx Hy. assert (x = y) as -> by congruence.
    split; [now left | auto]. }
  destruct (files !! path) as [original|].
  - destruct (apply_rules_spec env (confidence_threshold e) (adaptive_rules e)
                original (clock_reads e))
      as (rules' & final & imps & reads' & Hloop & Ht & Hsame & Hi & Hb).
    rewrite Hloop in Hrun.
    assert (Forall2 (fun rule rule' : AdaptiveRule =>
                       touched rule rule' /\
                       (~ confidence_threshold e <= confidence rule ->
                        rule' = rule))
                    (adaptive_rules e) rules') as Hboth.
    { clear -Ht Hb. induction Ht; inversion Hb; subst; constructor; auto. }
    destruct imps as [|i imps]; injection Hrun as <- <- <-;
      cbn [improvements_applied adaptive_rules]; split; auto.
  - injection Hrun as <- <- <-. split; [constructor | exact Hrefl].
Qed.

Lemma only_confident_rules_apply_witness :
  exists report files' e',
    apply_adaptive_improvements Samples.sample_env Notions.backup_name
      Notions.cart_files Notions.timing_engine "test_cart.py"
      = (report, files', e') /\
    Forall (fun i => exists rule,
                rule ∈ adaptive_rules Notions.timing_engine /\
                confidence_threshold Notions.timing_engine <= confidence rule /\
                i = improvement_of rule)
           (improvements_applied report).
Proof.
  eexists _, _, _. split; [vm_compute; reflexivity|].
  refine (proj1 (only_confident_rules_apply Samples.sample_env
                   Notions.backup_name Notions.cart_files
                   Notions.timing_engine "test_cart.py" _ _ _ _)).
  vm_compute. reflexivity.
Defined.

End ApplyToFile.


(** ** What holds of every engine *)

Section Reachable.
Import Engine Applicator.
Implicit Types (env : Env) (e : AdaptiveTestingEngine).
Local Open Scope Q_scope.

Lemma passing_group_bounds thr (g : string * list TestFailurePattern) k c :
  Notions.passing_group thr g = Some (k, c) -> thr <= c /\ c <= 1.
Proof.
  unfold Notions.passing_group.
  destruct (avg_frequency (snd g)) as [avg|]; [|discriminate].
  destruct (Qle_bool thr _) eqn:Hq; [|discriminate].
  intros [= _ <-]. apply Qle_bool_iff in Hq. split; [exact Hq|].
  destruct (py_min_cases (avg / 10) 1.0) as [[H ->] | [H ->]]; lra.
Qed.

Lemma analyze_rules_bounds env e :
  exists new_rules e',
    analyze_patterns_and_create_rules env e = (Ok new_rules, e') /\
    adaptive_rules e' = adaptive_rules e ++ new_rules /\
    failure_patterns e' = failure_patterns e /\
    confidence_threshold e' = confidence_threshold e /\
    min_pattern_frequency e' = min_pattern_frequency e /\
    Forall (fun rule => confidence_threshold e <= confidence rule /\
                        confidence rule <= 1 /\ success_rate rule = 0.0)
           new_rules.
Proof.
  destruct (analyze_shape env e)
    as (new_rules & e' & Hrun & Hr & Hp & Ht & Hm & Hkinds & Hsr).
  exists new_rules, e'. repeat (split; [assumption|]).
  rewrite Forall_forall in Hsr |- *. intros rule Hin.
  assert (Notions.kind_and_confidence rule
          ∈ omap (Notions.passing_group (confidence_threshold e))
                 (pattern_groups e)) as Hk.
  { rewrite <- Hkinds. apply list_elem_of_fmap. eauto. }
  apply list_elem_of_omap in Hk as (g & _ & Hg).
  apply passing_group_bounds in Hg. split; [tauto|]. split; [tauto | auto].
Qed.

Lemma touched_keeps (P : AdaptiveRule -> Prop) rules rules' :
  (forall rule t, P rule -> P (applied_at t rule)) ->
  Forall2 touched rules rules' -> Forall P rules -> Forall P rules'.
Proof.
  intros HP. induction 1 as [|r r' rules rules' Ht _ IH]; intros Hall;
    [constructor|].
  apply Forall_cons_1 in Hall as [Hr Hall]. constructor; [|auto].
  destruct Ht as [->|[t ->]]; auto.
Qed.

Lemma sound_init : Notions.sound init.
Proof. repeat split; constructor. Qed.

Lemma sound_record env e r :
  Notions.sound e -> Notions.sound (record_test_failure env e r).
Proof.
  intros (Hnd & Hf & Hr & Hm & Ht).
  destruct (record_keeps_configuration env e r) as (Er & Em & Et).
  split; [now apply record_keeps_identities_distinct|].
  split; [|rewrite Er, Em, Et; auto].
  destruct (identity_of r) as [k|] eqn:Hk.
  - destruct (record_recorded env e r k Hk)
      as [(i & ex & t & Hi & _ & Heq) | (_ & p & _ & Hp & Heq)];
      rewrite Heq.
    + apply Forall_insert; [exact Hf|].
      rewrite Forall_forall in Hf.
      assert (1 <= frequency ex)%Z
        by (apply Hf; eapply list_elem_of_lookup_2; eauto).
      simpl. lia.
    + apply Forall_app. split; [exact Hf|].
      constructor; [lia | constructor].
  - now rewrite record_skipped.
Qed.

Lemma sound_analyze env e :
  Notions.sound e ->
  Notions.sound (snd (analyze_patterns_and_create_rules env e)).
Proof.
  intros (Hnd & Hf & Hr & Hm & Ht).
  destruct (analyze_rules_bounds env e)
    as (new_rules & e' & Hrun & Er & Ep & Et & Em & Hnew).
  rewrite Hrun. cbn [snd]. unfold Notions.sound, identities in *.
  rewrite Ep, Er, Em, Et. repeat (split; [assumption|]).
  split; [|auto]. apply Forall_app. split; [exact Hr|].
  rewrite Ht in Hnew. exact Hnew.
Qed.

Lemma sound_apply env backup_of files e path :
  Notions.sound e ->
  Notions.sound
    (snd (apply_adaptive_improvements env backup_of files e path)).
Proof.
  intros (Hnd & Hf & Hr & Hm & Ht).
  unfold apply_adaptive_improvements.
  destruct (files !! path) as [original|]; [|repeat split; assumption].
  destruct (apply_rules_spec env (confidence_threshold e) (adaptive_rules e)
              original (clock_reads e))
    as (rules' & final & imps & reads' & Hloop & Htouched & _).
  rewrite Hloop.
  assert (Forall (fun rule => 0.7 <= confidence rule /\ confidence rule <= 1 /\
                              success_rate rule = 0.0) rules') as Hr'.
  { eapply touched_keeps; [|exact Htouched | exact Hr]. auto. }
  destruct imps; cbn [snd]; repeat split; assumption.
Qed.

Lemma sound_insights env window date_of e :
  Notions.sound e ->
  Notions.sound
    (snd (Adaptation.get_adaptation_insights env window date_of e)).
Proof.
  intros (Hnd & Hf & Hr & Hm & Ht).
  unfold Adaptation.get_adaptation_insights.
  destruct (Adaptation.recent_patterns_of _ _ _ _). cbn [snd].
  repeat split; assumption.
Qed.

(** X10.  Every engine that recording, synthesis, rule application and
    reporting produce from the empty engine has the default settings,
    holds at most one pattern per identity, each with a frequency of at
    least 1, and holds only rules with a confidence between 0.7 and 1
    and a success rate of 0: nothing ever writes the success rate. *)
Theorem reachable_engines_are_sound env e (Hreach : Notions.reachable env e) :
  NoDup (identities e) /\
  Forall (fun p => (1 <= frequency p)%Z) (failure_patterns e) /\
  Forall (fun rule => 0.7 <= confidence rule /\ confidence rule <= 1 /\
                      success_rate rule = 0.0) (adaptive_rules e) /\
  min_pattern_frequency e = 3%Z /\
  confidence_threshold e = 0.7.
Proof.
  change (Notions.sound e).
  induction Hreach as [| e r _ IH | e _ IH | e backup_of files path _ IH
                       | e window date_of _ IH].
  - exact sound_init.
  - now apply sound_record.
  - now apply sound_analyze.
  - now apply sound_apply.
  - now apply sound_insights.
Qed.

Lemma reachable_engines_are_sound_witness :
  Forall (fun p => (1 <= frequency p)%Z)
         (failure_patterns
            (record_test_failure Samples.sample_env init
               Samples.search_timeout)).
Proof.
  refine (proj1 (proj2 (reachable_engines_are_sound Samples.sample_env _
                          (Notions.reach_record _ _ Samples.search_timeout
                             (Notions.reach_init _))))).
Defined.

End Reachable.

(** ** The report on the learning *)

Section AdaptationInsights.
Import Engine Adaptation.
Implicit Types (env : Env) (e : AdaptiveTestingEngine).
Local Open Scope Q_scope.

Lemma recent_patterns_sublist env window ps : forall reads,
  fst (recent_patterns_of env window ps reads) `sublist_of` ps.
Proof.
  induction ps as [|p ps IH]; intros reads; simpl; [constructor|].
  specialize (IH (S reads)).
  destruct (recent_patterns_of env window ps (S reads)) as [recent reads'].
  destruct (_ <? _)%Z; simpl in *.
  - now apply sublist_skip.
  - now apply sublist_cons.
Qed.

Lemma counter_add_total k counts :
  Notions.total_count (PyDict.counter_add k counts) = S (Notions.total_count counts).
Proof.
  unfold Notions.total_count.
  induction counts as [|[k' n] counts IH]; [reflexivity|].
  cbn [PyDict.counter_add].
  destruct (String.eqb k' k); rewrite !fmap_cons; cbn [foldr snd];
    [lia | rewrite IH; lia].
Qed.

Lemma Counter_total items :
  Notions.total_count (PyDict.Counter items) = length items.
Proof.
  unfold PyDict.Counter.
  assert (forall counts,
             Notions.total_count (fold_left (fun c k => PyDict.counter_add k c)
                                    items counts)
             = (Notions.total_count counts + length items)%nat) as H.
  { induction items as [|k items IH]; intros counts; simpl; [lia|].
    rewrite IH, counter_add_total. lia. }
  rewrite H. reflexivity.
Qed.

(** X11.  In the report on the learning, the recent patterns are among
    the stored ones, the counts by kind add up to the number of recent
    patterns, and at most five kinds are listed as the top ones. *)
Theorem adaptation_counts_agree env window date_of e :
  let insights := fst (get_adaptation_insights env window date_of e) in
  (recent_patterns insights <= total_patterns_learned insights)%nat /\
  total_patterns_learned insights = length (failure_patterns e) /\
  Notions.total_count (pattern_types insights) = recent_patterns insights /\
  (length (top_failure_types insights) <= 5)%nat.
Proof.
  unfold get_adaptation_insights.
  pose proof (recent_patterns_sublist env window (failure_patterns e)
                (clock_reads e)) as Hsub.
  destruct (recent_patterns_of env window (failure_patterns e) (clock_reads e))
    as [recent reads]. cbn [fst] in *. cbv zeta. cbn [fst recent_patterns
    total_patterns_learned pattern_types top_failure_types].
  split; [now apply sublist_length|]. split; [reflexivity|]. split.
  - now rewrite Counter_total, length_fmap.
  - unfold most_common_5. rewrite length_take. lia.
Qed.

Lemma mean_bounds (lo hi : Q) (values : list Q) :
  values <> [] -> Forall (fun v => lo <= v /\ v <= hi) values ->
  lo <= mean values /\ mean values <= hi.
Proof.
  intros Hne Hall. unfold mean.
  assert (lo * Q_of_nat (length values) <= foldr Qplus 0 values /\
          foldr Qplus 0 values <= hi * Q_of_nat (length values)) as [Hlo Hhi].
  { clear Hne. induction Hall as [|v values [Hv1 Hv2] _ [IH1 IH2]].
    - cbn [foldr length]. change (Q_of_nat 0) with 0. split; lra.
    - cbn [foldr length].
      assert (Q_of_nat (S (length values)) == Q_of_nat (length values) + 1) as E.
      { unfold Q_of_nat. rewrite Nat2Z.inj_succ, <- Z.add_1_r, inject_Z_plus.
        reflexivity. }
      rewrite E. split; nra. }
  assert (0 < Q_of_nat (length values)) as Hlen.
  { apply Q_of_nat_pos. destruct values; [congruence | simpl; lia]. }
  split.
  - apply Qle_shift_div_l; assumption.
  - apply Qle_shift_div_r; assumption.
Qed.

(** X12.  For an engine that the operations produce from the empty one,
    the report on the learning counts no rule as effective, and the
    average confidence it gives is 0 without rules and between 0.7 and
    1 with rules. *)
Theorem no_rule_is_ever_effective env window date_of e
    (Hreach : Notions.reachable env e) :
  let insights := fst (get_adaptation_insights env window date_of e) in
  effective_rules insights = 0%nat /\
  active_rules insights = length (adaptive_rules e) /\
  (adaptive_rules e = [] -> avg_rule_confidence insights = 0) /\
  (adaptive_rules e <> [] ->
   0.7 <= avg_rule_confidence insights /\ avg_rule_confidence insights <= 1).
Proof.
  assert (Notions.sound e) as (_ & _ & Hr & _).
  { induction Hreach;
      auto using sound_init, sound_record, sound_analyze, sound_apply,
                 sound_insights. }
  unfold get_adaptation_insights.
  destruct (recent_patterns_of env window (failure_patterns e) (clock_reads e))
    as [recent reads]. cbv zeta.
  cbn [fst effective_rules active_rules avg_rule_confidence].
  split; [|split; [reflexivity|split]].
  - assert (filter (fun r => Qlt_bool 0.5 (success_rate r) = true)
                   (adaptive_rules e) = []) as ->; [|reflexivity].
    induction Hr as [|rule rules (_ & _ & Hs) _ IH]; [reflexivity|].
    rewrite filter_cons, IH, Hs.
    destruct (decide (Qlt_bool 0.5 0.0 = true)); [discriminate | reflexivity].
  - intros ->. reflexivity.
  - intros Hne. destruct (adaptive_rules e) as [|rule rules] eqn:E;
      [congruence|].
    apply mean_bounds; [discriminate|].
    apply Forall_fmap. eapply Forall_impl; [exact Hr|].
    intros r (H1 & H2 & _). simpl. auto.
Qed.

Lemma no_rule_is_ever_effective_witness :
  effective_rules
    (fst (get_adaptation_insights Samples.sample_env 7 (fun t => t)
            (snd (analyze_patterns_and_create_rules Samples.sample_env init))))
  = 0%nat.
Proof.
  refine (proj1 (no_rule_is_ever_effective Samples.sample_env 7 (fun t => t) _
                   (Notions.reach_analyze _ _ (Notions.reach_init _)))).
Defined.

End AdaptationInsights.


(** ** More on the locator *)

Section LocatorShape.
Import Engine.

Lemma all_chars_append (p : ascii -> bool) (a b : string) :
  PyStr.all_chars p (a +:+ b) = PyStr.all_chars p a && PyStr.all_chars p b.
Proof.
  induction a as [|c a IH]; simpl; [reflexivity|].
  rewrite IH. now rewrite andb_assoc.
Qed.

Lemma all_chars_impl (p q : ascii -> bool) (s : string) :
  (forall c, p c = true -> q c = true) ->
  PyStr.all_chars p s = true -> PyStr.all_chars q s = true.
Proof.
  intros Hpq. induction s as [|c s IH]; simpl; [reflexivity|].
  intros H. apply andb_true_iff in H as [Hc Hs].
  apply andb_true_iff. auto.
Qed.

Lemma css_not_quote (c : ascii) : Re.css_char c = true -> Re.not_quote c = true.
Proof.
  intros H. unfold Re.not_quote. destruct (Re.is_quote c) eqn:E; [|reflexivity].
  apply quote_not_css in E. congruence.
Qed.

(** What a successful group has taken. *)
Lemma grp_inv (p : ascii -> bool) k (s : string) : forall acc g,
  Re.grp p k acc s = Some g ->
  exists token rest,
    s = token +:+ rest /\ token <> "" /\ PyStr.all_chars p token = true /\
    k (acc +:+ token) rest = Some g.
Proof.
  induction s as [|c s IH]; intros acc g H; [discriminate|].
  cbn [Re.grp] in H. destruct (p c) eqn:Hc; [|discriminate]. cbv zeta in H.
  remember (Re.grp p k (acc +:+ String c "") s) as o eqn:Hrec in H.
  symmetry in Hrec. destruct o as [g'|].
  - injection H as ->.
    destruct (IH _ _ Hrec) as (token & rest & -> & _ & Hall & Hk).
    exists (String c token), rest. split; [reflexivity|].
    split; [discriminate|]. split; [simpl; now rewrite Hc|].
    rewrite append_assoc in Hk. exact Hk.
  - exists (String c ""), s. split; [reflexivity|].
    split; [discriminate|]. split; [simpl; now rewrite Hc | exact H].
Qed.

Lemma rep_inv (p : ascii -> bool) k (s : string) : forall g,
  Re.rep p k s = Some g ->
  exists skipped rest, s = skipped +:+ rest /\ k rest = Some g.
Proof.
  induction s as [|c s IH]; intros g H; [discriminate|].
  cbn [Re.rep] in H. destruct (p c); [|discriminate].
  remember (Re.rep p k s) as o eqn:Hrec in H.
  symmetry in Hrec. destruct o as [g'|].
  - injection H as ->. destruct (IH _ Hrec) as (skipped & rest & -> & Hk).
    exists (String c skipped), rest. split; [reflexivity | exact Hk].
  - exists (String c ""), s. split; [reflexivity | exact H].
Qed.

Lemma lit_inv (word : string) (items : list Re.item) : forall s g r,
  Re.match_here (Re.lit word ++ items) g s = Some r ->
  exists skipped rest, s = skipped +:+ rest /\
                       Re.match_here items g rest = Some r.
Proof.
  induction word as [|a word IH]; intros s g r H.
  - exists "", s. split; [reflexivity | exact H].
  - change (Re.lit (String a word) ++ items)
      with (Re.Chr (fun c => Ascii.eqb (PyStr.lower_char c) a)
              :: (Re.lit word ++ items)) in H.
    cbn [Re.match_here] in H. destruct s as [|c s]; [discriminate|].
    destruct (Ascii.eqb (PyStr.lower_char c) a); [|discriminate].
    destruct (IH _ _ _ H) as (skipped & rest & -> & Hm).
    exists (String c skipped), rest. split; [reflexivity | exact Hm].
Qed.

(** A quoted token: quote, a run of characters of the class, quote. *)
Lemma quoted_inv (p : ascii -> bool) (s g : string) :
  Re.match_here [Re.Chr Re.is_quote; Re.Grp p; Re.Chr Re.is_quote] "" s
    = Some g ->
  exists open_quote close_quote post,
    s = String open_quote (g +:+ String close_quote post) /\
    Re.is_quote open_quote = true /\ Re.is_quote close_quote = true /\
    g <> "" /\ PyStr.all_chars p g = true.
Proof.
  cbn [Re.match_here]. destruct s as [|q1 s]; [discriminate|].
  destruct (Re.is_quote q1) eqn:Hq1; [|discriminate]. intros H.
  apply grp_inv in H as (token & rest & -> & Hne & Hall & Hk).
  destruct rest as [|q2 post]; [discriminate|].
  destruct (Re.is_quote q2) eqn:Hq2; [|discriminate].
  injection Hk as <-. exists q1, q2, post. auto.
Qed.

Lemma search_inv (items : list Re.item) (s : string) : forall g,
  Re.search items s = Some g ->
  exists pre rest, s = pre +:+ rest /\ Re.match_here items "" rest = Some g.
Proof.
  induction s as [|c s IH]; intros g H; cbn [Re.search] in H.
  - destruct (Re.match_here items "" "") eqn:Hm; [|discriminate].
    exists "", "". now injection H as ->.
  - remember (Re.match_here items "" (String c s)) as o eqn:Hm in H.
    symmetry in Hm. destruct o.
    + exists "", (String c s). now injection H as ->.
    + destruct (IH _ H) as (pre & rest & -> & Hr).
      exists (String c pre), rest. split; [reflexivity | exact Hr].
Qed.

Lemma pattern_inv (items : list Re.item) (message locator : string) :
  In items patterns ->
  Re.search items message = Some locator ->
  Notions.quoted_in locator message /\ locator <> "" /\
  PyStr.all_chars Re.not_quote locator = true.
Proof.
  intros Hin Hs. apply search_inv in Hs as (pre & rest & -> & Hm).
  assert (exists skipped p rest',
             rest = skipped +:+ rest' /\
             (forall c, p c = true -> Re.not_quote c = true) /\
             Re.match_here [Re.Chr Re.is_quote; Re.Grp p; Re.Chr Re.is_quote]
               "" rest' = Some locator)
    as (skipped & p & rest' & -> & Hp & Hq).
  { unfold patterns in Hin. simpl in Hin.
    destruct Hin as [<-|[<-|[<-|[<-|[]]]]].
    1-3: unfold quoted_after in Hm;
      apply lit_inv in Hm as (w & r1 & -> & Hm);
      cbn [Re.match_here] in Hm;
      apply rep_inv in Hm as (ws & r2 & -> & Hm);
      exists (w +:+ ws), Re.not_quote, r2;
      rewrite append_assoc; auto.
    exists "", Re.css_char, rest. split; [reflexivity|].
    split; [apply css_not_quote | exact Hm]. }
  apply quoted_inv in Hq as (q1 & q2 & post & -> & Hq1 & Hq2 & Hne & Hall).
  split; [|split; [exact Hne | eapply all_chars_impl; eauto]].
  exists (pre +:+ skipped), q1, q2, post. rewrite !append_assoc. auto.
Qed.

Lemma first_match_inv (ps : list (list Re.item)) (message locator : string) :
  first_match ps message = Some locator ->
  exists items, In items ps /\ Re.search items message = Some locator.
Proof.
  induction ps as [|items ps IH]; simpl; [discriminate|].
  destruct (Re.search items message) as [g|] eqn:Hs.
  - intros [= ->]. eauto.
  - intros H. destruct (IH H) as (items' & Hin & Hs'). eauto.
Qed.

Lemma extract_inv (message locator : string) :
  _extract_element_selector message = Some locator ->
  Notions.quoted_in locator message /\ locator <> "" /\
  PyStr.all_chars Re.not_quote locator = true.
Proof.
  intros H. apply first_match_inv in H as (items & Hin & Hs).
  now apply (pattern_inv items).
Qed.

(** X13.  A locator that is extracted is never empty, holds no quote
    character, and stands in the message between two quote characters. *)
Theorem locator_is_quoted_token (message locator : string)
    (Hfound : _extract_element_selector message = Some locator) :
  locator <> "" /\
  PyStr.all_chars Re.not_quote locator = true /\
  exists pre open_quote close_quote post,
    message = pre +:+ String open_quote (locator +:+ String close_quote post) /\
    Re.is_quote open_quote = true /\ Re.is_quote close_quote = true.
Proof.
  destruct (extract_inv _ _ Hfound) as (Hq & Hne & Hall). auto.
Qed.

Lemma locator_is_quoted_token_witness :
  PyStr.all_chars Re.not_quote "#search-results" = true.
Proof.
  refine (proj1 (proj2 (locator_is_quoted_token
                          "Timeout waiting for selector '#search-results'"
                          "#search-results" eq_refl))).
Defined.

(** X14.  A message without a quote character has no locator, whatever
    words it holds. *)
Theorem no_quote_no_locator (message : string)
    (Hplain : PyStr.all_chars Re.not_quote message = true) :
  _extract_element_selector message = None.
Proof.
  destruct (_extract_element_selector message) as [locator|] eqn:H;
    [|reflexivity].
  destruct (extract_inv _ _ H) as ((pre & q1 & q2 & post & -> & Hq1 & _) & _).
  rewrite all_chars_append in Hplain. apply andb_true_iff in Hplain as [_ Hp].
  simpl in Hp. unfold Re.not_quote in Hp at 1. rewrite Hq1 in Hp. discriminate.
Qed.

Lemma no_quote_no_locator_witness :
  _extract_element_selector "locator #submit was not found" = None.
Proof.
  apply (no_quote_no_locator "locator #submit was not found"). reflexivity.
Defined.

End LocatorShape.


(** ** The suggestion for timing issues *)

Section TimingSuggestion.
Import Engine.

Lemma get_counter_add (k k' : string) (counts : list (string * nat)) :
  PyDict.get (PyDict.counter_add k counts) k' 0%nat =
  (PyDict.get counts k' 0%nat + if String.eqb k k' then 1 else 0)%nat.
Proof.
  induction counts as [|[k0 n] counts IH]; cbn [PyDict.counter_add PyDict.get].
  - destruct (String.eqb k k'); reflexivity.
  - destruct (String.eqb_spec k0 k) as [->|Hne]; cbn [PyDict.get].
    + destruct (String.eqb k k'); lia.
    + destruct (String.eqb_spec k0 k') as [->|Hne'].
      * destruct (String.eqb_spec k k'); [congruence | lia].
      * exact IH.
Qed.

Lemma get_Counter (items : list string) (k : string) :
  PyDict.get (PyDict.Counter items) k 0%nat = Dashboard.count k items.
Proof.
  unfold PyDict.Counter, Dashboard.count.
  assert (forall counts,
             PyDict.get (fold_left (fun c x => PyDict.counter_add x c)
                                   items counts) k 0%nat
             = (PyDict.get counts k 0%nat
                + length (filter (fun s => s = k) items))%nat) as H.
  { induction items as [|x items IH]; intros counts; simpl; [lia|].
    rewrite IH, get_counter_add, filter_cons.
    destruct (String.eqb_spec x k); destruct (decide (x = k));
      try congruence; simpl; lia. }
  rewrite H. reflexivity.
Qed.

Lemma counter_add_keys (k : string) (counts : list (string * nat)) :
  NoDup (fst <$> counts) ->
  NoDup (fst <$> PyDict.counter_add k counts) /\
  (forall x, x ∈ (fst <$> PyDict.counter_add k counts) ->
             x = k \/ x ∈ (fst <$> counts)).
Proof.
  induction counts as [|[k0 n] counts IH]; cbn [PyDict.counter_add].
  - intros _. split; [apply NoDup_singleton|].
    intros x Hx. apply list_elem_of_singleton in Hx. now left.
  - rewrite fmap_cons. cbn [fst]. intros Hnd.
    apply NoDup_cons in Hnd as [Hk0 Hnd].
    destruct (String.eqb_spec k0 k) as [->|Hne]; rewrite fmap_cons; cbn [fst].
    + split; [now apply NoDup_cons | auto].
    + destruct (IH Hnd) as [IH1 IH2]. split.
      * apply NoDup_cons. split; [|exact IH1].
        intros Hin. destruct (IH2 _ Hin); congruence.
      * intros x Hx. apply elem_of_cons in Hx as [->|Hx];
          [right; left|].
        destruct (IH2 _ Hx); [now left | right; now right].
Qed.

Lemma Counter_keys (items : list string) :
  NoDup (fst <$> PyDict.Counter items) /\
  (forall x, x ∈ (fst <$> PyDict.Counter items) -> x ∈ items).
Proof.
  unfold PyDict.Counter.
  assert (forall counts,
             NoDup (fst <$> counts) ->
             NoDup (fst <$> fold_left (fun c x => PyDict.counter_add x c)
                                      items counts) /\
             (forall x,
                 x ∈ (fst <$> fold_left (fun c x => PyDict.counter_add x c)
                                        items counts) ->
                 x ∈ items \/ x ∈ (fst <$> counts))) as H.
  { induction items as [|y items IH]; intros counts Hnd; simpl.
    - split; [exact Hnd | auto].
    - destruct (counter_add_keys y counts Hnd) as [H1 H2].
      destruct (IH _ H1) as [H3 H4]. split; [exact H3|].
      intros x Hx. destruct (H4 _ Hx) as [Hin|Hin].
      + left. now right.
      + destruct (H2 _ Hin) as [->|Hin']; [left; left | now right]. }
  destruct (H [] (NoDup_nil_2)) as [H1 H2]. split; [exact H1|].
  intros x Hx. destruct (H2 _ Hx) as [Hin|Hin]; [exact Hin | inversion Hin].
Qed.

Lemma get_of_member (counts : list (string * nat)) k n :
  NoDup (fst <$> counts) -> (k, n) ∈ counts ->
  PyDict.get counts k 0%nat = n.
Proof.
  induction counts as [|[k0 m] counts IH]; intros Hnd Hin; [inversion Hin|].
  rewrite fmap_cons in Hnd. apply NoDup_cons in Hnd as [Hk0 Hnd].
  cbn [PyDict.get]. apply elem_of_cons in Hin as [[= -> ->]|Hin].
  - now rewrite String.eqb_refl.
  - destruct (String.eqb_spec k0 k) as [->|Hne]; [|auto].
    exfalso. apply Hk0. apply list_elem_of_fmap. exists (k, n). auto.
Qed.

(** The item that [max] picks is in the list, and no count is larger. *)
Lemma most_common_1_max (counts : list (string * nat)) k n :
  PyDict.most_common_1 counts = Some (k, n) ->
  (k, n) ∈ counts /\ forall k', (PyDict.get counts k' 0 <= n)%nat.
Proof.
  destruct counts as [|first rest]; [discriminate|].
  cbn [PyDict.most_common_1]. intros [= H].
  assert (forall (rest : list (string * nat)) (best : string * nat),
             let result :=
               fold_left (fun best item =>
                            if (snd best <? snd item)%nat then item else best)
                         rest best in
             (result = best \/ result ∈ rest) /\
             (snd best <= snd result)%nat /\
             Forall (fun item => (snd item <= snd result)%nat) rest) as Hfold.
  { clear. induction rest as [|item rest IH]; intros best; simpl.
    - split; [now left|]. split; [lia | constructor].
    - destruct (Nat.ltb_spec (snd best) (snd item)) as [Hlt|Hge].
      + destruct (IH item) as ([->|Hin] & Hle & Hall).
        * split; [right; left|]. split; [lia|]. constructor; [lia | exact Hall].
        * split; [right; now right|]. split; [lia|].
          constructor; [exact Hle | exact Hall].
      + destruct (IH best) as ([->|Hin] & Hle & Hall).
        * split; [now left|]. split; [lia|]. constructor; [lia | exact Hall].
        * split; [right; now right|]. split; [lia|].
          constructor; [lia | exact Hall]. }
  destruct (Hfold rest first) as (Hwhere & Hfirst & Hall).
  rewrite H in Hwhere, Hfirst, Hall. cbn [snd] in *. split.
  - destruct Hwhere as [<-|Hin]; [left | now right].
  - intros k'. cbn [PyDict.get]. destruct first as [k0 n0].
    destruct (String.eqb k0 k'); [exact Hfirst|].
    clear -Hall. induction Hall as [|[k1 n1] rest Hle _ IH]; simpl; [lia|].
    destruct (String.eqb k1 k'); [exact Hle | exact IH].
Qed.

(** X15.  The suggestion for a timing group names a locator of the
    group that no other locator of the group outnumbers; a group without
    any locator gets the general suggestion. *)
Theorem timing_fix_names_commonest_locator (ps : list TestFailurePattern) :
  (truthy_selectors ps = [] ->
   _create_timing_fix_suggestion ps =
     "Add explicit waits and increase default timeout values") /\
  (truthy_selectors ps <> [] ->
   exists selector,
     _create_timing_fix_suggestion ps =
       "Add explicit wait for element '" +:+ selector +:+
       "' with increased timeout (30s+)" /\
     selector ∈ truthy_selectors ps /\
     forall other,
       (Dashboard.count other (truthy_selectors ps)
        <= Dashboard.count selector (truthy_selectors ps))%nat).
Proof.
  unfold _create_timing_fix_suggestion. cbv zeta.
  generalize (truthy_selectors ps). intros selectors. split.
  - intros ->. reflexivity.
  - intros Hne.
    destruct (PyDict.most_common_1 (PyDict.Counter selectors))
      as [[selector n]|] eqn:Hmax.
    + destruct (most_common_1_max _ _ _ Hmax) as [Hin Hle].
      destruct (Counter_keys selectors) as [Hnd Hkeys].
      exists selector. split; [reflexivity|]. split.
      * apply Hkeys. apply list_elem_of_fmap. exists (selector, n). auto.
      * intros other. rewrite <- !get_Counter.
        rewrite (get_of_member _ _ _ Hnd Hin). apply Hle.
    + exfalso. unfold PyDict.most_common_1 in Hmax.
      destruct (PyDict.Counter selectors) eqn:E; [|discriminate].
      destruct selectors as [|x selectors]; [congruence|].
      pose proof (get_Counter (x :: selectors) x) as Hx. rewrite E in Hx.
      unfold Dashboard.count in Hx. rewrite filter_cons in Hx.
      destruct (decide (x = x)); [|congruence]. simpl in Hx. lia.
Qed.

Lemma timing_fix_names_commonest_locator_witness :
  exists selector,
    _create_timing_fix_suggestion [Samples.frequent_pattern] =
      "Add explicit wait for element '" +:+ selector +:+
      "' with increased timeout (30s+)" /\
    selector ∈ truthy_selectors [Samples.frequent_pattern].
Proof.
  destruct (proj2 (timing_fix_names_commonest_locator
                     [Samples.frequent_pattern]))
    as (selector & Hfix & Hin & _); [discriminate|].
  exists selector. split; [exact Hfix | exact Hin].
Defined.

End TimingSuggestion.


(** ** More on applying a rule *)

Section ReplaceLength.

Lemma prefix_length (p s : string) :
  String.prefix p s = true -> (String.length p <= String.length s)%nat.
Proof.
  intros H. apply prefix_iff in H as [t ->]. rewrite length_append. lia.
Qed.

Lemma length_drop (m : nat) (s : string) :
  String.length (PyStr.drop m s) = (String.length s - m)%nat.
Proof.
  revert s. induction m as [|m IH]; intros [|c s]; simpl; auto.
Qed.

Lemma replace_from_grows (old new : string) :
  (1 <= String.length old <= String.length new)%nat ->
  forall s k,
    (String.length (PyStr.drop k s)
     <= String.length (PyStr.replace_from old new k s))%nat.
Proof.
  intros Hlen. induction s as [|c s IH]; intros k.
  - destruct k; simpl; lia.
  - destruct k as [|k]; cbn [PyStr.replace_from PyStr.drop].
    + destruct (String.prefix old (String c s)) eqn:Hp.
      * apply prefix_length in Hp. rewrite length_append.
        specialize (IH (String.length old - 1)%nat).
        rewrite length_drop in IH. cbn [String.length] in *. lia.
      * specialize (IH 0%nat). cbn [String.length PyStr.drop] in *. lia.
    + apply IH.
Qed.

Lemma find_from_here (c : ascii) (old post : string) (i : nat) :
  Notions.border_free (String c old) = true ->
  PyStr.find_from i (String c old) (String c old +:+ post) =
  i :: PyStr.find_from (i + S (String.length old)) (String c old) post.
Proof.
  intros Hfree.
  change (String c old +:+ post) with (String c (old +:+ post)).
  rewrite find_from_cons.
  change (String c (old +:+ post)) with (String c old +:+ post).
  rewrite prefix_append. cbn [app]. f_equal.
  rewrite find_from_skip; [f_equal; lia|].
  intros v u Hv Hu.
  destruct (String.prefix (String c old) (u +:+ post)) eqn:Hp; [|reflexivity].
  exfalso.
  assert (u = PyStr.drop (S (String.length v)) (String c old)) as Hdrop.
  { cbn [PyStr.drop]. rewrite Hv. now rewrite drop_append. }
  assert (String.length u < String.length (String c old))%nat as Hshort.
  { rewrite Hdrop, length_drop. simpl. lia. }
  assert (S (String.length v) < String.length (String c old))%nat as Hj.
  { cbn [String.length]. rewrite Hv, length_append.
    destruct u; [congruence | simpl; lia]. }
  apply prefix_split in Hp as [Hp | (_ & Hp & _)].
  - apply prefix_length in Hp. lia.
  - unfold Notions.border_free in Hfree. rewrite forallb_forall in Hfree.
    specialize (Hfree (S (String.length v))). rewrite <- Hdrop, Hp in Hfree.
    assert (In (S (String.length v))
               (seq 1 (String.length (String c old) - 1))) as Hin
      by (apply in_seq; lia).
    specialize (Hfree Hin). discriminate.
Qed.

Lemma find_from_length (needle s : string) : forall i j,
  length (PyStr.find_from i needle s) = length (PyStr.find_from j needle s).
Proof.
  induction s as [|c s IH]; intros i j; cbn [PyStr.find_from].
  - destruct (String.prefix needle ""); reflexivity.
  - rewrite !length_app, (IH (S i) (S j)).
    destruct (String.prefix needle (String c s)); reflexivity.
Qed.

(** Every occurrence of a border-free [old] is replaced: the text gets
    longer by the difference for each of them. *)
Lemma replace_from_length (c : ascii) (old new : string) :
  Notions.border_free (String c old) = true ->
  forall n s, (String.length s <= n)%nat ->
    (String.length (PyStr.replace_from (String c old) new 0 s)
     + String.length (String c old)
       * length (PyStr.find_all (String c old) s)
     = String.length s
       + String.length new * length (PyStr.find_all (String c old) s))%nat.
Proof.
  intros Hfree. unfold PyStr.find_all.
  induction n as [|n IH]; intros s Hn.
  - destruct s; [|simpl in Hn; lia]. simpl. lia.
  - destruct s as [|d s]; [simpl; lia|].
    destruct (String.prefix (String c old) (String d s)) eqn:Hp.
    + apply prefix_iff in Hp as [post Hpost]. rewrite Hpost.
      rewrite replace_from_here, find_from_here by exact Hfree.
      assert (String.length post <= n)%nat as Hpn.
      { assert (String.length (String d s)
                = String.length (String c old +:+ post)) as E by congruence.
        rewrite length_append in E. simpl in E, Hn. lia. }
      specialize (IH post Hpn). cbn [length].
      rewrite (find_from_length _ post _ 0%nat).
      rewrite !length_append. lia.
    + cbn [PyStr.replace_from PyStr.find_from]. rewrite Hp.
      assert (String.length s <= n)%nat as Hsn by (simpl in Hn; lia).
      specialize (IH s Hsn). cbn [app].
      rewrite (find_from_length _ s 1%nat 0%nat). simpl in *. lia.
Qed.

End ReplaceLength.

Section RuleEffects.
Import Engine.

(** X16.  Applying a rule never takes text away: the result is at least
    as long as the text, a rule that is reported as not applied returns
    the text itself, the selector and the network rule only put text in
    front of it, and a rule of any other kind than the three is never
    applied. *)
Theorem rule_application_only_adds (rule : AdaptiveRule) (content : string) :
  (snd (_apply_rule_to_content content rule) = false ->
   fst (_apply_rule_to_content content rule) = content) /\
  (String.length content
   <= String.length (fst (_apply_rule_to_content content rule)))%nat /\
  (pattern rule = "element_selector" \/ pattern rule = "network_issue" ->
   exists added,
     fst (_apply_rule_to_content content rule) = added +:+ content) /\
  (pattern rule <> "timing_issue" -> pattern rule <> "element_selector" ->
   pattern rule <> "network_issue" ->
   _apply_rule_to_content content rule = (content, false)).
Proof.
  destruct (String.eqb_spec (pattern rule) "timing_issue") as [Ht|Ht].
  { rewrite (apply_timing _ _ Ht).
    destruct (negb _ && _); cbn [fst snd].
    - split; [discriminate|]. split.
      + pose proof (replace_from_grows "page.click(" click_with_wait
                      ltac:(vm_compute; lia) content 0) as H.
        exact H.
      + split; [intros [H|H]; rewrite Ht in H; discriminate | congruence].
    - split; [reflexivity|]. split; [lia|].
      split; [intros _; now exists "" | congruence]. }
  destruct (String.eqb_spec (pattern rule) "element_selector") as [Hs|Hs].
  { rewrite (apply_selector _ _ Hs).
    destruct (negb _ && _); cbn [fst snd].
    - split; [discriminate|]. split; [rewrite !length_append; lia|].
      split; [intros _; exists (advice +:+ nl); now rewrite append_assoc
             | congruence].
    - split; [reflexivity|]. split; [lia|].
      split; [intros _; now exists "" | congruence]. }
  destruct (String.eqb_spec (pattern rule) "network_issue") as [Hn|Hn].
  { rewrite (apply_network _ _ Hn).
    destruct (_ && negb _); [destruct (negb _)|]; cbn [fst snd].
    - split; [discriminate|]. split; [rewrite !length_append; lia|].
      split; [intros _; exists (retry_import +:+ nl); now rewrite append_assoc
             | congruence].
    - split; [reflexivity|]. split; [lia|].
      split; [intros _; now exists "" | congruence].
    - split; [reflexivity|]. split; [lia|].
      split; [intros _; now exists "" | congruence]. }
  rewrite apply_other by assumption. cbn [fst snd].
  split; [reflexivity|]. split; [lia|].
  split; [intros [H|H]; congruence | reflexivity].
Qed.

Lemma rule_application_only_adds_witness :
  fst (_apply_rule_to_content "driver.get(url)"
         (Samples.rule_of_kind "timing_issue")) = "driver.get(url)".
Proof.
  apply (proj1 (rule_application_only_adds
                  (Samples.rule_of_kind "timing_issue") "driver.get(url)")).
  reflexivity.
Defined.

(** X17.  On a text without [page.wait_for_selector] that holds a click,
    the timing rule is applied and puts its 56 characters, the wait
    statement, a line break and eight spaces, in front of every
    [page.click(]: the text grows by 56 characters for each occurrence,
    and a text without any occurrence comes back as it is, although the
    rule is reported as applied. *)
Theorem timing_rule_waits_before_every_click (rule : AdaptiveRule)
    (content : string)
    (Hkind : pattern rule = "timing_issue")
    (Hnowait : PyStr.contains "page.wait_for_selector" content = false)
    (Hclick : PyStr.contains "click(" content = true) :
  snd (_apply_rule_to_content content rule) = true /\
  String.length (fst (_apply_rule_to_content content rule)) =
    (String.length content
     + 56 * length (PyStr.find_all "page.click(" content))%nat /\
  (PyStr.find_all "page.click(" content = [] ->
   fst (_apply_rule_to_content content rule) = content).
Proof.
  rewrite (apply_timing _ _ Hkind), Hnowait, Hclick. cbn [negb andb fst snd].
  split; [reflexivity|]. split.
  - pose proof (replace_from_length "p" "age.click(" click_with_wait
                  ltac:(vm_compute; reflexivity) _ content (Nat.le_refl _))
      as H.
    change (String.length click_with_wait) with 67%nat in H.
    change (String.length "page.click(") with 11%nat in H.
    cbn [PyStr.replace]. lia.
  - intros Hnone. apply find_from_none in Hnone.
    cbn [PyStr.replace]. now apply replace_from_absent.
Qed.

Lemma timing_rule_waits_before_every_click_witness :
  String.length
    (fst (_apply_rule_to_content "page.click(a); page.click(b)"
            (Samples.rule_of_kind "timing_issue")))
  = (String.length "page.click(a); page.click(b)"
     + 56 * length (PyStr.find_all "page.click("
                      "page.click(a); page.click(b)"))%nat /\
  _apply_rule_to_content "button.click()"
    (Samples.rule_of_kind "timing_issue") = ("button.click()", true).
Proof.
  split.
  - apply (timing_rule_waits_before_every_click
             (Samples.rule_of_kind "timing_issue")); reflexivity.
  - destruct (timing_rule_waits_before_every_click
                (Samples.rule_of_kind "timing_issue") "button.click()")
      as (Happlied & _ & Hsame); [reflexivity..|].
    rewrite (surjective_pairing (_apply_rule_to_content _ _)).
    rewrite Happlied, Hsame; reflexivity.
Defined.

End RuleEffects.


(** ** More on the ranking *)

Section RankingMore.
Import Dashboard.
Local Open Scope Q_scope.

Section SortFacts.
Context {A K : Type} (lt : K -> K -> bool) (key : A -> K).

(** A sorted list is left as it is. *)
Lemma sort_reverse_sorted_id (l : list A) :
  Sorted (PyDict.not_below lt key) l -> PyDict.sort_reverse lt key l = l.
Proof.
  induction 1 as [|x l Hs IH Hhd]; [reflexivity|].
  cbn [PyDict.sort_reverse foldr]. fold (PyDict.sort_reverse lt key l).
  rewrite IH. destruct Hhd as [|y l Hxy]; [reflexivity|].
  cbn [PyDict.insert_reverse]. unfold PyDict.not_below in Hxy.
  now rewrite Hxy.
Qed.

(** Elements that the order does not tell apart keep their order. *)
Lemma insert_reverse_filter (P : A -> Prop) `{!forall x, Decision (P x)}
    (x : A) (l : list A) :
  (forall y, P x -> P y -> lt (key x) (key y) = false) ->
  filter P (PyDict.insert_reverse lt key x l) = filter P (x :: l).
Proof.
  intros Hsame. induction l as [|y l IH]; [reflexivity|].
  cbn [PyDict.insert_reverse].
  destruct (lt (key x) (key y)) eqn:Hlt; [|reflexivity].
  rewrite filter_cons, IH, !filter_cons.
  destruct (decide (P x)) as [Hx|Hx]; [|reflexivity].
  destruct (decide (P y)) as [Hy|Hy]; [|reflexivity].
  rewrite (Hsame y Hx Hy) in Hlt. discriminate.
Qed.

Lemma sort_reverse_filter (P : A -> Prop) `{!forall x, Decision (P x)}
    (l : list A) :
  (forall x y, P x -> P y -> lt (key x) (key y) = false) ->
  filter P (PyDict.sort_reverse lt key l) = filter P l.
Proof.
  intros Hsame. induction l as [|x l IH]; [reflexivity|].
  cbn [PyDict.sort_reverse foldr]. fold (PyDict.sort_reverse lt key l).
  rewrite insert_reverse_filter by (intros y; apply Hsame).
  now rewrite !filter_cons, IH.
Qed.
End SortFacts.

(** X18.  The ranking is stable: the insights of one severity rank and
    one confidence stand in the ranking in the order in which they were
    generated. *)
Theorem ranking_is_stable (insights : list AIInsight) (rank : Z) (c : Q) :
  filter (fun x => _severity_score (severity x) = rank /\
                   Qeq_bool (confidence x) c = true)
         (sort_insights insights)
  = filter (fun x => _severity_score (severity x) = rank /\
                     Qeq_bool (confidence x) c = true)
           insights.
Proof.
  unfold sort_insights. apply sort_reverse_filter.
  intros x y [Hx1 Hx2] [Hy1 Hy2]. unfold tuple_lt, sort_key. cbn [fst snd].
  rewrite Hx1, Hy1, Z.eqb_refl. cbn [negb].
  destruct (Qlt_bool (- confidence x) (- confidence y)) eqn:E; [|reflexivity].
  apply Qlt_bool_iff in E. apply Qeq_bool_iff in Hx2, Hy2.
  rewrite Hx2, Hy2 in E. now apply Qlt_irrefl in E.
Qed.

(** X19.  Ranking a ranked list changes nothing, so the insights that
    the dashboard shows are the first five of the stored ranking. *)
Theorem dashboard_shows_first_five (an : Analyses) (test_history : list TestRun)
    (insights : list AIInsight) :
  sort_insights (sort_insights insights) = sort_insights insights /\
  DashboardData.top_insights
    (generate_comprehensive_insights an test_history)
  = take 5 (generate_comprehensive_insights an test_history) /\
  (length (DashboardData.top_insights insights) <= 5)%nat.
Proof.
  assert (forall l, sort_insights (sort_insights l) = sort_insights l) as Hid.
  { intros l. unfold sort_insights at 1. apply sort_reverse_sorted_id.
    apply sort_reverse_sorted. apply tuple_lt_asym. }
  split; [apply Hid|]. split.
  - unfold DashboardData.top_insights, generate_comprehensive_insights.
    destruct test_history; [reflexivity|]. now rewrite Hid.
  - unfold DashboardData.top_insights. rewrite length_take. lia.
Qed.

End RankingMore.

(** ** More on flaky tests *)

Section FlakyMore.
Import Dashboard.
Local Open Scope Q_scope.

Lemma last_n_app {A} (n : nat) (old recent : list A) :
  length recent = n -> PyDict.last_n n (old ++ recent) = recent.
Proof.
  intros <-. unfold PyDict.last_n. rewrite length_app.
  replace (length old + length recent - length recent)%nat
    with (length old) by lia.
  apply drop_app_length.
Qed.

(** X20.  Only the last twenty runs count: the runs before them have no
    influence on the flaky tests that are found. *)
Theorem older_runs_do_not_count (older recent : list TestRun)
    (Hwindow : length recent = 20%nat) :
  flaky_tests (older ++ recent) = flaky_tests recent /\
  _analyze_flaky_tests (older ++ recent) = _analyze_flaky_tests recent.
Proof.
  assert (flaky_tests (older ++ recent) = flaky_tests recent) as H.
  { unfold flaky_tests, test_outcomes.
    rewrite (last_n_app 20 older recent Hwindow).
    pose proof (last_n_app 20 [] recent Hwindow) as E. simpl in E.
    now rewrite E. }
  split; [exact H|]. unfold _analyze_flaky_tests. now rewrite H.
Qed.

Lemma older_runs_do_not_count_witness :
  flaky_tests
    (Samples.runs_of "test_login" ["failed"; "failed"; "failed"] ++
     Samples.runs_of "test_login" (replicate 20 "passed"))
  = flaky_tests (Samples.runs_of "test_login" (replicate 20 "passed")).
Proof.
  apply (older_runs_do_not_count
           (Samples.runs_of "test_login" ["failed"; "failed"; "failed"])
           (Samples.runs_of "test_login" (replicate 20 "passed"))).
  reflexivity.
Defined.

Lemma Qlt_bool_asym (a b : Q) : Qlt_bool a b = true -> Qlt_bool b a = false.
Proof.
  intros H. apply Qlt_bool_iff in H.
  destruct (Qlt_bool b a) eqn:E; [|reflexivity].
  apply Qlt_bool_iff in E. exfalso. eapply Qlt_irrefl, Qlt_trans; eauto.
Qed.

Lemma flaky_entry_score (entry : string * list string) (t : FlakyTest) :
  flaky_entry entry = Some t ->
  name t = fst entry /\ outcomes t = snd entry /\
  0.2 <= flakiness_score t /\ flakiness_score t <= 1 # 2.
Proof.
  destruct entry as [k vs]. unfold flaky_entry.
  destruct (Nat.leb_spec 5 (length vs)) as [H5|]; [|discriminate].
  destruct (Nat.ltb_spec 0 (count "passed" vs)) as [Hp|]; [|discriminate].
  destruct (Nat.ltb_spec 0 (count "failed" vs)) as [Hf|]; [|discriminate].
  cbn [andb]. destruct (Qle_bool 0.2 _) eqn:Hq; [|discriminate].
  intros [= <-]. cbn [name outcomes flakiness_score fst snd].
  apply Qle_bool_iff in Hq. repeat split; [exact Hq|].
  assert (count "passed" vs + count "failed" vs <= length vs)%nat as Hsum.
  { unfold count. clear. induction vs as [|v vs IH]; [simpl; lia|].
    rewrite !filter_cons.
    destruct (decide (v = "passed")); destruct (decide (v = "failed"));
      simpl; try lia. congruence. }
  apply Qle_shift_div_r.
  - unfold Q_of_nat, Qlt. simpl. lia.
  - unfold Q_of_nat, Qle. simpl. lia.
Qed.

(** X21.  The flaky-test analysis gives no insight when no test is
    flaky and one insight otherwise; the insight counts the flaky tests,
    is of high severity exactly when there are more than ten, and lists
    at most five of them, by falling score; every score lies between
    0.2 and 0.5. *)
Theorem flaky_insight_shape (test_history : list TestRun) :
  (flaky_tests test_history = [] -> _analyze_flaky_tests test_history = []) /\
  (flaky_tests test_history <> [] ->
   exists insight top,
     _analyze_flaky_tests test_history = [insight] /\
     data_points insight = FlakyData (length (flaky_tests test_history)) top /\
     (severity insight = "high" <->
      (10 < length (flaky_tests test_history))%nat) /\
     (length top <= 5)%nat /\
     Sorted (fun a b => snd b <= snd a) top /\
     Forall (fun a => 0.2 <= snd a /\ snd a <= 1 # 2) top) /\
  Forall (fun t => 0.2 <= flakiness_score t /\ flakiness_score t <= 1 # 2)
         (flaky_tests test_history).
Proof.
  assert (Forall (fun t => 0.2 <= flakiness_score t /\
                           flakiness_score t <= 1 # 2)
                 (flaky_tests test_history)) as Hscores.
  { unfold flaky_tests. apply Forall_forall. intros t Ht.
    apply list_elem_of_omap in Ht as (entry & _ & He).
    apply flaky_entry_score in He. tauto. }
  split; [|split; [|exact Hscores]].
  - unfold _analyze_flaky_tests. intros ->. reflexivity.
  - intros Hne. unfold _analyze_flaky_tests.
    destruct (flaky_tests test_history) as [|t flaky] eqn:E; [congruence|].
    cbv zeta.
    set (sorted := PyDict.sort_reverse Qlt_bool flakiness_score (t :: flaky)).
    assert (length sorted = length (t :: flaky)) as Hlen.
    { symmetry. apply Permutation_length, sort_reverse_perm. }
    assert (Sorted (PyDict.not_below Qlt_bool flakiness_score) sorted) as Hs.
    { apply sort_reverse_sorted. apply Qlt_bool_asym. }
    assert (Forall (fun t => 0.2 <= flakiness_score t /\
                             flakiness_score t <= 1 # 2) sorted) as Hall.
    { eapply Permutation_Forall; [apply sort_reverse_perm | exact Hscores]. }
    eexists _, _. split; [reflexivity|]. cbn [data_points severity].
    rewrite Hlen. split; [reflexivity|]. split; [|split; [|split]].
    + destruct (Nat.ltb_spec 10 (length (t :: flaky))); split;
        intros H'; try lia; try reflexivity; discriminate.
    + rewrite length_map, length_take. lia.
    + assert (forall l, Sorted (PyDict.not_below Qlt_bool flakiness_score) l ->
                        Sorted (fun a b : string * Q => snd b <= snd a)
                               (map (fun t => (name t, flakiness_score t))
                                    (take 5 l))) as Hmap.
      { clear. intros l Hl. generalize 5%nat as n.
        induction Hl as [|x l Hs IH Hhd]; intros [|n]; cbn [take map];
          try constructor; [apply IH|].
        destruct Hhd as [|y l Hxy]; destruct n; cbn [take map]; constructor.
        unfold PyDict.not_below in Hxy. cbn [snd].
        apply Qnot_lt_le. intros Hlt.
        apply Qlt_bool_iff in Hlt. congruence. }
      apply Hmap, Hs.
    + apply Forall_map. apply Forall_take. exact Hall.
Qed.

Lemma flaky_insight_shape_witness :
  _analyze_flaky_tests (Samples.runs_of "test_login" ["passed"; "passed"]) = [].
Proof.
  apply (proj1 (flaky_insight_shape
                  (Samples.runs_of "test_login" ["passed"; "passed"]))).
  reflexivity.
Defined.

End FlakyMore.


(** ** The trend *)

Section Trend.
Import Trends.

Lemma foldr_add_init (l : list Z) (b : Z) :
  foldr Z.add b l = (foldr Z.add 0 l + b)%Z.
Proof. induction l as [|x l IH]; simpl; [lia | rewrite IH; lia]. Qed.

Lemma sum_range_S (f : Z -> Z) (n : nat) :
  sum_range f (S n) = (sum_range f n + f (Z.of_nat n))%Z.
Proof.
  unfold sum_range. rewrite seq_S, !fmap_app, foldr_app. simpl.
  rewrite foldr_add_init. lia.
Qed.

Lemma sum_range_linear (n : nat) :
  (2 * sum_range (fun i => i) n = Z.of_nat n * (Z.of_nat n - 1))%Z.
Proof.
  induction n as [|n IH]; [reflexivity|].
  rewrite sum_range_S, Nat2Z.inj_succ. lia.
Qed.

Lemma sum_range_square (n : nat) :
  (6 * sum_range (fun i => i * i) n
   = (Z.of_nat n - 1) * Z.of_nat n * (2 * Z.of_nat n - 1))%Z.
Proof.
  induction n as [|n IH]; [reflexivity|].
  rewrite sum_range_S, Nat2Z.inj_succ. nia.
Qed.

(** The divisor of the slope is n^2 (n^2 - 1) / 12. *)
Lemma divisor_closed_form (n : nat) :
  (12 * (Z.of_nat n * sum_range (fun i => i * i) n
         - sum_range (fun i => i) n * sum_range (fun i => i) n)
   = Z.of_nat n * Z.of_nat n * (Z.of_nat n * Z.of_nat n - 1))%Z.
Proof.
  pose proof (sum_range_linear n) as H1.
  pose proof (sum_range_square n) as H2.
  set (a := sum_range (fun i => i) n) in *.
  set (b := sum_range (fun i => i * i)%Z n) in *.
  set (m := Z.of_nat n) in *. nia.
Qed.

(** X22.  The slope is always computed: with fewer than two values it is
    0, and with two or more the divisor, n^2 (n^2 - 1) / 12, is positive,
    so the division never fails. *)
Theorem trend_never_fails (values : list Q) :
  exists slope,
    _calculate_trend values = Ok slope /\
    ((length values < 2)%nat -> slope = 0.0%Q) /\
    ((2 <= length values)%nat ->
     (0 < Z.of_nat (length values)
          * sum_range (fun i => i * i) (length values)
          - sum_range (fun i => i) (length values)
            * sum_range (fun i => i) (length values))%Z).
Proof.
  unfold _calculate_trend.
  pose proof (divisor_closed_form (length values)) as Hd.
  destruct (Nat.ltb_spec (length values) 2) as [Hshort|Hlong].
  - eexists. split; [reflexivity|]. split; [reflexivity | lia].
  - cbv zeta.
    set (d := (Z.of_nat (length values)
               * sum_range (fun i => i * i) (length values)
               - sum_range (fun i => i) (length values)
                 * sum_range (fun i => i) (length values))%Z) in *.
    assert (0 < d)%Z as Hpos by nia.
    destruct (Z.eqb_spec d 0) as [H0|_]; [lia|].
    eexists. split; [reflexivity|]. split; [lia | auto].
Qed.

Lemma trend_never_fails_witness :
  exists slope, _calculate_trend [0.4%Q] = Ok slope /\ slope = 0.0%Q.
Proof.
  destruct (trend_never_fails [0.4%Q]) as (slope & Hrun & Hshort & _).
  exists slope. split; [exact Hrun|]. apply Hshort. simpl. lia.
Defined.

End Trend.

(** ** Coverage by component *)

Section CoverageFacts.
Import Dashboard Coverage.
Local Open Scope Q_scope.

Lemma count_tests_is_counter (tests : list TestDetail) : forall counts,
  fold_left count_test tests counts =
  fold_left (fun c k => PyDict.counter_add k c)
            (component_of_test <$> tests) counts.
Proof.
  induction tests as [|t tests IH]; intros counts; [reflexivity|].
  rewrite fmap_cons. cbn [fold_left]. apply IH.
Qed.

Lemma mjoin_cons {A} (l : list A) (ls : list (list A)) :
  mjoin (l :: ls) = l ++ mjoin ls.
Proof. reflexivity. Qed.

Lemma coverage_is_counter (test_history : list TestRun) :
  component_coverage test_history =
  PyDict.Counter (component_of_test <$> scanned_tests test_history).
Proof.
  unfold component_coverage, scanned_tests, PyDict.Counter.
  generalize (@nil (string * nat)).
  induction (PyDict.last_n 5 test_history) as [|run runs IH]; intros counts;
    [reflexivity|].
  rewrite fmap_cons, mjoin_cons. cbn [fold_left].
  rewrite fmap_app, fold_left_app, IH, count_tests_is_counter. reflexivity.
Qed.

Lemma count_fmap (c : string) (tests : list TestDetail) :
  Dashboard.count c (component_of_test <$> tests) =
  length (filter (fun t => component_of_test t = c) tests).
Proof.
  unfold Dashboard.count. induction tests as [|t tests IH]; [reflexivity|].
  rewrite fmap_cons, !filter_cons.
  destruct (decide (component_of_test t = c)); simpl; rewrite IH; reflexivity.
Qed.

Lemma count_member (c : string) (items : list string) :
  c ∈ items <-> (0 < Dashboard.count c items)%nat.
Proof.
  unfold Dashboard.count. induction items as [|x items IH].
  - split; [intros H; inversion H | simpl; lia].
  - rewrite filter_cons, elem_of_cons.
    destruct (decide (x = c)) as [->|Hne]; simpl.
    + split; [lia | auto].
    + rewrite IH. split; [intros [H|H]; [congruence | exact H] | auto].
Qed.

Lemma percentage_low (n total : nat) :
  (0 < total)%nat ->
  (Qlt_bool (Q_of_nat n / Q_of_nat total * 100) 10 = true <->
   (10 * n < total)%nat).
Proof.
  intros Htotal. rewrite Qlt_bool_iff.
  assert (0 < Q_of_nat total) as Hpos by now apply Q_of_nat_pos.
  assert (Q_of_nat n == Q_of_nat total * (Q_of_nat n / Q_of_nat total)) as Hdiv.
  { field. intros H0. rewrite H0 in Hpos. now apply Qlt_irrefl in Hpos. }
  assert (10 * Q_of_nat n < Q_of_nat total <-> (10 * n < total)%nat) as Hz.
  { unfold Q_of_nat, Qlt. simpl. lia. }
  rewrite <- Hz. revert Hdiv. generalize (Q_of_nat n / Q_of_nat total).
  intros x Hdiv. split; intros H; nra.
Qed.

(** X23.  A component is reported as poorly covered exactly when it is
    not [other], has at least one test in the last five runs, and has
    fewer than a tenth of the tests of these runs; a component without
    any test is not reported.  An insight is given exactly when some
    component is reported. *)
Theorem low_coverage_iff (test_history : list TestRun) :
  (forall component,
      component ∈ low_coverage_components (component_coverage test_history)
      <->
      component <> "other" /\
      (0 < tests_of component test_history)%nat /\
      (10 * tests_of component test_history
       < length (scanned_tests test_history))%nat) /\
  (_analyze_test_coverage test_history = [] <->
   low_coverage_components (component_coverage test_history) = []).
Proof.
  unfold _analyze_test_coverage. cbv zeta. rewrite coverage_is_counter.
  set (items := component_of_test <$> scanned_tests test_history).
  assert (total_tests (PyDict.Counter items)
          = length (scanned_tests test_history)) as Htotal.
  { change (total_tests (PyDict.Counter items))
      with (Notions.total_count (PyDict.Counter items)).
    rewrite Counter_total. unfold items. now rewrite length_fmap. }
  destruct (Counter_keys items) as [Hnd Hkeys].
  split.
  - intros component. unfold low_coverage_components. rewrite Htotal.
    rewrite list_elem_of_omap.
    assert (tests_of component test_history = Dashboard.count component items)
      as Htests.
    { unfold tests_of, items. now rewrite count_fmap. }
    split.
    + intros ([c n] & Hin & Hsel).
      destruct (Qlt_bool _ 10 && negb (String.eqb c "other")) eqn:Hb;
        [|discriminate].
      injection Hsel as ->. apply andb_true_iff in Hb as [Hlow Hother].
      apply negb_true_iff, String.eqb_neq in Hother.
      pose proof (get_of_member _ _ _ Hnd Hin) as Hn.
      rewrite get_Counter in Hn.
      assert (component ∈ items) as Hmem.
      { apply Hkeys. apply list_elem_of_fmap. exists (component, n). auto. }
      apply count_member in Hmem.
      assert (0 < length (scanned_tests test_history))%nat as Hpos.
      { unfold items in Hmem. rewrite count_fmap in Hmem.
        pose proof (length_filter
                      (fun t => component_of_test t = component)
                      (scanned_tests test_history)). lia. }
      apply (percentage_low n _ Hpos) in Hlow.
      rewrite Htests. split; [exact Hother|]. split; lia.
    + intros (Hother & Hsome & Hlow). rewrite Htests in Hsome, Hlow.
      assert (exists n, (component, n) ∈ PyDict.Counter items) as [n Hin].
      { destruct (decide (component ∈ (fst <$> PyDict.Counter items)))
          as [Hk|Hk].
        - apply list_elem_of_fmap in Hk as ([c n] & -> & Hin). eauto.
        - exfalso.
          assert (PyDict.get (PyDict.Counter items) component 0%nat = 0%nat)
            as H0.
          { clear -Hk. induction (PyDict.Counter items) as [|[c n] l IH];
              [reflexivity|].
            rewrite fmap_cons in Hk. cbn [PyDict.get fst snd] in *.
            destruct (String.eqb_spec c component) as [->|Hne].
            - exfalso. apply Hk. left.
            - apply IH. intros H. apply Hk. now right. }
          rewrite get_Counter in H0. lia. }
      exists (component, n). split; [exact Hin|].
      pose proof (get_of_member _ _ _ Hnd Hin) as Hn.
      rewrite get_Counter in Hn.
      assert (0 < length (scanned_tests test_history))%nat as Hpos by lia.
      assert (Qlt_bool (Q_of_nat n
                        / Q_of_nat (length (scanned_tests test_history)) * 100)
                       10 = true) as ->.
      { apply (percentage_low n _ Hpos). lia. }
      apply String.eqb_neq in Hother. now rewrite Hother.
  - destruct (Nat.ltb_spec 0 (total_tests (PyDict.Counter items))) as [Hpos|Hz].
    + destruct (low_coverage_components (PyDict.Counter items));
        split; intros H; try reflexivity; discriminate H.
    + assert (PyDict.Counter items = []) as E0.
      { destruct (PyDict.Counter items) as [|[c n] l] eqn:E; [reflexivity|].
        exfalso.
        assert (c ∈ items) as Hmem.
        { apply Hkeys. rewrite fmap_cons. left. }
        apply count_member in Hmem. unfold items in Hmem.
        rewrite count_fmap in Hmem.
        pose proof (length_filter (fun t => component_of_test t = c)
                      (scanned_tests test_history)). lia. }
      rewrite E0. split; intros _; reflexivity.
Qed.

End CoverageFacts.
